(** * tafseer-backend: quota ledger, subscription lifecycle and access gates

    A shallow embedding of the route handlers of the dream-interpretation
    backend (Express + Prisma), and the properties its specification
    states about them.

    Conventions of the embedding.
    - The database is a record of tables; a table is the list of its rows
      in insertion order.
    - A handler is a function from the database (and the inputs the
      environment supplies: the clock reading [now], freshly generated row
      ids, the bcrypt digest) to a response and the next database.
    - [prisma.$transaction] runs in the monad [Tx]: a thrown error discards
      every write of the callback.
    - Instants are milliseconds since the epoch, in [Z]; one run of a
      handler reads the clock once.
    - Primary keys, unique indexes, foreign keys and the 32-bit range of
      [Int] columns are checked by the writes; column widths and decimal
      precision are not modelled. *)

From Stdlib Require Import ZArith List Sorted String Ascii Bool Lia QArith Qround
  DecimalString.
Import ListNotations.
Open Scope string_scope.
Open Scope list_scope.
Open Scope Z_scope.

(** ** JavaScript values and conversions *)

(** A Number: finite values are kept exact. *)
Inductive JSNum : Type :=
| NaN
| PosInf
| NegInf
| Fin (q : Q).

(** A Number whose value is integral or not finite: the range of
    [Math.ceil] and of [parseInt]. *)
Inductive IntNum : Type :=
| INaN
| IPosInf
| INegInf
| IFin (z : Z).

(** A value of a parsed JSON body.  [JObject prim] stands for an array or
    an object whose conversion to a primitive is the string [prim]. *)
Inductive JsVal : Type :=
| JUndefined
| JNull
| JBool (b : bool)
| JNumber (n : JSNum)
| JString (s : string)
| JObject (prim : string).

(** Strings whose code units matter are lists of UTF-16 code units. *)
Definition JsString := list Z.

Definition ToBoolean (v : JsVal) : bool :=
  match v with
  | JUndefined | JNull => false
  | JBool b => b
  | JNumber NaN => false
  | JNumber (Fin q) => negb (Qnum q =? 0)
  | JNumber _ => true
  | JString s => negb (String.eqb s "")
  | JObject _ => true
  end.

(** [!s] for an optional string field. *)
Definition truthy_string (s : option string) : bool :=
  match s with
  | Some s => negb (String.eqb s "")
  | None => false
  end.

Definition truthy_jsstring (s : option JsString) : bool :=
  match s with
  | Some (_ :: _) => true
  | _ => false
  end.

Definition Math_ceil (n : JSNum) : IntNum :=
  match n with
  | NaN => INaN
  | PosInf => IPosInf
  | NegInf => INegInf
  | Fin q => IFin (Qceiling q)
  end.

(** [n > 0] on a Number. *)
Definition gt0 (n : IntNum) : bool :=
  match n with
  | IPosInf => true
  | IFin z => 0 <? z
  | _ => false
  end.

(** [used + n > quota] with [used] and [quota] integers. *)
Definition sum_exceeds (used : Z) (n : IntNum) (quota : Z) : bool :=
  match n with
  | IPosInf => true
  | IFin z => quota <? used + z
  | _ => false
  end.

(** *** The string iterator

    [Array.from(s)] walks [s] with the string iterator: a lead surrogate
    followed by a trail surrogate is one element, any other code unit is
    an element of its own. *)

Definition isLeadSurrogate (c : Z) : bool := (55296 <=? c) && (c <=? 56319).
Definition isTrailSurrogate (c : Z) : bool := (56320 <=? c) && (c <=? 57343).

Definition UTF16SurrogatePairToCodePoint (lead trail : Z) : Z :=
  (lead - 55296) * 1024 + (trail - 56320) + 65536.

Fixpoint Array_from (s : JsString) : list Z :=
  match s with
  | [] => []
  | c :: rest =>
      if isLeadSurrogate c then
        match rest with
        | d :: rest' =>
            if isTrailSurrogate d
            then UTF16SurrogatePairToCodePoint c d :: Array_from rest'
            else c :: Array_from rest
        | [] => [c]
        end
      else c :: Array_from rest
  end.

(** *** parseInt

    [parseInt(s)] without a radix: leading white space is skipped, a sign
    is read, a [0x] prefix selects radix 16, and the longest prefix of
    digits is the value; no digit gives NaN.  Values are exact.

    White space is the language's [WhiteSpace] and [LineTerminator] on
    the code units below 256, which is all a header value or a metadata
    string of this model holds: TAB, LF, VT, FF, CR, SP and NBSP. *)

Definition isWhiteSpace (c : ascii) : bool :=
  let n := nat_of_ascii c in
  ((9 <=? n) && (n <=? 13))%nat || (n =? 32)%nat || (n =? 160)%nat.

Fixpoint skipWhiteSpace (s : string) : string :=
  match s with
  | String c rest => if isWhiteSpace c then skipWhiteSpace rest else s
  | EmptyString => s
  end.

Definition digitValue (c : ascii) : option Z :=
  let n := Z.of_nat (nat_of_ascii c) in
  if (48 <=? n) && (n <=? 57) then Some (n - 48)
  else if (97 <=? n) && (n <=? 122) then Some (n - 87)
  else if (65 <=? n) && (n <=? 90) then Some (n - 55)
  else None.

(** The digits of [s] in radix [R], most significant first, up to the
    first character that is not one. *)
Fixpoint readDigits (R : Z) (s : string) : list Z :=
  match s with
  | String c rest =>
      match digitValue c with
      | Some d => if d <? R then d :: readDigits R rest else []
      | None => []
      end
  | EmptyString => []
  end.

Definition digitsValue (R : Z) (ds : list Z) : Z :=
  fold_left (fun acc d => acc * R + d) ds 0.

Definition parseDigits (R : Z) (sign : Z) (s : string) : IntNum :=
  match readDigits R s with
  | [] => INaN
  | ds => IFin (sign * digitsValue R ds)
  end.

Definition parseUnsigned (sign : Z) (s : string) : IntNum :=
  match s with
  | String "0" (String "x" rest) => parseDigits 16 sign rest
  | String "0" (String "X" rest) => parseDigits 16 sign rest
  | _ => parseDigits 10 sign s
  end.

Definition parseInt (s : string) : IntNum :=
  match skipWhiteSpace s with
  | String "-" rest => parseUnsigned (-1) rest
  | String "+" rest => parseUnsigned 1 rest
  | rest => parseUnsigned 1 rest
  end.

(** *** Dates

    [d.setDate(d.getDate() + n)] works on local time: the time value is
    shifted to local time, moved by [n] days of 86 400 000 ms (the time
    within the day is kept), shifted back with the offset in force at the
    new local time and clipped to the range of Date.  [LocalTZA t true]
    is the offset of the server's time zone from UTC at the UTC instant
    [t], [LocalTZA t false] the offset at the local time [t].  A day
    count that is NaN or infinite, or a result out of range, gives an
    Invalid Date ([None]), which Prisma refuses to store. *)

Definition msPerDay : Z := 86400000.

Definition TimeZone : Type := Z -> bool -> Z.

Definition LocalTime (LocalTZA : TimeZone) (t : Z) : Z := t + LocalTZA t true.

Definition UTC (LocalTZA : TimeZone) (t : Z) : Z := t - LocalTZA t false.

Definition TimeClip (t : Z) : option Z :=
  if Z.abs t <=? 8640000000000000 then Some t else None.

Definition addDays (LocalTZA : TimeZone) (t : Z) (n : IntNum) : option Z :=
  match n with
  | IFin d => TimeClip (UTC LocalTZA (LocalTime LocalTZA t + d * msPerDay))
  | _ => None
  end.

(** [s.toUpperCase()] on the ASCII letters. *)
Definition upperAscii (c : ascii) : ascii :=
  let n := nat_of_ascii c in
  if ((97 <=? n) && (n <=? 122))%nat then ascii_of_nat (n - 32) else c.

Fixpoint toUpperCase (s : string) : string :=
  match s with
  | String c rest => String (upperAscii c) (toUpperCase rest)
  | EmptyString => EmptyString
  end.


(** Template literals print integers in decimal. *)
Definition Z_toString (z : Z) : string := NilZero.string_of_int (Z.to_int z).

(** ** The data model (prisma/schema.prisma, as the handlers use it) *)

Inductive Role : Type := dreamer | interpreter | admin | super_admin.

Inductive DreamStatus : Type :=
| status_new | pending_inquiry | pending_interpretation | interpreted | returned.

Inductive PaymentStatus : Type :=
| pending | succeeded | failed | refunded | cancelled.

Inductive MessageType : Type := type_text | type_audio.

Module User.
Record t : Type := mk
  { id : string; email : string; password : string }.
End User.

Module Profile.
Record t : Type := mk
  { id : string; email : string; fullName : string; role : Role;
    currentPlanId : option string }.
End Profile.

Module Plan.
Record t : Type := mk
  { id : string; name : string; price : Q; currency : string;
    durationDays : Z;
    maxDreams : option Z; letterQuota : option Z;
    audioMinutesQuota : option Z;
    isActive : bool; isTrial : bool; trialDurationDays : option Z;
    createdAt : Z }.
End Plan.

Module UserPlan.
Record t : Type := mk
  { id : string; userId : string; planId : string;
    startedAt : Z; expiresAt : option Z; isActive : bool;
    lettersUsed : Z; audioMinutesUsed : Z }.
End UserPlan.

(** The JSON column [metadata] of a dream is not tracked. *)
Module Dream.
Record t : Type := mk
  { id : string; dreamerId : string; interpreterId : option string;
    title : string; content : JsString; description : JsString;
    dreamDate : option Z; mood : option string; status : DreamStatus;
    createdAt : Z }.
End Dream.

Module Payment.
Record t : Type := mk
  { id : string; userId : string; planId : option string;
    amount : Q; currency : string; status : PaymentStatus;
    provider : option string; reference : option string;
    paidAt : option Z }.
End Payment.

Module Message.
Record t : Type := mk
  { id : string; dreamId : string; senderId : string;
    content : JsString; messageType : MessageType;
    audioUrl : option string; createdAt : Z }.
End Message.

Module Comment.
Record t : Type := mk
  { id : string; dreamId : string; userId : string;
    content : JsString; createdAt : Z }.
End Comment.

Record DB : Type := mkDB
  { users : list User.t;
    profiles : list Profile.t;
    plans : list Plan.t;
    userPlans : list UserPlan.t;
    dreams : list Dream.t;
    payments : list Payment.t;
    messages : list Message.t;
    comments : list Comment.t }.

Definition set_users (db : DB) (l : list User.t) : DB :=
  mkDB l (profiles db) (plans db) (userPlans db) (dreams db) (payments db)
       (messages db) (comments db).
Definition set_profiles (db : DB) (l : list Profile.t) : DB :=
  mkDB (users db) l (plans db) (userPlans db) (dreams db) (payments db)
       (messages db) (comments db).
Definition set_userPlans (db : DB) (l : list UserPlan.t) : DB :=
  mkDB (users db) (profiles db) (plans db) l (dreams db) (payments db)
       (messages db) (comments db).
Definition set_dreams (db : DB) (l : list Dream.t) : DB :=
  mkDB (users db) (profiles db) (plans db) (userPlans db) l (payments db)
       (messages db) (comments db).
Definition set_payments (db : DB) (l : list Payment.t) : DB :=
  mkDB (users db) (profiles db) (plans db) (userPlans db) (dreams db) l
       (messages db) (comments db).
Definition set_messages (db : DB) (l : list Message.t) : DB :=
  mkDB (users db) (profiles db) (plans db) (userPlans db) (dreams db)
       (payments db) l (comments db).

(** ** Transactions

    The callback of [prisma.$transaction] is a computation that reads and
    writes the database and may throw.  [None] is a thrown error: the
    writes made so far are dropped with it. *)

Definition Tx (A : Type) : Type := DB -> option (A * DB).

Definition ret {A : Type} (a : A) : Tx A := fun db => Some (a, db).

Definition bind {A B : Type} (m : Tx A) (k : A -> Tx B) : Tx B :=
  fun db =>
    match m db with
    | Some (a, db') => k a db'
    | None => None
    end.

Definition throw {A : Type} : Tx A := fun _ => None.

Declare Scope tx_scope.
Delimit Scope tx_scope with tx.
Notation "x <- m ;; k" := (bind m (fun x => k))
  (at level 61, m at next level, right associativity) : tx_scope.
Notation "m ;; k" := (bind m (fun _ => k))
  (at level 61, right associativity) : tx_scope.

(** [await prisma.$transaction(cb)]: the value of [cb] and its writes, or
    the error and the database as it was. *)
Definition transaction {A : Type} (cb : Tx A) (db : DB) : option A * DB :=
  match cb db with
  | Some (a, db') => (Some a, db')
  | None => (None, db)
  end.

(** A single awaited Prisma write outside a transaction: its value, or the
    thrown error with nothing written. *)
Definition await {A : Type} (q : Tx A) (db : DB) : option A * DB :=
  transaction q db.

(** Reading a property of [undefined] or [null] throws a TypeError. *)
Definition deref {A : Type} (o : option A) : Tx A :=
  match o with
  | Some a => ret a
  | None => throw
  end.

(** ** Prisma queries *)

(** Columns of type [Int] hold 32-bit signed integers; a write outside
    that range is refused. *)
Definition int32 (z : Z) : bool := (-2147483648 <=? z) && (z <=? 2147483647).

(** [orderBy: { key: 'desc' }]: rows with equal keys keep table order. *)
Fixpoint insertDesc {A : Type} (key : A -> Z) (x : A) (l : list A) : list A :=
  match l with
  | [] => [x]
  | y :: l' =>
      if key y <=? key x then x :: l else y :: insertDesc key x l'
  end.

Definition orderByDesc {A : Type} (key : A -> Z) (l : list A) : list A :=
  fold_right (insertDesc key) [] l.

Definition profile_findUnique (db : DB) (id : string) : option Profile.t :=
  find (fun p => String.eqb (Profile.id p) id) (profiles db).

Definition plan_findUnique (db : DB) (id : string) : option Plan.t :=
  find (fun p => String.eqb (Plan.id p) id) (plans db).

Definition dream_findUnique (db : DB) (id : string) : option Dream.t :=
  find (fun d => String.eqb (Dream.id d) id) (dreams db).

Definition user_findUnique_email (db : DB) (email : string) : option User.t :=
  find (fun u => String.eqb (User.email u) email) (users db).

Definition userPlan_findUnique_userId_planId (db : DB) (userId planId : string)
  : option UserPlan.t :=
  find (fun s => String.eqb (UserPlan.userId s) userId
                 && String.eqb (UserPlan.planId s) planId) (userPlans db).

Definition userPlan_findUnique (db : DB) (id : string) : option UserPlan.t :=
  find (fun s => String.eqb (UserPlan.id s) id) (userPlans db).

Definition existsb_id {A : Type} (id_of : A -> string) (id : string)
  (l : list A) : bool :=
  existsb (fun a => String.eqb (id_of a) id) l.

Definition replace_row {A : Type} (id_of : A -> string) (id : string)
  (row : A) (l : list A) : list A :=
  map (fun a => if String.eqb (id_of a) id then row else a) l.

(** [tx.userPlan.update({ where: { id }, data })]: throws when no row has
    that id or when [data] is refused. *)
Definition userPlan_update (id : string)
  (data : UserPlan.t -> option UserPlan.t) : Tx UserPlan.t :=
  fun db =>
    match userPlan_findUnique db id with
    | None => None
    | Some s =>
        match data s with
        | None => None
        | Some s' =>
            Some (s', set_userPlans db
                        (replace_row UserPlan.id id s' (userPlans db)))
        end
    end.

(** [{ increment: n }] on an [Int] column. *)
Definition increment (col : Z) (n : IntNum) : option Z :=
  match n with
  | IFin z => if int32 z && int32 (col + z) then Some (col + z) else None
  | _ => None
  end.

(** [tx.dream.create]: the primary key is new and the dreamer exists; an
    Invalid Date is refused. *)
Definition dream_create (id dreamerId : string) (title : string)
  (content description : JsString) (dreamDate : option (option Z))
  (mood : option string) (createdAt : Z) : Tx Dream.t :=
  fun db =>
    if existsb_id Dream.id id (dreams db) then None
    else if negb (existsb_id Profile.id dreamerId (profiles db)) then None
    else
      match dreamDate with
      | Some None => None
      | _ =>
          let d := Dream.mk id dreamerId None title content description
                     (match dreamDate with Some t => t | None => None end)
                     mood status_new createdAt in
          Some (d, set_dreams db (dreams db ++ [d]))
      end.

(** [prisma.dream.count({ where: { dreamerId, createdAt: { gte } } })] *)
Definition dream_count (db : DB) (dreamerId : string) (gte : Z) : Z :=
  Z.of_nat (List.length (filter (fun d => String.eqb (Dream.dreamerId d) dreamerId
                                     && (gte <=? Dream.createdAt d))
                           (dreams db))).

(** ** Responses *)

Inductive Body : Type :=
| Error (error : string) (code : option string)
| DreamJson (d : Dream.t)
| MessagesJson (l : list Message.t)
| MessageJson (m : Message.t)
| CommentsJson (l : list Comment.t)
| CommentJson (c : Comment.t)
| SubscriptionJson (s : UserPlan.t)
| RegisteredJson (u : User.t) (p : Profile.t)
| Received
| OtherJson.

Record Response : Type := mkResponse { status : Z; body : Body }.

Definition code_of (r : Response) : option string :=
  match body r with
  | Error _ c => c
  | _ => None
  end.

(** ** routes/dreams.ts *)

Definition subscriptionIsCurrent (now : Z) (userId : string) (s : UserPlan.t)
  : bool :=
  String.eqb (UserPlan.userId s) userId
  && UserPlan.isActive s
  && match UserPlan.expiresAt s with
     | None => true
     | Some e => now <? e
     end.

(** The subscription row with its [plan] relation. *)
Definition getActiveSubscription (db : DB) (now : Z) (userId : string)
  : option (UserPlan.t * option Plan.t) :=
  match orderByDesc UserPlan.startedAt
          (filter (subscriptionIsCurrent now userId) (userPlans db)) with
  | s :: _ => Some (s, plan_findUnique db (UserPlan.planId s))
  | [] => None
  end.

Definition countContentLetters (content : option JsString) : Z :=
  if negb (truthy_jsstring content) then 0
  else
    Z.of_nat (List.length
                (Array_from (match content with Some s => s | None => [] end))).

Module DreamBody.
Record t : Type := mk
  { title : option string; description : option JsString;
    dream_date : JsVal; mood : option string; audioMinutes : JsVal }.
End DreamBody.

Definition isAdminRole (r : Role) : bool :=
  match r with
  | admin | super_admin => true
  | _ => false
  end.

Section Dreams.

(** [Number(s)] on a string, and [new Date(v)] ([None]: Invalid Date), are
    the runtime's. *)
Variable StringToNumber : string -> JSNum.
Variable newDate : JsVal -> option Z.

Definition Number (v : JsVal) : JSNum :=
  match v with
  | JUndefined => NaN
  | JNull => Fin 0
  | JBool b => if b then Fin 1 else Fin 0
  | JNumber n => n
  | JString s => StringToNumber s
  | JObject prim => StringToNumber prim
  end.

Definition audioMinutesRequested_of (audioMinutes : JsVal) : IntNum :=
  if ToBoolean audioMinutes then Math_ceil (Number audioMinutes) else IFin 0.

(** The block under [if (!isAdmin)]: an early response, or the
    subscription the request is charged to. *)
Definition planChecks (db : DB) (now : Z) (userId : string)
  (letterCount : Z) (audioMinutesRequested : IntNum)
  : Response + UserPlan.t :=
  match getActiveSubscription db now userId with
  | None | Some (_, None) =>
      inl (mkResponse 402 (Error "Active subscription required"
                                 (Some "NO_ACTIVE_SUBSCRIPTION")))
  | Some (subscription, Some plan) =>
      if match Plan.letterQuota plan with
         | Some q => q <? UserPlan.lettersUsed subscription + letterCount
         | None => false
         end
      then
        inl (mkResponse 403
               (Error ("Letter quota exceeded for the current plan ("
                       ++ Z_toString (match Plan.letterQuota plan with
                                      | Some q => q | None => 0 end)
                       ++ " characters)")%string
                      (Some "QUOTA_EXCEEDED")))
      else if gt0 audioMinutesRequested
              && match Plan.audioMinutesQuota plan with
                 | Some q => sum_exceeds (UserPlan.audioMinutesUsed subscription)
                               audioMinutesRequested q
                 | None => false
                 end
      then
        inl (mkResponse 403
               (Error ("Audio minutes quota exceeded for the current plan ("
                       ++ Z_toString (match Plan.audioMinutesQuota plan with
                                      | Some q => q | None => 0 end)
                       ++ " minutes)")%string
                      (Some "AUDIO_QUOTA_EXCEEDED")))
      else if match Plan.maxDreams plan with
              | Some m =>
                  m <=? dream_count db userId (UserPlan.startedAt subscription)
              | None => false
              end
      then
        inl (mkResponse 403
               (Error ("Maximum dreams limit ("
                       ++ Z_toString (match Plan.maxDreams plan with
                                      | Some m => m | None => 0 end)
                       ++ ") reached for your plan")%string
                      (Some "MAX_DREAMS_REACHED")))
      else inr subscription
  end.

(** [usageUpdateData] applied to the subscription row. *)
Definition usageUpdate (letterCount : Z) (audioMinutesRequested : IntNum)
  (s : UserPlan.t) : option UserPlan.t :=
  match increment (UserPlan.lettersUsed s) (IFin letterCount) with
  | None => None
  | Some letters =>
      if gt0 audioMinutesRequested then
        match increment (UserPlan.audioMinutesUsed s) audioMinutesRequested with
        | None => None
        | Some minutes =>
            Some (UserPlan.mk (UserPlan.id s) (UserPlan.userId s)
                    (UserPlan.planId s) (UserPlan.startedAt s)
                    (UserPlan.expiresAt s) (UserPlan.isActive s)
                    letters minutes)
        end
      else
        Some (UserPlan.mk (UserPlan.id s) (UserPlan.userId s)
                (UserPlan.planId s) (UserPlan.startedAt s)
                (UserPlan.expiresAt s) (UserPlan.isActive s)
                letters (UserPlan.audioMinutesUsed s))
  end.

(** The callback handed to [prisma.$transaction] by [POST /dreams]. *)
Definition createDreamTx (now : Z) (newId userId : string)
  (body : DreamBody.t) (subscription : option UserPlan.t)
  (letterCount : Z) (audioMinutesRequested : IntNum) : Tx Dream.t :=
  (createdDream <-
     dream_create newId userId
       (match DreamBody.title body with Some t => t | None => "" end)
       (match DreamBody.description body with Some d => d | None => [] end)
       (match DreamBody.description body with Some d => d | None => [] end)
       (if ToBoolean (DreamBody.dream_date body)
        then Some (newDate (DreamBody.dream_date body)) else None)
       (DreamBody.mood body) now ;;
   s <- deref subscription ;;
   _ <- userPlan_update (UserPlan.id s)
          (usageUpdate letterCount audioMinutesRequested) ;;
   ret createdDream)%tx.

(** [router.post('/', requireAuth, ...)]; [userId] is [req.user.userId]. *)
Definition dreams_post (now : Z) (newId userId : string)
  (body : DreamBody.t) (db : DB) : Response * DB :=
  if negb (truthy_string (DreamBody.title body))
     || negb (truthy_jsstring (DreamBody.description body))
  then (mkResponse 400 (Error "Title and description are required" None), db)
  else
    match profile_findUnique db userId with
    | None => (mkResponse 404 (Error "Profile not found" None), db)
    | Some profile =>
        let isAdmin := isAdminRole (Profile.role profile) in
        let letterCount := countContentLetters (DreamBody.description body) in
        let audioMinutesRequested :=
          audioMinutesRequested_of (DreamBody.audioMinutes body) in
        match (if negb isAdmin
               then match planChecks db now userId letterCount
                            audioMinutesRequested with
                    | inl r => inl r
                    | inr s => inr (Some s)
                    end
               else inr None) with
        | inl denied => (denied, db)
        | inr subscription =>
            match transaction
                    (createDreamTx now newId userId body subscription
                       letterCount audioMinutesRequested) db with
            | (Some dream, db') => (mkResponse 201 (DreamJson dream), db')
            | (None, db') =>
                (mkResponse 500 (Error "Failed to create dream" None), db')
            end
        end
    end.

End Dreams.

(** ** Subscription writes shared by routes/payments.ts and routes/plans.ts *)

(** [tx.payment.create]: new primary key, existing payer, existing plan
    when one is named. *)
Definition payment_create (p : Payment.t) : Tx Payment.t :=
  fun db =>
    if existsb_id Payment.id (Payment.id p) (payments db) then None
    else if negb (existsb_id Profile.id (Payment.userId p) (profiles db))
    then None
    else if match Payment.planId p with
            | Some pl => negb (existsb_id Plan.id pl (plans db))
            | None => false
            end
    then None
    else Some (p, set_payments db (payments db ++ [p])).

(** [tx.userPlan.create]: new primary key, new (user, plan) pair, existing
    user and plan. *)
Definition userPlan_create (s : UserPlan.t) : Tx UserPlan.t :=
  fun db =>
    if existsb_id UserPlan.id (UserPlan.id s) (userPlans db) then None
    else if match userPlan_findUnique_userId_planId db (UserPlan.userId s)
                    (UserPlan.planId s) with
            | Some _ => true
            | None => false
            end
    then None
    else if negb (existsb_id Profile.id (UserPlan.userId s) (profiles db))
    then None
    else if negb (existsb_id Plan.id (UserPlan.planId s) (plans db))
    then None
    else Some (s, set_userPlans db (userPlans db ++ [s])).

(** [tx.userPlan.upsert({ where: { userId_planId }, create, update })] *)
Definition userPlan_upsert (userId planId : string) (create : UserPlan.t)
  (update : UserPlan.t -> UserPlan.t) : Tx UserPlan.t :=
  fun db =>
    match userPlan_findUnique_userId_planId db userId planId with
    | Some s =>
        let s' := update s in
        Some (s', set_userPlans db
                    (replace_row UserPlan.id (UserPlan.id s) s' (userPlans db)))
    | None => userPlan_create create db
    end.

(** [tx.profile.update({ where: { id }, data: { currentPlanId } })] *)
Definition profile_update_currentPlanId (id planId : string) : Tx Profile.t :=
  fun db =>
    match profile_findUnique db id with
    | None => None
    | Some p =>
        if negb (existsb_id Plan.id planId (plans db)) then None
        else
          let p' := Profile.mk (Profile.id p) (Profile.email p)
                      (Profile.fullName p) (Profile.role p) (Some planId) in
          Some (p', set_profiles db
                      (replace_row Profile.id id p' (profiles db)))
    end.

(** ** routes/payments.ts: the Stripe webhook *)

Module Session.
Record t : Type := mk
  { id : string;
    userId : option string; planId : option string;
    durationDays : option string;
    amount_total : Z; currency : string;
    customer_email : option string }.
End Session.

Module StripeEvent.
Record t : Type := mk { type : string; object : Session.t }.
End StripeEvent.

(** The [update] branch of the webhook's upsert. *)
Definition webhookUpdate (now : Z) (expiresAt : Z) (s : UserPlan.t)
  : UserPlan.t :=
  UserPlan.mk (UserPlan.id s) (UserPlan.userId s) (UserPlan.planId s)
    now (Some expiresAt) true 0 0.

(** The transaction of the [checkout.session.completed] case. *)
Definition checkoutCompletedTx (LocalTZA : TimeZone) (now : Z)
  (newPaymentId newUserPlanId : string) (session : Session.t) : Tx unit :=
  (userId <- deref (Session.userId session) ;;
   _ <- payment_create
          (Payment.mk newPaymentId userId (Session.planId session)
             (Session.amount_total session # 100)
             (toUpperCase (Session.currency session))
             succeeded (Some "stripe") (Some (Session.id session))
             (Some now)) ;;
   planId <- deref (Session.planId session) ;;
   expiresAt <- deref (addDays LocalTZA now
                         (match Session.durationDays session with
                          | Some d => parseInt d
                          | None => INaN
                          end)) ;;
   _ <- userPlan_upsert userId planId
          (UserPlan.mk newUserPlanId userId planId now (Some expiresAt)
             true 0 0)
          (webhookUpdate now expiresAt) ;;
   _ <- profile_update_currentPlanId userId planId ;;
   ret tt)%tx.

(** The [try { switch (event.type) ... }] block of the webhook. *)
Definition handleEvent (LocalTZA : TimeZone) (now : Z)
  (newPaymentId newUserPlanId : string) (event : StripeEvent.t) (db : DB)
  : Response * DB :=
  if String.eqb (StripeEvent.type event) "checkout.session.completed" then
    match transaction
            (checkoutCompletedTx LocalTZA now newPaymentId newUserPlanId
               (StripeEvent.object event)) db with
    | (Some _, db') => (mkResponse 200 Received, db')
    | (None, db') =>
        (mkResponse 500 (Error "Webhook processing failed" None), db')
    end
  else if String.eqb (StripeEvent.type event) "payment_intent.payment_failed"
  then (* logged only *) (mkResponse 200 Received, db)
  else (* unhandled event type, logged *) (mkResponse 200 Received, db).

(** What the handler hands to [constructEvent] as payload: the body as
    it was sent (a string or a Buffer), or a value a body parser made of
    it. *)
Inductive Payload : Type :=
| RawBody (text : string)
| ParsedBody (value : JsVal).

Module WebhookRequest.
Record t : Type := mk
  { stripe_signature : option string; body : Payload }.
End WebhookRequest.

Section Webhook.

(** [stripe.webhooks.constructEvent(req.body, sig, secret)]: the event,
    or the message of the error it throws. *)
Variable constructEvent : Payload -> string -> StripeEvent.t + string.

Variable LocalTZA : TimeZone.

(** [router.post('/webhook', ...)]; [stripe] is null when no key is
    configured. *)
Definition payments_webhook (stripeConfigured : bool) (now : Z)
  (newPaymentId newUserPlanId : string) (req : WebhookRequest.t) (db : DB)
  : Response * DB :=
  if negb stripeConfigured
  then (mkResponse 503 (Error "Payment system not configured" None), db)
  else
    match WebhookRequest.stripe_signature req with
    | None | Some "" =>
        (mkResponse 400 (Error "No signature header" None), db)
    | Some sig =>
        match constructEvent (WebhookRequest.body req) sig with
        | inr message =>
            (mkResponse 400 (Error ("Webhook Error: " ++ message)%string None),
             db)
        | inl event =>
            handleEvent LocalTZA now newPaymentId newUserPlanId event db
        end
    end.

End Webhook.

(** ** server.ts: the way to the webhook handler

    [app.use(express.json({ limit: '10mb' }))] and
    [app.use(express.urlencoded(...))] are mounted for every route before
    [app.use('/api/payments', paymentsRoutes)], and no raw-body parser is
    mounted anywhere: when the handler runs, [req.body] is the value a
    body parser left there, never the body as it was sent. *)

Module Delivery.
Record t : Type := mk
  { stripe_signature : option string;
    contentType : option string;
    text : string }.
End Delivery.

Section Server.

(** The body parsers on a request: the answer of the global error
    handler when parsing fails, otherwise the value left in [req.body]
    (an object or an array; the empty object when no parser applies). *)
Variable bodyParsers : Delivery.t -> Response + JsVal.

Variable constructEvent : Payload -> string -> StripeEvent.t + string.

Variable LocalTZA : TimeZone.

(** [POST /api/payments/webhook] as the application serves it. *)
Definition api_payments_webhook (stripeConfigured : bool) (now : Z)
  (newPaymentId newUserPlanId : string) (delivery : Delivery.t) (db : DB)
  : Response * DB :=
  match bodyParsers delivery with
  | inl refused => (refused, db)
  | inr parsed =>
      payments_webhook constructEvent LocalTZA stripeConfigured now
        newPaymentId newUserPlanId
        (WebhookRequest.mk (Delivery.stripe_signature delivery)
           (ParsedBody parsed))
        db
  end.

End Server.

(** The primitive a plain object converts to. *)
Definition objectObject : string := "[object Object]".

(** ** routes/plans.ts: POST /subscribe *)

(** The [update] branch of the upsert of [POST /plans/subscribe]. *)
Definition subscribeUpdate (expiresAt : Z) (s : UserPlan.t) : UserPlan.t :=
  UserPlan.mk (UserPlan.id s) (UserPlan.userId s) (UserPlan.planId s)
    (UserPlan.startedAt s) (Some expiresAt) true 0 0.

(** The transaction of [POST /plans/subscribe]; [expiresAt] is the date
    computed before it, which the upsert refuses when it is invalid. *)
Definition subscribeTx (now : Z) (newPaymentId newUserPlanId : string)
  (userId planId : string) (plan : Plan.t) (expiresAt : option Z)
  : Tx UserPlan.t :=
  (expiresAt <- deref expiresAt ;;
   upserted <- userPlan_upsert userId planId
                 (UserPlan.mk newUserPlanId userId planId now (Some expiresAt)
                    true 0 0)
                 (subscribeUpdate expiresAt) ;;
   _ <- profile_update_currentPlanId userId planId ;;
   _ <- payment_create
          (Payment.mk newPaymentId userId (Some planId) (Plan.price plan)
             (Plan.currency plan) succeeded (Some "manual")
             (Some ("SUB-" ++ Z_toString now)%string) None) ;;
   ret upserted)%tx.

(** [router.post('/subscribe', requireAuth, ...)] *)
Definition plans_subscribe (LocalTZA : TimeZone) (now : Z)
  (newPaymentId newUserPlanId : string) (userId : string)
  (planId : option string) (db : DB) : Response * DB :=
  if negb (truthy_string planId)
  then (mkResponse 400 (Error "planId is required" None), db)
  else
    let planId := match planId with Some p => p | None => "" end in
    match plan_findUnique db planId with
    | None => (mkResponse 404 (Error "Plan not found" None), db)
    | Some plan =>
        let expiresAt :=
          addDays LocalTZA now (IFin (Plan.durationDays plan)) in
        match transaction
                (subscribeTx now newPaymentId newUserPlanId userId planId
                   plan expiresAt) db with
        | (Some subscription, db') =>
            (mkResponse 200 (SubscriptionJson subscription), db')
        | (None, db') =>
            (mkResponse 500 (Error "Failed to subscribe to plan" None), db')
        end
    end.

(** ** routes/messages.ts *)

Fixpoint insertAsc {A : Type} (key : A -> Z) (x : A) (l : list A) : list A :=
  match l with
  | [] => [x]
  | y :: l' =>
      if key x <=? key y then x :: l else y :: insertAsc key x l'
  end.

Definition orderByAsc {A : Type} (key : A -> Z) (l : list A) : list A :=
  fold_right (insertAsc key) [] l.

Definition roleIs (p : option Profile.t) (r : Role) : bool :=
  match p with
  | Some p =>
      match Profile.role p, r with
      | dreamer, dreamer | interpreter, interpreter
      | admin, admin | super_admin, super_admin => true
      | _, _ => false
      end
  | None => false
  end.

(** [x === userId] for a nullable column. *)
Definition isUser (x : option string) (userId : string) : bool :=
  match x with
  | Some i => String.eqb i userId
  | None => false
  end.

(** [router.get('/', requireAuth, ...)] of the messages router. *)
Definition messages_get (userId : string) (dream_id : option string)
  (db : DB) : Response * DB :=
  if negb (truthy_string dream_id)
  then (mkResponse 400 (Error "dream_id is required" None), db)
  else
    let dreamId := match dream_id with Some d => d | None => "" end in
    match dream_findUnique db dreamId with
    | None => (mkResponse 404 (Error "Dream not found" None), db)
    | Some dream =>
        let profile := profile_findUnique db userId in
        let hasAccess :=
          String.eqb (Dream.dreamerId dream) userId
          || isUser (Dream.interpreterId dream) userId
          || roleIs profile admin
          || roleIs profile super_admin in
        if negb hasAccess
        then (mkResponse 403 (Error "Forbidden" None), db)
        else
          let isSuperAdmin := roleIs profile super_admin in
          if negb (truthy_string (Dream.interpreterId dream))
             && negb isSuperAdmin
          then
            (mkResponse 403
               (Error "Messages are not available yet. An interpreter must be assigned to this dream first."
                      None), db)
          else
            (mkResponse 200
               (MessagesJson
                  (orderByAsc Message.createdAt
                     (filter (fun m => String.eqb (Message.dreamId m) dreamId)
                             (messages db)))), db)
    end.

Fixpoint stripPrefix (p s : string) : option string :=
  match p, s with
  | EmptyString, _ => Some s
  | String a p', String b s' =>
      if Ascii.eqb a b then stripPrefix p' s' else None
  | String _ _, EmptyString => None
  end.

Definition startsWith (s p : string) : bool :=
  match stripPrefix p s with
  | Some _ => true
  | None => false
  end.

(** [\w] *)
Definition isWordChar (c : ascii) : bool :=
  let n := nat_of_ascii c in
  (((48 <=? n) && (n <=? 57)) || ((65 <=? n) && (n <=? 90))
   || ((97 <=? n) && (n <=? 122)) || (n =? 95))%nat.

(** The longest prefix of word characters, and what follows it. *)
Fixpoint spanWord (s : string) : string * string :=
  match s with
  | String c rest =>
      if isWordChar c
      then let (w, r) := spanWord rest in (String c w, r)
      else (EmptyString, s)
  | EmptyString => (EmptyString, EmptyString)
  end.

(** [.] refuses the line terminators. *)
Fixpoint noLineTerminator (s : string) : bool :=
  match s with
  | String c rest =>
      let n := nat_of_ascii c in
      negb ((n =? 10) || (n =? 13))%nat && noLineTerminator rest
  | EmptyString => true
  end.

(** [audio.match(/^data:audio\/(\w+);base64,(.+)$/)]: the two groups. *)
Definition matchAudioDataUrl (audio : string) : option (string * string) :=
  match stripPrefix "data:audio/" audio with
  | None => None
  | Some rest =>
      let (audioType, rest') := spanWord rest in
      match audioType, stripPrefix ";base64," rest' with
      | String _ _, Some base64Data =>
          if negb (String.eqb base64Data "") && noLineTerminator base64Data
          then Some (audioType, base64Data)
          else None
      | _, _ => None
      end
  end.

(** [tx.message.create]: new primary key, existing dream and sender. *)
Definition message_create (m : Message.t) : Tx Message.t :=
  fun db =>
    if existsb_id Message.id (Message.id m) (messages db) then None
    else if negb (existsb_id Dream.id (Message.dreamId m) (dreams db))
    then None
    else if negb (existsb_id Profile.id (Message.senderId m) (profiles db))
    then None
    else Some (m, set_messages db (messages db ++ [m])).

Module MessageBody.
Record t : Type := mk
  { dream_id : option string; content : option JsString;
    audio : option string }.
End MessageBody.

(** The placeholder stored for a voice message without text. *)
Definition voiceMessageLabel : JsString :=
  [91; 1585; 1587; 1575; 1604; 1577; 32; 1589; 1608; 1578; 1610; 1577; 93].

(** [router.post('/', requireAuth, ...)] of the messages router.  The
    audio file itself goes to the file system, which is not modelled. *)
Definition messages_post (now : Z) (newId userId : string)
  (body : MessageBody.t) (db : DB) : Response * DB :=
  if negb (truthy_string (MessageBody.dream_id body))
  then (mkResponse 400 (Error "dream_id is required" None), db)
  else if negb (truthy_jsstring (MessageBody.content body))
          && negb (truthy_string (MessageBody.audio body))
  then (mkResponse 400 (Error "Either content or audio is required" None), db)
  else
    let dream_id :=
      match MessageBody.dream_id body with Some d => d | None => "" end in
    match dream_findUnique db dream_id with
    | None => (mkResponse 404 (Error "Dream not found" None), db)
    | Some dream =>
        if negb (truthy_string (Dream.interpreterId dream))
        then
          (mkResponse 403
             (Error "Cannot send messages until an interpreter is assigned"
                    (Some "NO_INTERPRETER_ASSIGNED")), db)
        else if negb (String.eqb (Dream.dreamerId dream) userId)
                && negb (isUser (Dream.interpreterId dream) userId)
        then
          (mkResponse 403
             (Error "You are not authorized to message this dream" None), db)
        else
          let audioUrl :=
            match MessageBody.audio body with
            | Some audio =>
                if truthy_string (Some audio) && startsWith audio "data:audio"
                then
                  match matchAudioDataUrl audio with
                  | Some (audioType, _) =>
                      Some ("/uploads/audio/msg-" ++ userId ++ "-"
                            ++ Z_toString now ++ "." ++ audioType)%string
                  | None => None
                  end
                else None
            | None => None
            end in
          match await
                  (message_create
                     (Message.mk newId dream_id userId
                        (if truthy_jsstring (MessageBody.content body)
                         then match MessageBody.content body with
                              | Some c => c
                              | None => []
                              end
                         else voiceMessageLabel)
                        (match audioUrl with Some _ => type_audio | None => type_text end)
                        audioUrl now)) db with
          | (Some message, db') => (mkResponse 201 (MessageJson message), db')
          | (None, db') =>
              (mkResponse 500 (Error "Failed to send message" None), db')
          end
    end.

(** ** routes/comments.ts *)

Definition comment_create (c : Comment.t) : Tx Comment.t :=
  fun db =>
    if existsb_id Comment.id (Comment.id c) (comments db) then None
    else if negb (existsb_id Dream.id (Comment.dreamId c) (dreams db))
    then None
    else if negb (existsb_id Profile.id (Comment.userId c) (profiles db))
    then None
    else
      Some (c, mkDB (users db) (profiles db) (plans db) (userPlans db)
                 (dreams db) (payments db) (messages db) (comments db ++ [c])).

(** [router.get('/', ...)] of the comments router: no middleware precedes
    the handler, which never reads [req.user]. *)
Definition comments_get (dream_id : option string) (db : DB)
  : Response * DB :=
  if negb (truthy_string dream_id)
  then (mkResponse 400 (Error "dream_id is required" None), db)
  else
    let dreamId := match dream_id with Some d => d | None => "" end in
    (mkResponse 200
       (CommentsJson
          (orderByDesc Comment.createdAt
             (filter (fun c => String.eqb (Comment.dreamId c) dreamId)
                     (comments db)))), db).

(** [router.post('/', requireAuth, ...)] of the comments router. *)
Definition comments_post (now : Z) (newId userId : string)
  (dream_id : option string) (content : option JsString) (db : DB)
  : Response * DB :=
  if negb (truthy_string dream_id) || negb (truthy_jsstring content)
  then (mkResponse 400 (Error "dream_id and content are required" None), db)
  else
    match await
            (comment_create
               (Comment.mk newId
                  (match dream_id with Some d => d | None => "" end)
                  userId
                  (match content with Some c => c | None => [] end)
                  now)) db with
    | (Some comment, db') => (mkResponse 201 (CommentJson comment), db')
    | (None, db') =>
        (mkResponse 500 (Error "Failed to create comment" None), db')
    end.

(** ** middleware/auth.ts and the mounting of the content routers *)

Module JWTPayload.
Record t : Type := mk { userId : string; email : string; role : string }.
End JWTPayload.

(** What the middleware reads of a request. *)
Module Request.
Record t : Type := mk
  { authorization : option string; auth_token : option string }.
End Request.

Fixpoint reverse (s : string) : string :=
  match s with
  | String c rest => (reverse rest ++ String c EmptyString)%string
  | EmptyString => EmptyString
  end.

(** [s.trim()]: white space is stripped at both ends. *)
Definition trim (s : string) : string :=
  reverse (skipWhiteSpace (reverse (skipWhiteSpace s))).

Section Auth.

(** [verifyToken] of utils/auth.ts: [jwt.verify], or null when it throws. *)
Variable verifyToken : string -> option JWTPayload.t.

(** The token [requireAuth] and [optionalAuth] extract. *)
Definition extractToken (req : Request.t) : option string :=
  match Request.authorization req with
  | Some authHeader =>
      match stripPrefix "Bearer " authHeader with
      | Some rest => Some (trim rest)
      | None => Request.auth_token req
      end
  | None => Request.auth_token req
  end.

(** [requireAuth]: a response that ends the request, or the payload put
    in [req.user] before [next()]. *)
Definition requireAuth (req : Request.t) : Response + JWTPayload.t :=
  if negb (truthy_string (extractToken req))
  then inl (mkResponse 401 (Error "Authentication required" None))
  else
    match verifyToken (match extractToken req with
                       | Some t => t | None => "" end) with
    | None => inl (mkResponse 401 (Error "Invalid or expired token" None))
    | Some payload => inr payload
    end.

Inductive Method : Type := GET | POST | PATCH | DELETE.

(** A handler proper, given [req.user]. *)
Definition Handler : Type := option JWTPayload.t -> DB -> Response * DB.

(** A registration [router.METHOD(path, [requireAuth,] handler)] of the
    router mounted at [/api/<router>]. *)
Record Route : Type := mkRoute
  { router : string; method : Method; path : string; authenticated : bool }.

(** Express runs the middleware, then the handler if [next()] was called. *)
Definition serve (r : Route) (handler : Handler) (req : Request.t) (db : DB)
  : Response * DB :=
  if authenticated r then
    match requireAuth req with
    | inl rejected => (rejected, db)
    | inr payload => handler (Some payload) db
    end
  else handler None db.

End Auth.

(** The registrations of the content routers (dreams, messages, comments,
    chat, requests), in source order. *)
Definition commentsGet : Route := mkRoute "comments" GET "/" false.

Definition contentRoutes : list Route :=
  [ mkRoute "dreams" GET "/" true;
    mkRoute "dreams" POST "/" true;
    mkRoute "dreams" POST "/:id/audio" true;
    mkRoute "dreams" GET "/stats" true;
    mkRoute "dreams" GET "/:id" true;
    mkRoute "dreams" PATCH "/:id" true;
    mkRoute "dreams" DELETE "/:id" true;
    mkRoute "messages" GET "/" true;
    mkRoute "messages" POST "/" true;
    mkRoute "messages" DELETE "/:id" true;
    commentsGet;
    mkRoute "comments" POST "/" true;
    mkRoute "chat" GET "/" true;
    mkRoute "chat" POST "/" true;
    mkRoute "requests" GET "/" true;
    mkRoute "requests" POST "/" true;
    mkRoute "requests" GET "/:id" true;
    mkRoute "requests" PATCH "/:id" true ].

Definition Route_eqb (a b : Route) : bool :=
  String.eqb (router a) (router b)
  && match method a, method b with
     | GET, GET | POST, POST | PATCH, PATCH | DELETE, DELETE => true
     | _, _ => false
     end
  && String.eqb (path a) (path b)
  && Bool.eqb (authenticated a) (authenticated b).

(** ** routes/auth.ts: POST /register *)

Module RegisterBody.
Record t : Type := mk
  { email : option string; password : option string;
    fullName : option string; role : option string }.
End RegisterBody.

(** Membership in [ALLOWED_SELF_SERVICE_ROLES], with the enum value. *)
Definition selfServiceRole (role : string) : option Role :=
  if String.eqb role "dreamer" then Some dreamer
  else if String.eqb role "interpreter" then Some interpreter
  else None.

Definition user_create (u : User.t) : Tx User.t :=
  fun db =>
    if existsb_id User.id (User.id u) (users db) then None
    else if existsb_id User.email (User.email u) (users db) then None
    else Some (u, set_users db (users db ++ [u])).

Definition profile_create (p : Profile.t) : Tx Profile.t :=
  fun db =>
    if existsb_id Profile.id (Profile.id p) (profiles db) then None
    else if existsb_id Profile.email (Profile.email p) (profiles db) then None
    else if negb (existsb_id User.id (Profile.id p) (users db)) then None
    else Some (p, set_profiles db (profiles db ++ [p])).

(** [tx.plan.findFirst({ where: { isTrial: true, isActive: true },
    orderBy: { createdAt: 'desc' } })] *)
Definition plan_findFirst_trial (db : DB) : option Plan.t :=
  match orderByDesc Plan.createdAt
          (filter (fun p => Plan.isTrial p && Plan.isActive p) (plans db)) with
  | p :: _ => Some p
  | [] => None
  end.

(** [trialPlan && trialPlan.trialDurationDays] *)
Definition trialDays (trialPlan : option Plan.t) : option Z :=
  match trialPlan with
  | Some p =>
      match Plan.trialDurationDays p with
      | Some d => if d =? 0 then None else Some d
      | None => None
      end
  | None => None
  end.

(** The transaction of [POST /auth/register]. *)
Definition registerTx (LocalTZA : TimeZone) (now : Z)
  (newUserId newUserPlanId : string)
  (email hashedPassword fullName : string) (role : Role)
  : Tx (User.t * Profile.t) :=
  (createdUser <- user_create (User.mk newUserId email hashedPassword) ;;
   createdProfile <- profile_create
                       (Profile.mk (User.id createdUser)
                          (User.email createdUser) fullName role None) ;;
   _ <- match role with
        | dreamer =>
            fun db =>
              let trialPlan := plan_findFirst_trial db in
              match trialPlan, trialDays trialPlan with
              | Some plan, Some days =>
                  (expiresAt <- deref (addDays LocalTZA now (IFin days)) ;;
                   _ <- userPlan_create
                          (UserPlan.mk newUserPlanId (User.id createdUser)
                             (Plan.id plan) now (Some expiresAt) true 0 0) ;;
                   ret tt) db
              | _, _ => ret tt db
              end
        | _ => ret tt
        end ;;
   ret (createdUser, createdProfile))%tx.

(** [router.post('/register', ...)]; [hashedPassword] is the digest
    [hashPassword(password)] resolved to (bcrypt salts at random). *)
Definition auth_register (LocalTZA : TimeZone) (now : Z)
  (newUserId newUserPlanId : string) (hashedPassword : string)
  (body : RegisterBody.t) (db : DB) : Response * DB :=
  if negb (truthy_string (RegisterBody.email body))
     || negb (truthy_string (RegisterBody.password body))
     || negb (truthy_string (RegisterBody.fullName body))
  then
    (mkResponse 400
       (Error "Email, password, and full name are required" None), db)
  else
    let role := match RegisterBody.role body with
                | Some r => r
                | None => "dreamer"
                end in
    match selfServiceRole role with
    | None =>
        (mkResponse 403
           (Error "You are not allowed to register with this role" None), db)
    | Some role =>
        let email := match RegisterBody.email body with
                     | Some e => e | None => "" end in
        match user_findUnique_email db email with
        | Some _ =>
            (mkResponse 409
               (Error "User with this email already exists" None), db)
        | None =>
            match transaction
                    (registerTx LocalTZA now newUserId newUserPlanId email
                       hashedPassword
                       (match RegisterBody.fullName body with
                        | Some n => n | None => "" end)
                       role) db with
            | (Some (user, profile), db') =>
                (mkResponse 201 (RegisteredJson user profile), db')
            | (None, db') =>
                (mkResponse 500 (Error "Failed to register user" None), db')
            end
        end
    end.

(** ** Sequences of dream submissions *)

Module DreamRequest.
Record t : Type := mk
  { now : Z; newId : string; userId : string; body : DreamBody.t }.
End DreamRequest.

Section DreamSequence.

Variable StringToNumber : string -> JSNum.
Variable newDate : JsVal -> option Z.

(** [POST /dreams] served for each request in turn. *)
Fixpoint dreams_post_seq (reqs : list DreamRequest.t) (db : DB)
  : list Response * DB :=
  match reqs with
  | [] => ([], db)
  | rq :: rest =>
      let (r, db1) :=
        dreams_post StringToNumber newDate (DreamRequest.now rq)
          (DreamRequest.newId rq) (DreamRequest.userId rq)
          (DreamRequest.body rq) db in
      let (rs, db2) := dreams_post_seq rest db1 in
      (r :: rs, db2)
  end.

End DreamSequence.

Definition lettersUsedOf (db : DB) (id : string) : Z :=
  match userPlan_findUnique db id with
  | Some s => UserPlan.lettersUsed s
  | None => 0
  end.

Definition audioMinutesUsedOf (db : DB) (id : string) : Z :=
  match userPlan_findUnique db id with
  | Some s => UserPlan.audioMinutesUsed s
  | None => 0
  end.

(** The letter ceiling of the plan a subscription row points to. *)
Definition letterQuotaOf (db : DB) (id : string) : option Z :=
  match userPlan_findUnique db id with
  | Some s =>
      match plan_findUnique db (UserPlan.planId s) with
      | Some p => Plan.letterQuota p
      | None => None
      end
  | None => None
  end.

Definition lettersRequested (reqs : list DreamRequest.t) : Z :=
  fold_right
    (fun rq acc =>
       countContentLetters (DreamBody.description (DreamRequest.body rq)) + acc)
    0 reqs.

(** The id of the subscription a request at [now] by [userId] is charged
    to. *)
Definition effectiveId (db : DB) (now : Z) (userId : string) : option string :=
  match getActiveSubscription db now userId with
  | Some (s, _) => Some (UserPlan.id s)
  | None => None
  end.

(** ** Text as the specification speaks of it

    A text is a list of Unicode scalar values; a JavaScript string holds
    its UTF-16 encoding, a storage column its UTF-8 encoding. *)

Definition isScalarValue (cp : Z) : bool :=
  (0 <=? cp) && (cp <=? 1114111) && negb ((55296 <=? cp) && (cp <=? 57343)).

Definition utf16Encode1 (cp : Z) : list Z :=
  if cp <? 65536 then [cp]
  else [55296 + (cp - 65536) / 1024; 56320 + (cp - 65536) mod 1024].

Definition utf16Encode (text : list Z) : JsString := flat_map utf16Encode1 text.

Definition utf8Length1 (cp : Z) : Z :=
  if cp <? 128 then 1
  else if cp <? 2048 then 2
  else if cp <? 65536 then 3
  else 4.

Definition utf8ByteLength (text : list Z) : Z :=
  fold_right (fun cp acc => utf8Length1 cp + acc) 0 text.

(** Payments carrying a given external reference. *)
Definition paymentsWithReference (db : DB) (reference : string)
  : list Payment.t :=
  filter (fun p => match Payment.reference p with
                   | Some r => String.eqb r reference
                   | None => false
                   end) (payments db).

(** ** Instances and sample data for the closed examples *)

(** [Number(s)] on the strings of decimal digits (and the empty string);
    other numeric literals are outside this instance. *)
Definition StringToNumber_digits (s : string) : JSNum :=
  match s with
  | EmptyString => Fin 0
  | _ =>
      let ds := readDigits 10 s in
      if (List.length ds =? String.length s)%nat
      then Fin (inject_Z (digitsValue 10 ds))
      else NaN
  end.

(** [new Date(v)] on numeric time values; date strings are outside this
    instance. *)
Definition newDate_timeValue (v : JsVal) : option Z :=
  match v with
  | JNumber (Fin q) => Some (Z.quot (Qnum q) (Zpos (Qden q)))
  | _ => None
  end.

Definition sampleUsers : list User.t :=
  [ User.mk "u1" "u1@example.com" "$2a$10$u1";
    User.mk "i1" "i1@example.com" "$2a$10$i1";
    User.mk "a1" "a1@example.com" "$2a$10$a1";
    User.mk "root" "root@example.com" "$2a$10$root" ].

Definition sampleProfiles : list Profile.t :=
  [ Profile.mk "u1" "u1@example.com" "Dreamer" dreamer None;
    Profile.mk "i1" "i1@example.com" "Interpreter" interpreter None;
    Profile.mk "a1" "a1@example.com" "Admin" admin None;
    Profile.mk "root" "root@example.com" "Root" super_admin None ].

(** A paid plan: 10 letters, 5 audio minutes, 3 dreams, 30 days. *)
Definition planBasic : Plan.t :=
  Plan.mk "p1" "Basic" (10 # 1) "USD" 30 (Some 3) (Some 10) (Some 5)
    true false None 0.

(** [u1] subscribed to [p1] at instant 100. *)
Definition subscriptionS1 : UserPlan.t :=
  UserPlan.mk "s1" "u1" "p1" 100 (Some 5000000000) true 0 0.

(** Users and a plan, nobody subscribed. *)
Definition dbNoSubscription : DB :=
  mkDB sampleUsers sampleProfiles [planBasic] [] [] [] [] [].

Definition dbSubscribed : DB :=
  mkDB sampleUsers sampleProfiles [planBasic] [subscriptionS1] [] [] [] [].

(** Seven letters of Arabic script, then five. *)
Definition sevenLetters : JsString := [1581; 1604; 1605; 1578; 32; 1576; 1607].
Definition fiveLetters : JsString := [1585; 1572; 1610; 1575; 33].

Definition dreamBody (description : JsString) (audioMinutes : JsVal)
  : DreamBody.t :=
  DreamBody.mk (Some "A dream") (Some description) JUndefined None audioMinutes.

(** ** Predicates used in the statements *)

(** Every element is at least as large as all that follow it. *)
Definition descending {A : Type} (key : A -> Z) (l : list A) : Prop :=
  StronglySorted (fun a b => key b <= key a) l.

(** [active = true] and ([expiresAt] null or later than [now]). *)
Definition activeUnexpired (now : Z) (s : UserPlan.t) : Prop :=
  UserPlan.isActive s = true
  /\ (UserPlan.expiresAt s = None
      \/ exists e, UserPlan.expiresAt s = Some e /\ now < e).

(** The row [s] with its usage counters replaced. *)
Definition withUsage (s : UserPlan.t) (letters minutes : Z) : UserPlan.t :=
  UserPlan.mk (UserPlan.id s) (UserPlan.userId s) (UserPlan.planId s)
    (UserPlan.startedAt s) (UserPlan.expiresAt s) (UserPlan.isActive s)
    letters minutes.

(** The audio minutes a request is charged: the rounded value when it is
    positive, nothing otherwise. *)
Definition debitOf (requested : IntNum) : Z :=
  match requested with
  | IFin z => if 0 <? z then z else 0
  | _ => 0
  end.

(** [dbSubscribed] after [u1] has had a seven-letter dream stored at
    instant 1000. *)
Definition dbSevenUsed : DB :=
  mkDB sampleUsers sampleProfiles [planBasic]
    [UserPlan.mk "s1" "u1" "p1" 100 (Some 5000000000) true 7 0]
    [Dream.mk "d1" "u1" None "A dream" sevenLetters sevenLetters None None
       status_new 1000]
    [] [] [].

(** Two submissions of [u1]: seven letters, then three. *)
Definition twoRequests : list DreamRequest.t :=
  [ DreamRequest.mk 1000 "d1" "u1" (dreamBody sevenLetters JUndefined);
    DreamRequest.mk 2000 "d2" "u1" (dreamBody [1581; 1604; 1605] JUndefined) ].

(** The event Stripe delivers for checkout session [cs_123]: [u1] paid
    for 30 days of [p1]. *)
Definition eventCs123 : StripeEvent.t :=
  StripeEvent.mk "checkout.session.completed"
    (Session.mk "cs_123" (Some "u1") (Some "p1") (Some "30") 1000 "usd"
       (Some "u1@example.com")).

(** The payment row the webhook stores for a session. *)
Definition paymentOf (now : Z) (newPaymentId userId : string)
  (session : Session.t) : Payment.t :=
  Payment.mk newPaymentId userId (Session.planId session)
    (Session.amount_total session # 100)
    (toUpperCase (Session.currency session))
    succeeded (Some "stripe") (Some (Session.id session)) (Some now).

(** A server on UTC. *)
Definition utcZone : TimeZone := fun _ _ => 0.

(** A server two hours ahead of UTC whose clocks go forward one hour at
    the UTC instant 5 000 000 000. *)
Definition summerZone : TimeZone :=
  fun t isUTC =>
    if isUTC
    then if t <? 5000000000 then 7200000 else 10800000
    else if t <? 5007200000 then 7200000 else 10800000.

(** The state after [eventCs123] was handled at instant 1000. *)
Definition dbPaidOnce : DB :=
  snd (handleEvent utcZone 1000 "pay1" "s1" eventCs123 dbNoSubscription).

(** The body of the request that delivers [eventCs123] (its quotation
    marks written as apostrophes), and the delivery itself. *)
Definition cs123Text : string :=
  "{'id':'evt_1','type':'checkout.session.completed','data':{'object':{'id':'cs_123'}}}".

Definition deliveryCs123 : Delivery.t :=
  Delivery.mk (Some "sig-ok") (Some "application/json") cs123Text.

(** A Stripe library whose secret signs [cs123Text] with ["sig-ok"]: it
    yields [eventCs123] for that raw body and refuses everything else, a
    parsed body included. *)
Definition constructEvent_sample (payload : Payload) (sig : string)
  : StripeEvent.t + string :=
  match payload with
  | RawBody text =>
      if String.eqb sig "sig-ok" && String.eqb text cs123Text
      then inl eventCs123
      else inr "No signatures found matching the expected signature for payload."
  | ParsedBody _ =>
      inr "Webhook payload must be provided as a string or a Buffer instance representing the _raw_ request body."
  end.

(** Body parsers that leave a plain object for every JSON body. *)
Definition bodyParsers_sample (delivery : Delivery.t) : Response + JsVal :=
  inr (JObject objectObject).

(** Two active trial plans: the older with a seven-day trial, the newer
    with no trial duration configured. *)
Definition trialOld : Plan.t :=
  Plan.mk "t1" "Free Trial" (0 # 1) "USD" 7 (Some 10) (Some 5000) (Some 30)
    true true (Some 7) 1.

Definition trialNew : Plan.t :=
  Plan.mk "t2" "Free Trial 2" (0 # 1) "USD" 7 (Some 10) (Some 5000) (Some 30)
    true true None 2.

Definition dbTwoTrials : DB := mkDB [] [] [trialOld; trialNew] [] [] [] [] [].

Definition dbOneTrial : DB := mkDB [] [] [trialOld] [] [] [] [] [].

Definition registerDreamer : RegisterBody.t :=
  RegisterBody.mk (Some "new@example.com") (Some "secret")
    (Some "New Dreamer") (Some "dreamer").

(** The subscription rows registration adds for a dreamer, or [None]
    when the trial's expiry is an Invalid Date. *)
Definition trialRows (LocalTZA : TimeZone) (db : DB) (now : Z)
  (newUserId newUserPlanId : string) : option (list UserPlan.t) :=
  match plan_findFirst_trial db, trialDays (plan_findFirst_trial db) with
  | Some plan, Some days =>
      match addDays LocalTZA now (IFin days) with
      | Some expiresAt =>
          Some [UserPlan.mk newUserPlanId newUserId (Plan.id plan) now
                  (Some expiresAt) true 0 0]
      | None => None
      end
  | _, _ => Some []
  end.

(** The largest time value of a Date. *)
Definition maxTime : Z := 8640000000000000.

(** A comment on dream [d1], and a request that carries no credentials. *)
Definition dbCommented : DB :=
  mkDB sampleUsers sampleProfiles [planBasic]
    [UserPlan.mk "s1" "u1" "p1" 100 (Some 5000000000) true 7 0]
    [Dream.mk "d1" "u1" None "A dream" sevenLetters sevenLetters None None
       status_new 1000]
    [] []
    [Comment.mk "c1" "d1" "i1" fiveLetters 1200].

Definition anonymousRequest : Request.t := Request.mk None None.

(** A token verifier that accepts nothing. *)
Definition rejectAll (token : string) : option JWTPayload.t := None.

(** A subscription row without its usage counters. *)
Definition window (s : UserPlan.t) : UserPlan.t := withUsage s 0 0.

(** An expired subscription of [u1]. *)
Definition dbExpired : DB :=
  mkDB sampleUsers sampleProfiles [planBasic]
    [UserPlan.mk "s1" "u1" "p1" 100 (Some 500) true 0 0] [] [] [] [].

(** A second plan; [u1] holds two current subscriptions, the one to [p2]
    started later, and [a1] holds one started later still. *)
Definition planPlus : Plan.t :=
  Plan.mk "p2" "Plus" (20 # 1) "USD" 30 (Some 5) (Some 100) (Some 10)
    true false None 0.

Definition subscriptionS2 : UserPlan.t :=
  UserPlan.mk "s2" "u1" "p2" 200 None true 0 0.

Definition dbTwoCurrent : DB :=
  mkDB sampleUsers sampleProfiles [planBasic; planPlus]
    [subscriptionS1; subscriptionS2;
     UserPlan.mk "s3" "a1" "p1" 400 None true 0 0] [] [] [] [].

(** The row a successful [POST /dreams] stores. *)
Definition dreamOf (newDate : JsVal -> option Z) (now : Z)
  (newId userId : string) (body : DreamBody.t) : Dream.t :=
  Dream.mk newId userId None
    (match DreamBody.title body with Some t => t | None => "" end)
    (match DreamBody.description body with Some d => d | None => [] end)
    (match DreamBody.description body with Some d => d | None => [] end)
    (if ToBoolean (DreamBody.dream_date body)
     then newDate (DreamBody.dream_date body) else None)
    (DreamBody.mood body) status_new now.

(** ** Further handlers

    The handlers below answer with a typed value: [Ok status value] for
    [res.status(status).json(value)], [Fail status error code] for an
    error body. *)

From Stdlib Require Import Permutation DecimalPos DecimalZ.

Inductive Answer (A : Type) : Type :=
| Fail (status : Z) (error : string) (code : option string)
| Ok (status : Z) (value : A).

Arguments Fail {A} status error code.
Arguments Ok {A} status value.

Definition statusOf {A : Type} (a : Answer A) : Z :=
  match a with
  | Fail s _ _ => s
  | Ok s _ => s
  end.

(** *** middleware/auth.ts: optionalAuth *)

Section OptionalAuth.

Variable verifyToken : string -> option JWTPayload.t.

(** [optionalAuth]: the payload put in [req.user], if any; [next()] is
    called in every case. *)
Definition optionalAuth (req : Request.t) : option JWTPayload.t :=
  if truthy_string (extractToken req)
  then verifyToken (match extractToken req with Some t => t | None => "" end)
  else None.

End OptionalAuth.

(** All characters of [s] are word characters. *)
Fixpoint allWordChars (s : string) : bool :=
  match s with
  | String c rest => isWordChar c && allWordChars rest
  | EmptyString => true
  end.

(** *** routes/payments.ts: POST /create-checkout-session *)

(** [s.toLowerCase()] on the ASCII letters. *)
Definition lowerAscii (c : ascii) : ascii :=
  let n := nat_of_ascii c in
  if ((65 <=? n) && (n <=? 90))%nat then ascii_of_nat (n + 32) else c.

Fixpoint toLowerCase (s : string) : string :=
  match s with
  | String c rest => String (lowerAscii c) (toLowerCase rest)
  | EmptyString => EmptyString
  end.

(** [Math.round(x)] on an exact value: halves go up. *)
Definition Math_round (q : Q) : Z := Qfloor (q + (1 # 2)).

(** The argument of [stripe.checkout.sessions.create]: the fields the
    webhook later reads back, and the customer's email. *)
Module CheckoutParams.
Record t : Type := mk
  { customer_email : string;
    currency : string; product_name : string; unit_amount : Z;
    metadata_userId : string; metadata_planId : string;
    metadata_durationDays : string }.
End CheckoutParams.

Definition checkoutParams (user : Profile.t) (userId : string) (plan : Plan.t)
  : CheckoutParams.t :=
  CheckoutParams.mk (Profile.email user)
    (toLowerCase (Plan.currency plan)) (Plan.name plan)
    (Math_round (Plan.price plan * 100))
    userId (Plan.id plan) (Z_toString (Plan.durationDays plan)).

Section Checkout.

(** [stripe.checkout.sessions.create(params)]: the session's url and id,
    or [None] when the call throws. *)
Variable sessionsCreate : CheckoutParams.t -> option (option string * string).

(** [router.post('/create-checkout-session', requireAuth, ...)] *)
Definition payments_create_checkout_session (stripeConfigured : bool)
  (userId : string) (planId : option string) (db : DB)
  : Answer (option string * string) :=
  if negb stripeConfigured
  then Fail 503
         "Payment system not configured. Please contact administrator." None
  else if negb (truthy_string planId)
  then Fail 400 "planId is required" None
  else
    match plan_findUnique db
            (match planId with Some p => p | None => "" end) with
    | None => Fail 404 "Plan not found" None
    | Some plan =>
        if negb (Plan.isActive plan)
        then Fail 400 "This plan is not available" None
        else
          match profile_findUnique db userId with
          | None => Fail 404 "User not found" None
          | Some user =>
              match sessionsCreate (checkoutParams user userId plan) with
              | Some session => Ok 200 session
              | None => Fail 500 "Failed to create checkout session" None
              end
          end
    end.

End Checkout.

(** The decimal digits of a [Decimal.uint], most significant first. *)
Fixpoint uintDigits (d : Decimal.uint) : list Z :=
  match d with
  | Decimal.Nil => []
  | Decimal.D0 d => 0 :: uintDigits d
  | Decimal.D1 d => 1 :: uintDigits d
  | Decimal.D2 d => 2 :: uintDigits d
  | Decimal.D3 d => 3 :: uintDigits d
  | Decimal.D4 d => 4 :: uintDigits d
  | Decimal.D5 d => 5 :: uintDigits d
  | Decimal.D6 d => 6 :: uintDigits d
  | Decimal.D7 d => 7 :: uintDigits d
  | Decimal.D8 d => 8 :: uintDigits d
  | Decimal.D9 d => 9 :: uintDigits d
  end.

(** A verifier that accepts the token ["good"] as [u1]'s. *)
Definition verifyToken_sample (token : string) : option JWTPayload.t :=
  if String.eqb token "good"
  then Some (JWTPayload.mk "u1" "u1@example.com" "dreamer")
  else None.

(** A Stripe client that opens session [cs_123] for every request. *)
Definition sessionsCreate_sample (params : CheckoutParams.t)
  : option (option string * string) :=
  Some (Some "https://checkout.stripe.com/c/pay/cs_123", "cs_123").

(** Every element is at most as large as all that follow it. *)
Definition ascending {A : Type} (key : A -> Z) (l : list A) : Prop :=
  StronglySorted (fun a b => key a <= key b) l.

(** *** routes/dreams.ts: GET /, GET /stats, GET /:id *)

(** [{ OR: [{ interpreterId: userId }, { interpreterId: null }] }] *)
Definition assignedToOrOpen (userId : string) (d : Dream.t) : bool :=
  match Dream.interpreterId d with
  | Some i => String.eqb i userId
  | None => true
  end.

(** The [where] clause the role selects in [GET /]. *)
Definition dreamsVisibleTo (role : Role) (userId : string) (d : Dream.t)
  : bool :=
  match role with
  | dreamer => String.eqb (Dream.dreamerId d) userId
  | interpreter => assignedToOrOpen userId d
  | admin | super_admin => true
  end.

(** [router.get('/', requireAuth, ...)] of the dreams router.  The final
    ['Invalid role'] branch cannot be reached with the four roles of the
    enum. *)
Definition dreams_get (userId : string) (db : DB) : Answer (list Dream.t) :=
  match profile_findUnique db userId with
  | None => Fail 404 "Profile not found" None
  | Some profile =>
      Ok 200 (orderByDesc Dream.createdAt
                (filter (dreamsVisibleTo (Profile.role profile) userId)
                        (dreams db)))
  end.

Definition DreamStatus_eqb (a b : DreamStatus) : bool :=
  match a, b with
  | status_new, status_new
  | pending_inquiry, pending_inquiry
  | pending_interpretation, pending_interpretation
  | interpreted, interpreted
  | returned, returned => true
  | _, _ => false
  end.

Module DreamStats.
Record t : Type := mk
  { total : Z; new : Z; pending_inquiry : Z; pending_interpretation : Z;
    interpreted : Z; returned : Z }.
End DreamStats.

(** [dreams.filter((d) => d.status === s).length] *)
Definition countStatus (s : DreamStatus) (l : list Dream.t) : Z :=
  Z.of_nat (List.length
              (filter (fun d => DreamStatus_eqb (Dream.status d) s) l)).

(** [router.get('/stats', requireAuth, ...)]: admins count every dream. *)
Definition dreams_stats (userId : string) (db : DB) : Answer DreamStats.t :=
  match profile_findUnique db userId with
  | None => Fail 404 "Profile not found" None
  | Some profile =>
      let dreams :=
        filter (match Profile.role profile with
                | interpreter => assignedToOrOpen userId
                | dreamer =>
                    fun d => String.eqb (Dream.dreamerId d) userId
                | _ => fun _ => true
                end) (dreams db) in
      Ok 200 (DreamStats.mk (Z.of_nat (List.length dreams))
                (countStatus status_new dreams)
                (countStatus pending_inquiry dreams)
                (countStatus pending_interpretation dreams)
                (countStatus interpreted dreams)
                (countStatus returned dreams))
  end.

(** [router.get('/:id', requireAuth, ...)] *)
Definition dreams_get_one (userId id : string) (db : DB) : Answer Dream.t :=
  match dream_findUnique db id with
  | None => Fail 404 "Dream not found" None
  | Some dream =>
      let profile := profile_findUnique db userId in
      let isAdmin := roleIs profile admin || roleIs profile super_admin in
      let hasAccess :=
        String.eqb (Dream.dreamerId dream) userId
        || isUser (Dream.interpreterId dream) userId
        || isAdmin in
      if negb hasAccess then Fail 403 "Forbidden" None else Ok 200 dream
  end.

(** *** routes/messages.ts: DELETE /:id *)

Definition message_findUnique (db : DB) (id : string) : option Message.t :=
  find (fun m => String.eqb (Message.id m) id) (messages db).

(** [router.delete('/:id', requireAuth, ...)] *)
Definition messages_delete (userId id : string) (db : DB)
  : Answer unit * DB :=
  match message_findUnique db id with
  | None => (Fail 404 "Message not found" None, db)
  | Some message =>
      if negb (String.eqb (Message.senderId message) userId)
      then (Fail 403 "Forbidden" None, db)
      else (Ok 200 tt,
            set_messages db
              (filter (fun m => negb (String.eqb (Message.id m) id))
                      (messages db)))
  end.

(** Dream [d1] of [u1] with interpreter [i1], and two messages on it. *)
Definition dbConversation : DB :=
  mkDB sampleUsers sampleProfiles [planBasic]
    [UserPlan.mk "s1" "u1" "p1" 100 (Some 5000000000) true 7 0]
    [Dream.mk "d1" "u1" (Some "i1") "A dream" sevenLetters sevenLetters None
       None pending_interpretation 1000;
     Dream.mk "d2" "u1" None "Another" fiveLetters fiveLetters None None
       status_new 1100]
    []
    [Message.mk "m2" "d1" "i1" fiveLetters type_text None 3000;
     Message.mk "m1" "d1" "u1" sevenLetters type_text None 2000]
    [].


(** *** routes/auth.ts: POST /login *)

(** The database spelling of a role, as it enters the token. *)
Definition roleString (r : Role) : string :=
  match r with
  | dreamer => "dreamer"
  | interpreter => "interpreter"
  | admin => "admin"
  | super_admin => "super_admin"
  end.

Module LoginBody.
Record t : Type := mk { email : option string; password : option string }.
End LoginBody.

Section Login.

(** [bcrypt.compare(password, hash)] and [jwt.sign(payload, JWT_SECRET)]. *)
Variable verifyPassword : string -> string -> bool.
Variable generateToken : JWTPayload.t -> string.

(** [router.post('/login', ...)]: the answer carries the token placed in
    the session cookie and the rows the JSON body is built from. *)
Definition auth_login (body : LoginBody.t) (db : DB)
  : Answer (string * User.t * Profile.t) :=
  if negb (truthy_string (LoginBody.email body))
     || negb (truthy_string (LoginBody.password body))
  then Fail 400 "Email and password are required" None
  else
    let email := match LoginBody.email body with
                 | Some e => e | None => "" end in
    let password := match LoginBody.password body with
                    | Some p => p | None => "" end in
    match user_findUnique_email db email with
    | None => Fail 401 "Invalid email or password" None
    | Some user =>
        match profile_findUnique db (User.id user) with
        | None => Fail 401 "Invalid email or password" None
        | Some profile =>
            if negb (verifyPassword password (User.password user))
            then Fail 401 "Invalid email or password" None
            else
              Ok 200
                 (generateToken
                    (JWTPayload.mk (User.id user) (User.email user)
                       (roleString (Profile.role profile))),
                  user, profile)
        end
    end.

End Login.

(** A password check that accepts the digest ["hash:" ++ password]. *)
Definition verifyPassword_sample (password hash : string) : bool :=
  String.eqb hash ("hash:" ++ password)%string.

Definition generateToken_sample (payload : JWTPayload.t) : string :=
  ("jwt:" ++ JWTPayload.userId payload ++ ":" ++ JWTPayload.role payload)%string.

(** A plan that has been withdrawn from sale. *)
Definition planRetired : Plan.t :=
  Plan.mk "p2" "Retired" (25 # 1) "USD" 90 None None None
    false false None 10.

Definition dbRetiredPlan : DB :=
  mkDB sampleUsers sampleProfiles [planBasic; planRetired] [] [] [] [] [].

(** *** routes/dreams.ts: PATCH /:id and DELETE /:id *)

Module PatchBody.
Record t : Type := mk
  { status : option string; interpretation : option JsString;
    notes : option JsString; interpreter_id : option string }.
End PatchBody.

(** The [updateData] object: a key is present when its field is [Some]. *)
Module UpdateData.
Record t : Type := mk
  { status : option string; interpretation : option JsString;
    notes : option JsString; interpreterId : option string }.
End UpdateData.

(** The values of the [DreamStatus] enum. *)
Definition parseDreamStatus (s : string) : option DreamStatus :=
  if String.eqb s "new" then Some status_new
  else if String.eqb s "pending_inquiry" then Some pending_inquiry
  else if String.eqb s "pending_interpretation"
  then Some pending_interpretation
  else if String.eqb s "interpreted" then Some interpreted
  else if String.eqb s "returned" then Some returned
  else None.

(** [prisma.dream.update({ where: { id }, data })]: throws when no row
    has that id, when [status] is no value of the enum, or when
    [interpreterId] references no profile.  The text columns
    [interpretation] and [notes] lie outside [Dream.t]. *)
Definition dream_update (id : string) (data : UpdateData.t) : Tx Dream.t :=
  fun db =>
    match dream_findUnique db id with
    | None => None
    | Some d =>
        match (match UpdateData.status data with
               | Some s => parseDreamStatus s
               | None => Some (Dream.status d)
               end) with
        | None => None
        | Some st =>
            if match UpdateData.interpreterId data with
               | Some i => negb (existsb_id Profile.id i (profiles db))
               | None => false
               end
            then None
            else
              let d' :=
                Dream.mk (Dream.id d) (Dream.dreamerId d)
                  (match UpdateData.interpreterId data with
                   | Some i => Some i
                   | None => Dream.interpreterId d
                   end)
                  (Dream.title d) (Dream.content d) (Dream.description d)
                  (Dream.dreamDate d) (Dream.mood d) st (Dream.createdAt d) in
              Some (d', set_dreams db (replace_row Dream.id id d' (dreams db)))
        end
    end.

(** [Object.keys(updateData).length === 0] *)
Definition noUpdates (data : UpdateData.t) : bool :=
  match UpdateData.status data, UpdateData.interpretation data,
        UpdateData.notes data, UpdateData.interpreterId data with
  | None, None, None, None => true
  | _, _, _, _ => false
  end.

(** [router.patch('/:id', requireAuth, ...)] of the dreams router. *)
Definition dreams_patch (userId id : string) (body : PatchBody.t) (db : DB)
  : Answer Dream.t * DB :=
  match dream_findUnique db id with
  | None => (Fail 404 "Dream not found" None, db)
  | Some dream =>
      let profile := profile_findUnique db userId in
      let isSuperAdmin := roleIs profile super_admin in
      let isAdmin := roleIs profile admin in
      let isInterpreter :=
        roleIs profile interpreter
        && isUser (Dream.interpreterId dream) userId in
      let isDreamer :=
        roleIs profile dreamer && String.eqb (Dream.dreamerId dream) userId in
      let canModifyContent := isSuperAdmin || isInterpreter || isDreamer in
      let status := PatchBody.status body in
      let interpretation := PatchBody.interpretation body in
      let notes := PatchBody.notes body in
      let interpreter_id := PatchBody.interpreter_id body in
      if negb canModifyContent && negb isAdmin
      then (Fail 403 "Forbidden" None, db)
      else if truthy_string status
              && (negb canModifyContent && negb isSuperAdmin)
      then (Fail 403
              "Only the assigned interpreter, dreamer, or super admin can update status"
              None, db)
      else if truthy_jsstring interpretation
              && (negb isSuperAdmin && negb isInterpreter)
      then (Fail 403
              "Only the assigned interpreter or super admin can add interpretation"
              None, db)
      else if truthy_jsstring notes
              && (negb canModifyContent && negb isSuperAdmin)
      then (Fail 403 "Forbidden" None, db)
      else if truthy_string interpreter_id && (negb isAdmin && negb isSuperAdmin)
      then (Fail 403 "Only admins can assign interpreters" None, db)
      else
        let updateData :=
          UpdateData.mk
            (if truthy_string status then status
             else if truthy_string interpreter_id
                  then Some "pending_interpretation"
                  else None)
            (if truthy_jsstring interpretation then interpretation else None)
            (if truthy_jsstring notes then notes else None)
            (if truthy_string interpreter_id then interpreter_id else None) in
        if noUpdates updateData
        then (Fail 400 "No valid updates provided" None, db)
        else
          match await (dream_update id updateData) db with
          | (Some updatedDream, db') => (Ok 200 updatedDream, db')
          | (None, db') => (Fail 500 "Failed to update dream" None, db')
          end
  end.

(** [prisma.dream.delete({ where: { id } })]: the messages and comments
    of the dream go with it ([ON DELETE CASCADE] on both [dream_id]
    keys). *)
Definition dream_delete (id : string) : Tx Dream.t :=
  fun db =>
    match dream_findUnique db id with
    | None => None
    | Some d =>
        Some (d,
              mkDB (users db) (profiles db) (plans db) (userPlans db)
                (filter (fun x => negb (String.eqb (Dream.id x) id))
                        (dreams db))
                (payments db)
                (filter (fun m => negb (String.eqb (Message.dreamId m) id))
                        (messages db))
                (filter (fun c => negb (String.eqb (Comment.dreamId c) id))
                        (comments db)))
    end.

(** [router.delete('/:id', requireAuth, ...)] of the dreams router. *)
Definition dreams_delete (userId id : string) (db : DB)
  : Answer unit * DB :=
  match dream_findUnique db id with
  | None => (Fail 404 "Dream not found" None, db)
  | Some dream =>
      if negb (String.eqb (Dream.dreamerId dream) userId)
      then (Fail 403 "Forbidden" None, db)
      else
        match await (dream_delete id) db with
        | (Some _, db') => (Ok 200 tt, db')
        | (None, db') => (Fail 500 "Failed to delete dream" None, db')
        end
  end.

(** *** routes/admin.ts: ensureRole and POST /make-super-admin *)

Definition Role_eqb (a b : Role) : bool :=
  match a, b with
  | dreamer, dreamer | interpreter, interpreter
  | admin, admin | super_admin, super_admin => true
  | _, _ => false
  end.

(** [ensureRole(userId, roles)]: the role is read from the database, not
    from the token. *)
Definition ensureRole (db : DB) (userId : string) (roles : list Role) : bool :=
  match profile_findUnique db userId with
  | None => false
  | Some profile => existsb (Role_eqb (Profile.role profile)) roles
  end.

(** [prisma.profile.update({ where: { id }, data: { role } })] *)
Definition profile_update_role (id : string) (role : Role) : Tx Profile.t :=
  fun db =>
    match profile_findUnique db id with
    | None => None
    | Some p =>
        let p' := Profile.mk (Profile.id p) (Profile.email p)
                    (Profile.fullName p) role (Profile.currentPlanId p) in
        Some (p', set_profiles db (replace_row Profile.id id p' (profiles db)))
    end.

(** [router.post('/make-super-admin', requireAuth, ...)] *)
Definition admin_make_super_admin (requesterId : string)
  (userId : option string) (db : DB) : Answer Profile.t * DB :=
  if negb (truthy_string userId)
  then (Fail 400 "userId is required" None, db)
  else if negb (ensureRole db requesterId [super_admin])
  then (Fail 403 "Forbidden - Super admin access required" None, db)
  else
    match await
            (profile_update_role
               (match userId with Some u => u | None => "" end)
               super_admin) db with
    | (Some updatedProfile, db') => (Ok 200 updatedProfile, db')
    | (None, db') => (Fail 500 "Failed to update user" None, db')
    end.

(** *** Sequences of calls to the writing endpoints *)

Inductive ApiCall : Type :=
| PostDream (now : Z) (newId userId : string) (body : DreamBody.t)
| PatchDream (userId id : string) (body : PatchBody.t)
| DeleteDream (userId id : string)
| PostMessage (now : Z) (newId userId : string) (body : MessageBody.t)
| DeleteMessage (userId id : string)
| PostComment (now : Z) (newId userId : string) (dream_id : option string)
    (content : option JsString)
| Register (now : Z) (newUserId newUserPlanId hashedPassword : string)
    (body : RegisterBody.t)
| Subscribe (now : Z) (newPaymentId newUserPlanId userId : string)
    (planId : option string)
| Webhook (stripeConfigured : bool) (now : Z)
    (newPaymentId newUserPlanId : string) (req : WebhookRequest.t)
| MakeSuperAdmin (requesterId : string) (userId : option string).

Section Api.

Variable StringToNumber : string -> JSNum.
Variable newDate : JsVal -> option Z.
Variable constructEvent : Payload -> string -> StripeEvent.t + string.
Variable LocalTZA : TimeZone.

(** The database after one call. *)
Definition run (c : ApiCall) (db : DB) : DB :=
  match c with
  | PostDream now newId userId body =>
      snd (dreams_post StringToNumber newDate now newId userId body db)
  | PatchDream userId id body => snd (dreams_patch userId id body db)
  | DeleteDream userId id => snd (dreams_delete userId id db)
  | PostMessage now newId userId body =>
      snd (messages_post now newId userId body db)
  | DeleteMessage userId id => snd (messages_delete userId id db)
  | PostComment now newId userId dream_id content =>
      snd (comments_post now newId userId dream_id content db)
  | Register now newUserId newUserPlanId hashedPassword body =>
      snd (auth_register LocalTZA now newUserId newUserPlanId hashedPassword
             body db)
  | Subscribe now newPaymentId newUserPlanId userId planId =>
      snd (plans_subscribe LocalTZA now newPaymentId newUserPlanId userId
             planId db)
  | Webhook stripeConfigured now newPaymentId newUserPlanId req =>
      snd (payments_webhook constructEvent LocalTZA stripeConfigured now
             newPaymentId newUserPlanId req db)
  | MakeSuperAdmin requesterId userId =>
      snd (admin_make_super_admin requesterId userId db)
  end.

Definition runAll (calls : list ApiCall) (db : DB) : DB :=
  fold_left (fun db c => run c db) calls db.

End Api.

(** Every role held in [db'] is held in [db] or open to registration. *)
Definition rolesFrom (db db' : DB) : Prop :=
  forall p', In p' (profiles db') ->
    Profile.role p' = dreamer \/ Profile.role p' = interpreter
    \/ exists p, In p (profiles db) /\ Profile.role p = Profile.role p'.

(** A transaction that, when it commits, introduces no other role. *)
Definition TxRoles {A : Type} (m : Tx A) : Prop :=
  forall db a db', m db = Some (a, db') -> rolesFrom db db'.

(** *** routes/plans.ts: GET / *)

(** [orderBy: { price: 'asc' }] on a decimal column. *)
Fixpoint insertAscQ {A : Type} (key : A -> Q) (x : A) (l : list A) : list A :=
  match l with
  | [] => [x]
  | y :: l' =>
      if Qle_bool (key x) (key y) then x :: l else y :: insertAscQ key x l'
  end.

Definition orderByAscQ {A : Type} (key : A -> Q) (l : list A) : list A :=
  fold_right (insertAscQ key) [] l.

Section PlansGet.

Variable verifyToken : string -> option JWTPayload.t.

(** [router.get('/', optionalAuth, ...)]; the rows are those handed to
    [formatPlan].  The role is the one carried by the token. *)
Definition plans_get (req : Request.t) (includeInactive : option string)
  (db : DB) : Answer (list Plan.t) :=
  let includeInactive :=
    match includeInactive with
    | Some s => String.eqb s "true"
    | None => false
    end in
  let isElevated :=
    match optionalAuth verifyToken req with
    | Some user =>
        String.eqb (JWTPayload.role user) "admin"
        || String.eqb (JWTPayload.role user) "super_admin"
    | None => false
    end in
  Ok 200
     (orderByAscQ Plan.price
        (if includeInactive && isElevated
         then plans db
         else filter Plan.isActive (plans db))).

End PlansGet.

Definition ascendingQ {A : Type} (key : A -> Q) (l : list A) : Prop :=
  StronglySorted (fun a b => (key a <= key b)%Q) l.

(** *** routes/requests.ts (PATCH /:id) and routes/chat.ts *)

Inductive RequestStatus : Type :=
| request_open | request_assigned | request_in_progress | request_completed
| request_cancelled | request_pending | request_accepted | request_rejected.

Definition parseRequestStatus (s : string) : option RequestStatus :=
  if String.eqb s "open" then Some request_open
  else if String.eqb s "assigned" then Some request_assigned
  else if String.eqb s "in_progress" then Some request_in_progress
  else if String.eqb s "completed" then Some request_completed
  else if String.eqb s "cancelled" then Some request_cancelled
  else if String.eqb s "pending" then Some request_pending
  else if String.eqb s "accepted" then Some request_accepted
  else if String.eqb s "rejected" then Some request_rejected
  else None.

Inductive ChatMessageType : Type :=
| chat_text | chat_interpretation | chat_inquiry | chat_file.

Definition parseChatMessageType (s : string) : option ChatMessageType :=
  if String.eqb s "text" then Some chat_text
  else if String.eqb s "interpretation" then Some chat_interpretation
  else if String.eqb s "inquiry" then Some chat_inquiry
  else if String.eqb s "file" then Some chat_file
  else None.

(** A row of the [requests] table (the Prisma model [Request]). *)
Module RequestRow.
Record t : Type := mk
  { id : string; dreamId : string; dreamerId : string;
    interpreterId : option string; title : string;
    status : RequestStatus; createdAt : Z }.
End RequestRow.

Module ChatMessage.
Record t : Type := mk
  { id : string; requestId : string; senderId : string;
    content : JsString; messageType : ChatMessageType; createdAt : Z }.
End ChatMessage.

(** The database together with the tables of requests and their chat. *)
Record Store : Type := mkStore
  { base : DB; requests : list RequestRow.t;
    chatMessages : list ChatMessage.t }.

Definition request_findUnique (st : Store) (id : string)
  : option RequestRow.t :=
  find (fun r => String.eqb (RequestRow.id r) id) (requests st).

Module RequestPatchBody.
Record t : Type := mk
  { status : option string; interpreterId : option string }.
End RequestPatchBody.

(** [prisma.request.update({ where: { id }, data: updateData })]: throws
    when the row is missing, when [status] is no value of the enum or
    when [interpreterId] references no profile. *)
Definition request_update (id : string) (status interpreterId : option string)
  (st : Store) : option (RequestRow.t * Store) :=
  match request_findUnique st id with
  | None => None
  | Some r =>
      match (match status with
             | Some s => parseRequestStatus s
             | None => Some (RequestRow.status r)
             end) with
      | None => None
      | Some status' =>
          if match interpreterId with
             | Some i => negb (existsb_id Profile.id i (profiles (base st)))
             | None => false
             end
          then None
          else
            let r' :=
              RequestRow.mk (RequestRow.id r) (RequestRow.dreamId r)
                (RequestRow.dreamerId r)
                (match interpreterId with
                 | Some i => Some i
                 | None => RequestRow.interpreterId r
                 end)
                (RequestRow.title r) status' (RequestRow.createdAt r) in
            Some (r', mkStore (base st)
                        (replace_row RequestRow.id id r' (requests st))
                        (chatMessages st))
      end
  end.

(** [router.patch('/:id', requireAuth, ...)] of the requests router. *)
Definition requests_patch (requesterId id : string)
  (body : RequestPatchBody.t) (st : Store) : Answer RequestRow.t * Store :=
  match request_findUnique st id with
  | None => (Fail 404 "Request not found" None, st)
  | Some existingRequest =>
      let profile := profile_findUnique (base st) requesterId in
      let isSuperAdmin := roleIs profile super_admin in
      let isAdmin := roleIs profile admin in
      let isDreamer :=
        String.eqb (RequestRow.dreamerId existingRequest) requesterId in
      let isInterpreter :=
        isUser (RequestRow.interpreterId existingRequest) requesterId in
      let status := RequestPatchBody.status body in
      let interpreterId := RequestPatchBody.interpreterId body in
      if negb isSuperAdmin && negb isAdmin && negb isDreamer
         && negb isInterpreter
      then (Fail 403 "Forbidden" None, st)
      else if truthy_string interpreterId && (negb isAdmin && negb isSuperAdmin)
      then (Fail 403 "Only admins can assign interpreters" None, st)
      else if truthy_string status && negb isSuperAdmin && negb isDreamer
              && negb isInterpreter
      then (Fail 403
              "Only the dreamer, assigned interpreter, or super admin can update status"
              None, st)
      else
        let newStatus :=
          if truthy_string status then status
          else if truthy_string interpreterId then Some "in_progress"
               else None in
        let newInterpreterId :=
          if truthy_string interpreterId then interpreterId else None in
        match newStatus, newInterpreterId with
        | None, None => (Fail 400 "No valid updates provided" None, st)
        | _, _ =>
            match request_update id newStatus newInterpreterId st with
            | Some (updatedRequest, st') => (Ok 200 updatedRequest, st')
            | None => (Fail 500 "Internal server error" None, st)
            end
        end
  end.

Definition chatUnavailable : string :=
  "Chat is not available yet. An interpreter must be assigned to this request first.".

(** [router.get('/', requireAuth, ...)] of the chat router. *)
Definition chat_get (userId : string) (request_id : option string)
  (st : Store) : Answer (list ChatMessage.t) :=
  if negb (truthy_string request_id)
  then Fail 400 "request_id is required" None
  else
    let requestId := match request_id with Some r => r | None => "" end in
    match request_findUnique st requestId with
    | None => Fail 404 "Request not found" None
    | Some request =>
        let profile := profile_findUnique (base st) userId in
        let isSuperAdmin := roleIs profile super_admin in
        let isParticipant :=
          String.eqb (RequestRow.dreamerId request) userId
          || isUser (RequestRow.interpreterId request) userId in
        if negb isParticipant && negb isSuperAdmin
        then Fail 403 "Forbidden" None
        else if negb (truthy_string (RequestRow.interpreterId request))
                && negb isSuperAdmin
        then Fail 403 chatUnavailable None
        else
          Ok 200
             (orderByAsc ChatMessage.createdAt
                (filter (fun m => String.eqb (ChatMessage.requestId m) requestId)
                        (chatMessages st)))
    end.

Module ChatBody.
Record t : Type := mk
  { request_id : option string; content : option JsString;
    message_type : option string }.
End ChatBody.

(** [prisma.chatMessage.create]: new primary key, existing request and
    sender, a message type of the enum. *)
Definition chatMessage_create (id requestId senderId : string)
  (content : JsString) (messageType : string) (createdAt : Z) (st : Store)
  : option (ChatMessage.t * Store) :=
  if existsb_id ChatMessage.id id (chatMessages st) then None
  else if negb (existsb_id RequestRow.id requestId (requests st)) then None
  else if negb (existsb_id Profile.id senderId (profiles (base st)))
  then None
  else
    match parseChatMessageType messageType with
    | None => None
    | Some ty =>
        let m := ChatMessage.mk id requestId senderId content ty createdAt in
        Some (m, mkStore (base st) (requests st) (chatMessages st ++ [m]))
    end.

(** [router.post('/', requireAuth, ...)] of the chat router. *)
Definition chat_post (now : Z) (newId userId : string) (body : ChatBody.t)
  (st : Store) : Answer ChatMessage.t * Store :=
  if negb (truthy_string (ChatBody.request_id body))
     || negb (truthy_jsstring (ChatBody.content body))
  then (Fail 400 "request_id and content are required" None, st)
  else
    let request_id :=
      match ChatBody.request_id body with Some r => r | None => "" end in
    match request_findUnique st request_id with
    | None => (Fail 404 "Request not found" None, st)
    | Some request =>
        let profile := profile_findUnique (base st) userId in
        let isSuperAdmin := roleIs profile super_admin in
        let isParticipant :=
          String.eqb (RequestRow.dreamerId request) userId
          || isUser (RequestRow.interpreterId request) userId in
        if negb isParticipant && negb isSuperAdmin
        then (Fail 403 "Forbidden" None, st)
        else if negb (truthy_string (RequestRow.interpreterId request))
                && negb isSuperAdmin
        then (Fail 403 chatUnavailable None, st)
        else
          match chatMessage_create newId request_id userId
                  (match ChatBody.content body with Some c => c | None => [] end)
                  (if truthy_string (ChatBody.message_type body)
                   then match ChatBody.message_type body with
                        | Some t => t
                        | None => ""
                        end
                   else "text")
                  now st with
          | Some (message, st') => (Ok 200 message, st')
          | None => (Fail 500 "Internal server error" None, st)
          end
    end.

(** Request [r1] of [u1] on dream [d1], not yet assigned. *)
Definition storeOpenRequest : Store :=
  mkStore dbConversation
    [RequestRow.mk "r1" "d1" "u1" None "Please interpret" request_open 1500]
    [].

(** *** routes/profile.ts: DELETE /account *)

(** [ON DELETE SET NULL] on an [interpreter_id] key. *)
Definition unassignDream (userId : string) (d : Dream.t) : Dream.t :=
  if isUser (Dream.interpreterId d) userId
  then Dream.mk (Dream.id d) (Dream.dreamerId d) None (Dream.title d)
         (Dream.content d) (Dream.description d) (Dream.dreamDate d)
         (Dream.mood d) (Dream.status d) (Dream.createdAt d)
  else d.

Definition unassignRequest (userId : string) (r : RequestRow.t)
  : RequestRow.t :=
  if isUser (RequestRow.interpreterId r) userId
  then RequestRow.mk (RequestRow.id r) (RequestRow.dreamId r)
         (RequestRow.dreamerId r) None (RequestRow.title r)
         (RequestRow.status r) (RequestRow.createdAt r)
  else r.

(** [tx.user.delete({ where: { id: userId } })] with the referential
    actions of the schema: the profile goes with the user; dreams,
    requests, messages, comments, chat messages, subscriptions and
    payments of the profile go with it ([ON DELETE CASCADE]), and so do
    the rows hanging on a deleted dream or request; dreams and requests
    the profile was interpreting stay, unassigned ([ON DELETE SET
    NULL]).  Throws when no user has that id. *)
Definition user_delete (userId : string) (st : Store)
  : option (unit * Store) :=
  let db := base st in
  if negb (existsb_id User.id userId (users db)) then None
  else
    let goneDream (id : string) : bool :=
      existsb (fun d => String.eqb (Dream.id d) id
                        && String.eqb (Dream.dreamerId d) userId)
              (dreams db) in
    let goneRequestRow (r : RequestRow.t) : bool :=
      String.eqb (RequestRow.dreamerId r) userId
      || goneDream (RequestRow.dreamId r) in
    let goneRequest (id : string) : bool :=
      existsb (fun r => String.eqb (RequestRow.id r) id && goneRequestRow r)
              (requests st) in
    Some (tt,
          mkStore
            (mkDB
               (filter (fun u => negb (String.eqb (User.id u) userId))
                       (users db))
               (filter (fun p => negb (String.eqb (Profile.id p) userId))
                       (profiles db))
               (plans db)
               (filter (fun s => negb (String.eqb (UserPlan.userId s) userId))
                       (userPlans db))
               (map (unassignDream userId)
                    (filter (fun d => negb (String.eqb (Dream.dreamerId d)
                                              userId))
                            (dreams db)))
               (filter (fun p => negb (String.eqb (Payment.userId p) userId))
                       (payments db))
               (filter (fun m => negb (String.eqb (Message.senderId m) userId)
                                 && negb (goneDream (Message.dreamId m)))
                       (messages db))
               (filter (fun c => negb (String.eqb (Comment.userId c) userId)
                                 && negb (goneDream (Comment.dreamId c)))
                       (comments db)))
            (map (unassignRequest userId)
                 (filter (fun r => negb (goneRequestRow r)) (requests st)))
            (filter (fun m => negb (String.eqb (ChatMessage.senderId m) userId)
                              && negb (goneRequest (ChatMessage.requestId m)))
                    (chatMessages st))).

(** [router.delete('/account', requireAuth, ...)]; the session cookie is
    cleared on success. *)
Definition profile_delete_account (userId : string) (st : Store)
  : Answer unit * Store :=
  match user_delete userId st with
  | Some (_, st') => (Ok 200 tt, st')
  | None => (Fail 500 "Failed to delete account" None, st)
  end.
(** ** Properties *)

(** *** The JavaScript fragment on concrete inputs *)

Example parseInt_decimal : parseInt "30" = IFin 30.
Proof. reflexivity. Qed.

Example parseInt_skips_space_and_stops : parseInt "  -7days" = IFin (-7).
Proof. reflexivity. Qed.

Example parseInt_hex : parseInt "0x1f" = IFin 31.
Proof. reflexivity. Qed.

Example parseInt_no_digit : parseInt "abc" = INaN.
Proof. reflexivity. Qed.

Example toUpperCase_usd : toUpperCase "usd" = "USD".
Proof. reflexivity. Qed.

Example Array_from_pairs_surrogates :
  Array_from [55357; 56832; 1581] = [128512; 1581].
Proof. reflexivity. Qed.

Example Array_from_lone_surrogate : Array_from [55357; 65] = [55357; 65].
Proof. reflexivity. Qed.

Example matchAudioDataUrl_webm :
  matchAudioDataUrl "data:audio/webm;base64,AAAA" = Some ("webm", "AAAA").
Proof. reflexivity. Qed.

Example trim_token : trim "  abc " = "abc".
Proof. reflexivity. Qed.

(** *** Ordering and lookup lemmas *)

Section OrderBy.

Context {A : Type} (key : A -> Z).

Lemma insertDesc_In (x a : A) (l : list A) :
  In x (insertDesc key a l) <-> x = a \/ In x l.
Proof.
  induction l as [|y l IH]; simpl.
  - intuition.
  - destruct (key y <=? key a); simpl; [intuition|].
    rewrite IH. intuition.
Qed.

Lemma orderByDesc_In (x : A) (l : list A) :
  In x (orderByDesc key l) <-> In x l.
Proof.
  induction l as [|a l IH]; simpl; [tauto|].
  rewrite insertDesc_In, IH. intuition.
Qed.

Lemma insertDesc_descending (a : A) (l : list A) :
  descending key l -> descending key (insertDesc key a l).
Proof.
  unfold descending. induction l as [|y l IH]; intros Hs; simpl.
  - repeat constructor.
  - destruct (key y <=? key a) eqn:E.
    + apply Z.leb_le in E. constructor; [exact Hs|].
      constructor; [exact E|].
      inversion Hs as [|? ? _ Hall]; subst.
      eapply Forall_impl; [|exact Hall]. simpl. intros; lia.
    + apply Z.leb_gt in E.
      inversion Hs as [|? ? Hs' Hall]; subst.
      constructor; [apply IH; exact Hs'|].
      apply Forall_forall. intros x Hx.
      apply insertDesc_In in Hx. destruct Hx as [->|Hx]; [lia|].
      rewrite Forall_forall in Hall. apply Hall; exact Hx.
Qed.

Lemma orderByDesc_descending (l : list A) :
  descending key (orderByDesc key l).
Proof.
  induction l as [|a l IH]; simpl.
  - constructor.
  - apply insertDesc_descending; exact IH.
Qed.

(** The first row of the ordered result is one of the rows and no row
    has a larger key. *)
Lemma orderByDesc_head (l : list A) (y : A) (rest : list A) :
  orderByDesc key l = y :: rest ->
  In y l /\ forall x, In x l -> key x <= key y.
Proof.
  intros E. split.
  - apply orderByDesc_In. rewrite E. left; reflexivity.
  - intros x Hx. apply orderByDesc_In in Hx. rewrite E in Hx.
    pose proof (orderByDesc_descending l) as Hs. rewrite E in Hs.
    destruct Hx as [->|Hx]; [lia|].
    inversion Hs as [|? ? _ Hall]; subst.
    rewrite Forall_forall in Hall. apply Hall; exact Hx.
Qed.

Lemma orderByDesc_nil (l : list A) : orderByDesc key l = [] <-> l = [].
Proof.
  split; [|intros ->; reflexivity].
  destruct l as [|a l]; [reflexivity|]. intros E. exfalso.
  assert (H : In a (orderByDesc key (a :: l)))
    by (apply orderByDesc_In; left; reflexivity).
  rewrite E in H. exact H.
Qed.

End OrderBy.

Lemma subscriptionIsCurrent_spec (now : Z) (userId : string) (s : UserPlan.t) :
  subscriptionIsCurrent now userId s = true
  <-> UserPlan.userId s = userId /\ activeUnexpired now s.
Proof.
  unfold subscriptionIsCurrent, activeUnexpired.
  rewrite !andb_true_iff, String.eqb_eq.
  destruct (UserPlan.expiresAt s) as [e|].
  - rewrite Z.ltb_lt. split.
    + intros [[Hu Ha] He]. repeat split; auto. right. exists e. auto.
    + intros [Hu [Ha [Hn|[e' [He Hlt]]]]]; [discriminate|].
      injection He as <-. auto.
  - split.
    + intros [[Hu Ha] _]. auto.
    + intros [Hu [Ha _]]. auto.
Qed.

Lemma getActiveSubscription_Some (db : DB) (now : Z) (userId : string)
  (s : UserPlan.t) (pl : option Plan.t) :
  getActiveSubscription db now userId = Some (s, pl) ->
  In s (userPlans db)
  /\ UserPlan.userId s = userId
  /\ activeUnexpired now s
  /\ pl = plan_findUnique db (UserPlan.planId s)
  /\ forall s', In s' (userPlans db) -> UserPlan.userId s' = userId ->
                activeUnexpired now s' ->
                UserPlan.startedAt s' <= UserPlan.startedAt s.
Proof.
  unfold getActiveSubscription.
  destruct (orderByDesc _ _) as [|y rest] eqn:E; [discriminate|].
  intros H. injection H as -> <-.
  apply orderByDesc_head in E. destruct E as [Hin Hmax].
  apply filter_In in Hin. destruct Hin as [Hin Hcur].
  apply subscriptionIsCurrent_spec in Hcur. destruct Hcur as [Hu Hact].
  split; [exact Hin|]. split; [exact Hu|]. split; [exact Hact|].
  split; [reflexivity|].
  intros s' Hin' Hu' Hact'. apply Hmax. apply filter_In. split; [exact Hin'|].
  apply subscriptionIsCurrent_spec. auto.
Qed.

Lemma getActiveSubscription_None (db : DB) (now : Z) (userId : string) :
  getActiveSubscription db now userId = None
  <-> forall s, In s (userPlans db) -> UserPlan.userId s = userId ->
                ~ activeUnexpired now s.
Proof.
  unfold getActiveSubscription. split.
  - destruct (orderByDesc _ _) as [|y rest] eqn:E; [|discriminate].
    intros _ s Hin Hu Hact. apply orderByDesc_nil in E.
    assert (H : In s (filter (subscriptionIsCurrent now userId) (userPlans db))).
    { apply filter_In. split; [exact Hin|].
      apply subscriptionIsCurrent_spec. auto. }
    rewrite E in H. exact H.
  - intros Hnone.
    destruct (orderByDesc _ _) as [|y rest] eqn:E; [reflexivity|].
    exfalso. apply orderByDesc_head in E. destruct E as [Hin _].
    apply filter_In in Hin. destruct Hin as [Hin Hcur].
    apply subscriptionIsCurrent_spec in Hcur. destruct Hcur as [Hu Hact].
    exact (Hnone y Hin Hu Hact).
Qed.

Section DreamsProperties.

Variable StringToNumber : string -> JSNum.
Variable newDate : JsVal -> option Z.

Lemma planChecks_inr (db : DB) (now : Z) (userId : string) (letterCount : Z)
  (requested : IntNum) (s : UserPlan.t) :
  planChecks db now userId letterCount requested = inr s ->
  exists plan,
    getActiveSubscription db now userId = Some (s, Some plan)
    /\ (forall q, Plan.letterQuota plan = Some q ->
                  UserPlan.lettersUsed s + letterCount <= q)
    /\ (gt0 requested = true ->
        forall q, Plan.audioMinutesQuota plan = Some q ->
                  sum_exceeds (UserPlan.audioMinutesUsed s) requested q = false)
    /\ (forall m, Plan.maxDreams plan = Some m ->
                  dream_count db userId (UserPlan.startedAt s) < m).
Proof.
  unfold planChecks.
  destruct (getActiveSubscription db now userId) as [[s0 [plan|]]|];
    try discriminate.
  lazymatch goal with
  | |- (if ?c then _ else _) = _ -> _ => destruct c eqn:E1; [discriminate|]
  end.
  lazymatch goal with
  | |- (if ?c then _ else _) = _ -> _ => destruct c eqn:E2; [discriminate|]
  end.
  lazymatch goal with
  | |- (if ?c then _ else _) = _ -> _ => destruct c eqn:E3; [discriminate|]
  end.
  intros H; injection H as <-. exists plan.
  split; [reflexivity|]. split; [|split].
  - intros q Hq. rewrite Hq in E1. apply Z.ltb_ge in E1. exact E1.
  - intros Hg q Hq. rewrite Hg, Hq in E2. exact E2.
  - intros m Hm. rewrite Hm in E3. apply Z.leb_gt in E3. exact E3.
Qed.

Lemma planChecks_inl (db : DB) (now : Z) (userId : string) (letterCount : Z)
  (requested : IntNum) (r : Response) :
  planChecks db now userId letterCount requested = inl r ->
  status r = 402 \/ status r = 403.
Proof.
  unfold planChecks.
  destruct (getActiveSubscription db now userId) as [[s0 [plan|]]|];
    try (intros H; injection H as <-; left; reflexivity).
  repeat lazymatch goal with
  | |- (if ?c then _ else _) = _ -> _ =>
      destruct c; [intros H; injection H as <-; right; reflexivity|]
  end.
  discriminate.
Qed.

Lemma createDreamTx_None (now : Z) (newId userId : string)
  (body : DreamBody.t) (letterCount : Z) (requested : IntNum) (db : DB) :
  createDreamTx newDate now newId userId body None letterCount requested db
  = None.
Proof.
  unfold createDreamTx, bind.
  destruct (dream_create _ _ _ _ _ _ _ _ db) as [[d db1]|]; reflexivity.
Qed.

Lemma createDreamTx_Some (now : Z) (newId userId : string)
  (body : DreamBody.t) (s : UserPlan.t) (letterCount : Z)
  (requested : IntNum) (db db' : DB) (d : Dream.t) :
  createDreamTx newDate now newId userId body (Some s) letterCount requested db
  = Some (d, db') ->
  exists s0 s',
    userPlan_findUnique db (UserPlan.id s) = Some s0
    /\ usageUpdate letterCount requested s0 = Some s'
    /\ d = dreamOf newDate now newId userId body
    /\ db' = set_userPlans (set_dreams db (dreams db ++ [d]))
               (replace_row UserPlan.id (UserPlan.id s) s' (userPlans db)).
Proof.
  unfold createDreamTx, bind, deref, ret, dream_create, userPlan_update.
  destruct (existsb_id Dream.id newId (dreams db)); [discriminate|].
  destruct (negb (existsb_id Profile.id userId (profiles db)));
    [discriminate|].
  unfold dreamOf.
  destruct (ToBoolean (DreamBody.dream_date body)).
  - destruct (newDate (DreamBody.dream_date body)) as [t|]; [|discriminate].
    change (userPlan_findUnique (set_dreams db ?l) ?i)
      with (userPlan_findUnique db i).
    destruct (userPlan_findUnique db (UserPlan.id s)) as [s0|];
      [|discriminate].
    destruct (usageUpdate letterCount requested s0) as [s'|] eqn:Eu;
      [|discriminate].
    intros H. injection H as <- <-. exists s0, s'. auto.
  - change (userPlan_findUnique (set_dreams db ?l) ?i)
      with (userPlan_findUnique db i).
    destruct (userPlan_findUnique db (UserPlan.id s)) as [s0|];
      [|discriminate].
    destruct (usageUpdate letterCount requested s0) as [s'|] eqn:Eu;
      [|discriminate].
    intros H. injection H as <- <-. exists s0, s'. auto.
Qed.

(** What [POST /dreams] can do: answer without writing, or store the dream
    and charge the subscription picked by [getActiveSubscription]. *)
Lemma dreams_post_inv (now : Z) (newId userId : string) (body : DreamBody.t)
  (db db' : DB) (r : Response) :
  dreams_post StringToNumber newDate now newId userId body db = (r, db') ->
  (status r <> 201 /\ db' = db)
  \/ (exists profile s plan s0 s',
        let letterCount := countContentLetters (DreamBody.description body) in
        let requested :=
          audioMinutesRequested_of StringToNumber
            (DreamBody.audioMinutes body) in
        let dream := dreamOf newDate now newId userId body in
        profile_findUnique db userId = Some profile
        /\ isAdminRole (Profile.role profile) = false
        /\ planChecks db now userId letterCount requested = inr s
        /\ getActiveSubscription db now userId = Some (s, Some plan)
        /\ userPlan_findUnique db (UserPlan.id s) = Some s0
        /\ usageUpdate letterCount requested s0 = Some s'
        /\ r = mkResponse 201 (DreamJson dream)
        /\ db' = set_userPlans (set_dreams db (dreams db ++ [dream]))
                   (replace_row UserPlan.id (UserPlan.id s) s'
                      (userPlans db))).
Proof.
  unfold dreams_post.
  destruct (negb (truthy_string (DreamBody.title body))
            || negb (truthy_jsstring (DreamBody.description body))).
  { intros H; injection H as <- <-. left. split; [discriminate|reflexivity]. }
  destruct (profile_findUnique db userId) as [profile|].
  2:{ intros H; injection H as <- <-. left.
      split; [discriminate|reflexivity]. }
  destruct (isAdminRole (Profile.role profile)) eqn:Eadm; simpl negb; cbv iota.
  - unfold transaction. rewrite createDreamTx_None.
    intros H; injection H as <- <-. left. split; [discriminate|reflexivity].
  - destruct (planChecks db now userId _ _) as [denied|s] eqn:Ep.
    + intros H; injection H as <- <-. left. split; [|reflexivity].
      apply planChecks_inl in Ep. destruct Ep as [-> | ->]; discriminate.
    + unfold transaction.
      destruct (createDreamTx _ _ _ _ _ _ _ _ db) as [[d db1]|] eqn:Et.
      * intros H; injection H as <- <-. right.
        apply createDreamTx_Some in Et.
        destruct Et as (s0 & s' & Hf & Hu & -> & ->).
        destruct (planChecks_inr _ _ _ _ _ _ Ep) as (plan & Hg & _).
        exists profile, s, plan, s0, s'. cbv zeta.
        repeat (split; [first [reflexivity | assumption]|]). reflexivity.
      * intros H; injection H as <- <-. left.
        split; [discriminate|reflexivity].
Qed.

Lemma find_replace_row (id : string) (s' : UserPlan.t)
  (l : list UserPlan.t) (s0 : UserPlan.t) :
  find (fun s => String.eqb (UserPlan.id s) id) l = Some s0 ->
  UserPlan.id s' = id ->
  find (fun s => String.eqb (UserPlan.id s) id)
       (replace_row UserPlan.id id s' l) = Some s'.
Proof.
  intros Hf Hid. induction l as [|a l IH]; simpl in *; [discriminate|].
  destruct (String.eqb (UserPlan.id a) id) eqn:E.
  - rewrite Hid, String.eqb_refl. reflexivity.
  - rewrite E. apply IH. exact Hf.
Qed.

Lemma find_replace_row_other (id id' : string) (s' : UserPlan.t)
  (l : list UserPlan.t) :
  id' <> id -> UserPlan.id s' = id ->
  find (fun s => String.eqb (UserPlan.id s) id')
       (replace_row UserPlan.id id s' l)
  = find (fun s => String.eqb (UserPlan.id s) id') l.
Proof.
  intros Hne Hid. induction l as [|a l IH]; simpl; [reflexivity|].
  destruct (String.eqb (UserPlan.id a) id) eqn:E.
  - apply String.eqb_eq in E. rewrite Hid, E.
    destruct (String.eqb id id') eqn:E'.
    + apply String.eqb_eq in E'. congruence.
    + exact IH.
  - destruct (String.eqb (UserPlan.id a) id'); [reflexivity|exact IH].
Qed.

Lemma find_id (id : string) (l : list UserPlan.t) (s0 : UserPlan.t) :
  find (fun s => String.eqb (UserPlan.id s) id) l = Some s0 ->
  UserPlan.id s0 = id /\ In s0 l.
Proof.
  intros H. apply find_some in H. destruct H as [Hin He].
  apply String.eqb_eq in He. auto.
Qed.

Lemma increment_Some (col : Z) (n : IntNum) (v : Z) :
  increment col n = Some v -> exists z, n = IFin z /\ v = col + z.
Proof.
  destruct n as [| | |z]; simpl; try discriminate.
  destruct (int32 z && int32 (col + z)); [|discriminate].
  intros H; injection H as <-. eauto.
Qed.

Lemma usageUpdate_Some (letterCount : Z) (requested : IntNum)
  (s0 s' : UserPlan.t) :
  usageUpdate letterCount requested s0 = Some s' ->
  s' = withUsage s0 (UserPlan.lettersUsed s0 + letterCount)
         (UserPlan.audioMinutesUsed s0 + debitOf requested).
Proof.
  unfold usageUpdate, withUsage.
  destruct (increment (UserPlan.lettersUsed s0) (IFin letterCount))
    as [letters|] eqn:El; [|discriminate].
  apply increment_Some in El. destruct El as (z & Hz & ->).
  injection Hz as <-.
  destruct (gt0 requested) eqn:Eg.
  - destruct (increment (UserPlan.audioMinutesUsed s0) requested)
      as [minutes|] eqn:Em; [|discriminate].
    apply increment_Some in Em. destruct Em as (z & -> & ->).
    simpl in Eg. unfold debitOf. rewrite Eg.
    intros H; injection H as <-. reflexivity.
  - intros H; injection H as <-. f_equal.
    destruct requested as [| | |z]; simpl in *; try discriminate;
      try (rewrite Z.add_0_r; reflexivity).
    rewrite Eg, Z.add_0_r. reflexivity.
Qed.

(** C4. A user who is neither admin nor super_admin and has no
    subscription row that is active and unexpired is refused by
    [POST /dreams] with status 402 and code NO_ACTIVE_SUBSCRIPTION, the
    database untouched.  And [getActiveSubscription] finds nothing exactly
    when the user has no active and unexpired row; otherwise it returns,
    with its plan, one of the user's active and unexpired rows with the
    latest [startedAt].  That row is the subscription the quota checks
    are run against: they hand it on when they pass, refuse with 403 when
    they do not, and answer 402 only when nothing was found (or the row
    has no plan). *)
Theorem no_effective_subscription_denied (now : Z) (newId userId : string)
  (body : DreamBody.t) (db : DB) (profile : Profile.t) :
  truthy_string (DreamBody.title body) = true ->
  truthy_jsstring (DreamBody.description body) = true ->
  profile_findUnique db userId = Some profile ->
  Profile.role profile <> admin ->
  Profile.role profile <> super_admin ->
  (forall s, In s (userPlans db) -> UserPlan.userId s = userId ->
             ~ activeUnexpired now s) ->
  dreams_post StringToNumber newDate now newId userId body db
  = (mkResponse 402
       (Error "Active subscription required" (Some "NO_ACTIVE_SUBSCRIPTION")),
     db)
  /\ (forall db0 now0 user letterCount requested s,
        planChecks db0 now0 user letterCount requested = inr s ->
        In s (userPlans db0)
        /\ UserPlan.userId s = user
        /\ activeUnexpired now0 s
        /\ forall s', In s' (userPlans db0) -> UserPlan.userId s' = user ->
                      activeUnexpired now0 s' ->
                      UserPlan.startedAt s' <= UserPlan.startedAt s)
  /\ (forall db0 now0 user,
        match getActiveSubscription db0 now0 user with
        | Some (s, plan) =>
            In s (userPlans db0)
            /\ UserPlan.userId s = user
            /\ activeUnexpired now0 s
            /\ plan = plan_findUnique db0 (UserPlan.planId s)
            /\ forall s', In s' (userPlans db0) ->
                          UserPlan.userId s' = user ->
                          activeUnexpired now0 s' ->
                          UserPlan.startedAt s' <= UserPlan.startedAt s
        | None =>
            forall s, In s (userPlans db0) -> UserPlan.userId s = user ->
                      ~ activeUnexpired now0 s
        end)
  /\ (forall db0 now0 user letterCount requested,
        match planChecks db0 now0 user letterCount requested with
        | inr s =>
            exists plan,
              getActiveSubscription db0 now0 user = Some (s, Some plan)
        | inl refusal =>
            match getActiveSubscription db0 now0 user with
            | Some (_, Some _) => status refusal = 403
            | _ =>
                refusal
                = mkResponse 402
                    (Error "Active subscription required"
                           (Some "NO_ACTIVE_SUBSCRIPTION"))
            end
        end).
Proof.
  intros Ht Hd Hp Ha Hsa Hnone. split; [|split; [|split]].
  - unfold dreams_post. rewrite Ht, Hd, Hp. simpl.
    assert (Eadm : isAdminRole (Profile.role profile) = false)
      by (destruct (Profile.role profile); simpl; congruence).
    rewrite Eadm. simpl. unfold planChecks.
    apply getActiveSubscription_None in Hnone. rewrite Hnone. reflexivity.
  - intros db0 now0 user letterCount requested s Hc.
    apply planChecks_inr in Hc. destruct Hc as (plan & Hg & _).
    apply getActiveSubscription_Some in Hg.
    destruct Hg as (Hin & Hu & Hact & _ & Hmax). auto.
  - intros db0 now0 user.
    destruct (getActiveSubscription db0 now0 user) as [[s plan]|] eqn:Eg.
    + apply getActiveSubscription_Some. exact Eg.
    + apply getActiveSubscription_None. exact Eg.
  - intros db0 now0 user letterCount requested.
    destruct (planChecks db0 now0 user letterCount requested)
      as [refusal|s] eqn:Ec.
    + unfold planChecks in Ec.
      destruct (getActiveSubscription db0 now0 user) as [[s0 [plan|]]|];
        try (injection Ec as <-; reflexivity).
      repeat lazymatch type of Ec with
      | (if ?c then _ else _) = _ =>
          destruct c; [injection Ec as <-; reflexivity|]
      end.
      discriminate.
    + apply planChecks_inr in Ec. destruct Ec as (plan & Hg & _).
      exists plan. exact Hg.
Qed.

(** C5 (as the code behaves). For a requester whose role is admin or
    super_admin and a request with title and description, the plan checks
    are skipped, but the transaction then reads [subscription.id] of an
    undefined subscription: the answer is 500 and no dream is stored. *)
Theorem admin_dream_creation_fails (now : Z) (newId userId : string)
  (body : DreamBody.t) (db : DB) (profile : Profile.t) :
  truthy_string (DreamBody.title body) = true ->
  truthy_jsstring (DreamBody.description body) = true ->
  profile_findUnique db userId = Some profile ->
  isAdminRole (Profile.role profile) = true ->
  dreams_post StringToNumber newDate now newId userId body db
  = (mkResponse 500 (Error "Failed to create dream" None), db).
Proof.
  intros Ht Hd Hp Ha. unfold dreams_post. rewrite Ht, Hd, Hp. simpl.
  rewrite Ha. simpl. unfold transaction. rewrite createDreamTx_None.
  reflexivity.
Qed.

(** C2. For a non-admin user whose effective subscription's plan sets
    [letterQuota], a submission whose code-point count added to
    [lettersUsed] exceeds the quota is answered 403 with code
    QUOTA_EXCEEDED and the database is left as it was (no Dream row, the
    counter unchanged).  And every request either leaves the database
    unchanged with an answer other than 201, or is answered 201 and then
    both the Dream row was appended and the counter of the charged
    subscription went up by the count: never one without the other. *)
Theorem letter_quota_rejects_and_debit_is_atomic (now : Z)
  (newId userId : string) (body : DreamBody.t) (db : DB) :
  (forall profile s plan q,
      truthy_string (DreamBody.title body) = true ->
      truthy_jsstring (DreamBody.description body) = true ->
      profile_findUnique db userId = Some profile ->
      isAdminRole (Profile.role profile) = false ->
      getActiveSubscription db now userId = Some (s, Some plan) ->
      Plan.letterQuota plan = Some q ->
      q < UserPlan.lettersUsed s
          + countContentLetters (DreamBody.description body) ->
      dreams_post StringToNumber newDate now newId userId body db
      = (mkResponse 403
           (Error ("Letter quota exceeded for the current plan ("
                   ++ Z_toString q ++ " characters)")%string
                  (Some "QUOTA_EXCEEDED")), db))
  /\ (forall r db',
        dreams_post StringToNumber newDate now newId userId body db = (r, db') ->
        (status r <> 201 /\ db' = db)
        \/ (exists sid,
              status r = 201
              /\ effectiveId db now userId = Some sid
              /\ dreams db' = dreams db
                              ++ [dreamOf newDate now newId userId body]
              /\ lettersUsedOf db' sid
                 = lettersUsedOf db sid
                   + countContentLetters (DreamBody.description body)
              /\ (forall other, other <> sid ->
                    userPlan_findUnique db' other
                    = userPlan_findUnique db other))).
Proof.
  split.
  - intros profile s plan q Ht Hd Hp Ha Hg Hq Hlt.
    unfold dreams_post. rewrite Ht, Hd, Hp. simpl. rewrite Ha. simpl.
    unfold planChecks. rewrite Hg, Hq.
    apply Z.ltb_lt in Hlt. rewrite Hlt. reflexivity.
  - intros r db' H. apply dreams_post_inv in H.
    destruct H as [H|H]; [left; exact H|right].
    destruct H as (profile & s & plan & s0 & s' & H). cbv zeta in H.
    destruct H as (Hp & Ha & Hc & Hg & Hf & Hu & -> & ->).
    exists (UserPlan.id s).
    apply usageUpdate_Some in Hu.
    destruct (find_id _ _ _ Hf) as [Hid _].
    assert (Hid' : UserPlan.id s' = UserPlan.id s)
      by (rewrite Hu; exact Hid).
    split; [reflexivity|].
    split; [unfold effectiveId; rewrite Hg; reflexivity|].
    split; [reflexivity|]. split.
    + unfold lettersUsedOf, userPlan_findUnique in *. simpl.
      rewrite (find_replace_row _ _ _ _ Hf Hid'), Hf, Hu. reflexivity.
    + intros other Hne. unfold userPlan_findUnique. simpl.
      apply find_replace_row_other; assumption.
Qed.

End DreamsProperties.

(** *** Letters are code points *)

Lemma isScalarValue_not_lead (cp : Z) :
  isScalarValue cp = true -> isLeadSurrogate cp = false.
Proof.
  unfold isScalarValue, isLeadSurrogate. intros H.
  apply andb_true_iff in H. destruct H as [_ H].
  apply negb_true_iff in H.
  destruct (55296 <=? cp) eqn:E1; [|reflexivity].
  simpl in *. apply Z.leb_gt in H. apply Z.leb_gt. lia.
Qed.

Lemma Array_from_utf16Encode (text : list Z) :
  Forall (fun cp => isScalarValue cp = true) text ->
  Array_from (utf16Encode text) = text.
Proof.
  induction 1 as [|cp text Hcp _ IH]; [reflexivity|].
  unfold utf16Encode in *. cbn [flat_map]. unfold utf16Encode1 at 1.
  destruct (cp <? 65536) eqn:Elt.
  - cbn [app Array_from]. rewrite (isScalarValue_not_lead _ Hcp).
    rewrite IH. reflexivity.
  - apply Z.ltb_ge in Elt.
    unfold isScalarValue in Hcp.
    apply andb_true_iff in Hcp. destruct Hcp as [Hr _].
    apply andb_true_iff in Hr. destruct Hr as [_ Hmax].
    apply Z.leb_le in Hmax.
    pose proof (Z.div_mod (cp - 65536) 1024 ltac:(lia)) as Hdm.
    pose proof (Z.mod_pos_bound (cp - 65536) 1024 ltac:(lia)) as Hm.
    assert (Hq : 0 <= (cp - 65536) / 1024 <= 1023) by lia.
    cbn [app Array_from].
    assert (Hl : isLeadSurrogate (55296 + (cp - 65536) / 1024) = true).
    { unfold isLeadSurrogate. apply andb_true_iff.
      split; apply Z.leb_le; lia. }
    assert (Ht : isTrailSurrogate (56320 + (cp - 65536) mod 1024) = true).
    { unfold isTrailSurrogate. apply andb_true_iff.
      split; apply Z.leb_le; lia. }
    rewrite Hl, Ht, IH. f_equal.
    unfold UTF16SurrogatePairToCodePoint. lia.
Qed.

Lemma countContentLetters_length (s : JsString) :
  countContentLetters (Some s) = Z.of_nat (List.length (Array_from s)).
Proof. destruct s; reflexivity. Qed.

Lemma utf8ByteLength_ge_length (text : list Z) :
  Z.of_nat (List.length text) <= utf8ByteLength text.
Proof.
  induction text as [|cp text IH]; [reflexivity|].
  cbn [List.length utf8ByteLength fold_right].
  fold (utf8ByteLength text).
  assert (1 <= utf8Length1 cp).
  { unfold utf8Length1.
    destruct (cp <? 128); [lia|]. destruct (cp <? 2048); [lia|].
    destruct (cp <? 65536); lia. }
  lia.
Qed.

(** *** Selection of the effective subscription ignores the counters *)

Lemma filter_map_comm {A B : Type} (f : A -> B) (p : B -> bool) (l : list A) :
  filter p (map f l) = map f (filter (fun x => p (f x)) l).
Proof.
  induction l as [|a l IH]; simpl; [reflexivity|].
  destruct (p (f a)); simpl; rewrite IH; reflexivity.
Qed.

Lemma insertDesc_map {A : Type} (key : A -> Z) (f : A -> A) (a : A)
  (l : list A) :
  (forall x, key (f x) = key x) ->
  insertDesc key (f a) (map f l) = map f (insertDesc key a l).
Proof.
  intros Hk. induction l as [|y l IH]; simpl; [reflexivity|].
  rewrite !Hk. destruct (key y <=? key a); simpl; [reflexivity|].
  rewrite IH. reflexivity.
Qed.

Lemma orderByDesc_map {A : Type} (key : A -> Z) (f : A -> A) (l : list A) :
  (forall x, key (f x) = key x) ->
  orderByDesc key (map f l) = map f (orderByDesc key l).
Proof.
  intros Hk. induction l as [|a l IH]; simpl; [reflexivity|].
  rewrite IH. apply insertDesc_map. exact Hk.
Qed.

Lemma effectiveId_window (db db' : DB) (now : Z) (userId : string) :
  map window (userPlans db') = map window (userPlans db) ->
  effectiveId db' now userId = effectiveId db now userId.
Proof.
  intros Hw. unfold effectiveId, getActiveSubscription.
  assert (H : map window
                (orderByDesc UserPlan.startedAt
                   (filter (subscriptionIsCurrent now userId) (userPlans db')))
              = map window
                  (orderByDesc UserPlan.startedAt
                     (filter (subscriptionIsCurrent now userId)
                        (userPlans db)))).
  { rewrite <- !(orderByDesc_map UserPlan.startedAt window)
      by reflexivity.
    f_equal.
    transitivity (filter (subscriptionIsCurrent now userId)
                    (map window (userPlans db'))).
    - rewrite filter_map_comm. reflexivity.
    - rewrite Hw, filter_map_comm. reflexivity. }
  destruct (orderByDesc _ (filter _ (userPlans db'))) as [|y' r'];
    destruct (orderByDesc _ (filter _ (userPlans db))) as [|y r];
    simpl in H; try discriminate; [reflexivity|].
  assert (Hy : window y' = window y) by congruence. f_equal.
  change (UserPlan.id (window y') = UserPlan.id (window y)).
  rewrite Hy. reflexivity.
Qed.

Lemma NoDup_id_eq (l : list UserPlan.t) (a b : UserPlan.t) :
  NoDup (map UserPlan.id l) -> In a l -> In b l ->
  UserPlan.id a = UserPlan.id b -> a = b.
Proof.
  induction l as [|x l IH]; simpl; [tauto|].
  intros Hnd Ha Hb Hid. inversion Hnd as [|? ? Hnot Hnd']; subst.
  destruct Ha as [->|Ha]; destruct Hb as [->|Hb]; auto.
  - exfalso. apply Hnot. rewrite Hid. apply in_map. exact Hb.
  - exfalso. apply Hnot. rewrite <- Hid. apply in_map. exact Ha.
Qed.

Lemma replace_row_ids (id : string) (s' : UserPlan.t) (l : list UserPlan.t) :
  UserPlan.id s' = id ->
  map UserPlan.id (replace_row UserPlan.id id s' l) = map UserPlan.id l.
Proof.
  intros Hid. induction l as [|a l IH]; simpl; [reflexivity|].
  rewrite IH. destruct (String.eqb (UserPlan.id a) id) eqn:E;
    [|reflexivity].
  apply String.eqb_eq in E. congruence.
Qed.

Lemma replace_row_window (s0 s' : UserPlan.t) (l : list UserPlan.t) :
  NoDup (map UserPlan.id l) -> In s0 l -> window s' = window s0 ->
  map window (replace_row UserPlan.id (UserPlan.id s0) s' l) = map window l.
Proof.
  intros Hnd Hin Hw. unfold replace_row. rewrite map_map.
  apply map_ext_in. intros a Ha.
  destruct (String.eqb (UserPlan.id a) (UserPlan.id s0)) eqn:E;
    [|reflexivity].
  apply String.eqb_eq in E.
  rewrite (NoDup_id_eq l a s0 Hnd Ha Hin E). exact Hw.
Qed.

Section DreamSequenceProperties.

Variable StringToNumber : string -> JSNum.
Variable newDate : JsVal -> option Z.

(** A successful submission charges the effective subscription and
    leaves every window as it was. *)
Lemma dreams_post_charged (now : Z) (newId userId : string)
  (body : DreamBody.t) (db db1 : DB) (r : Response) (sid : string) :
  NoDup (map UserPlan.id (userPlans db)) ->
  dreams_post StringToNumber newDate now newId userId body db = (r, db1) ->
  status r = 201 ->
  effectiveId db now userId = Some sid ->
  lettersUsedOf db1 sid
  = lettersUsedOf db sid + countContentLetters (DreamBody.description body)
  /\ (forall q, letterQuotaOf db sid = Some q -> lettersUsedOf db1 sid <= q)
  /\ NoDup (map UserPlan.id (userPlans db1))
  /\ map window (userPlans db1) = map window (userPlans db)
  /\ letterQuotaOf db1 sid = letterQuotaOf db sid.
Proof.
  intros Hnd H H201 He. apply dreams_post_inv in H.
  destruct H as [[Hne _]|H]; [contradiction|].
  destruct H as (profile & s & plan & s0 & s' & H). cbv zeta in H.
  destruct H as (Hp & Ha & Hc & Hg & Hf & Hu & -> & ->).
  unfold effectiveId in He. rewrite Hg in He. injection He as <-.
  apply usageUpdate_Some in Hu.
  destruct (find_id _ _ _ Hf) as [Hid Hin0].
  destruct (getActiveSubscription_Some _ _ _ _ _ Hg)
    as (Hin & _ & _ & Hpl & _).
  assert (Es : s0 = s) by (apply (NoDup_id_eq _ _ _ Hnd Hin0 Hin Hid)).
  subst s0.
  assert (Hid' : UserPlan.id s' = UserPlan.id s) by (rewrite Hu; reflexivity).
  assert (Hf' : userPlan_findUnique
                  (set_userPlans
                     (set_dreams db
                        (dreams db ++ [dreamOf newDate now newId userId body]))
                     (replace_row UserPlan.id (UserPlan.id s) s'
                        (userPlans db))) (UserPlan.id s) = Some s').
  { unfold userPlan_findUnique. simpl.
    apply (find_replace_row _ _ _ _ Hf Hid'). }
  destruct (planChecks_inr _ _ _ _ _ _ Hc) as (plan' & Hg' & Hq & _).
  rewrite Hg in Hg'. injection Hg' as <-.
  assert (Hlq : letterQuotaOf db (UserPlan.id s) = Plan.letterQuota plan).
  { unfold letterQuotaOf. rewrite Hf, <- Hpl. reflexivity. }
  split; [|split; [|split; [|split]]].
  - unfold lettersUsedOf. rewrite Hf', Hf, Hu. reflexivity.
  - intros q Hq'. unfold lettersUsedOf. rewrite Hf', Hu. simpl.
    apply Hq. rewrite <- Hlq. exact Hq'.
  - simpl. rewrite replace_row_ids; assumption.
  - simpl. apply replace_row_window; [assumption|assumption|].
    rewrite Hu. reflexivity.
  - rewrite Hlq. unfold letterQuotaOf. rewrite Hf'.
    change (plan_findUnique (set_userPlans (set_dreams db ?d) ?u) ?i)
      with (plan_findUnique db i).
    rewrite Hu. simpl. rewrite <- Hpl. reflexivity.
Qed.

Lemma dreams_post_seq_sum (reqs : list DreamRequest.t) :
  forall (db db' : DB) (rs : list Response) (sid : string),
    NoDup (map UserPlan.id (userPlans db)) ->
    dreams_post_seq StringToNumber newDate reqs db = (rs, db') ->
    Forall (fun r => status r = 201) rs ->
    Forall (fun rq => effectiveId db (DreamRequest.now rq)
                        (DreamRequest.userId rq) = Some sid) reqs ->
    lettersUsedOf db' sid = lettersUsedOf db sid + lettersRequested reqs
    /\ letterQuotaOf db' sid = letterQuotaOf db sid
    /\ (forall q, letterQuotaOf db sid = Some q ->
                  reqs <> [] \/ lettersUsedOf db sid <= q ->
                  lettersUsedOf db' sid <= q).
Proof.
  induction reqs as [|rq reqs IH]; intros db db' rs sid Hnd Hrun Hok Heff.
  - simpl in Hrun. injection Hrun as <- <-. simpl.
    split; [lia|]. split; [reflexivity|].
    intros q _ [Hne|Hle]; [contradiction|exact Hle].
  - simpl in Hrun.
    destruct (dreams_post _ _ _ _ _ _ db) as [r db1] eqn:E1.
    destruct (dreams_post_seq _ _ reqs db1) as [rs' db2] eqn:E2.
    injection Hrun as <- <-.
    inversion Hok as [|? ? H201 Hok']; subst.
    inversion Heff as [|? ? He Heff']; subst.
    destruct (dreams_post_charged _ _ _ _ _ _ _ _ Hnd E1 H201 He)
      as (Hl & Hq & Hnd1 & Hw & Hlq).
    assert (Heff1 : Forall (fun rq => effectiveId db1 (DreamRequest.now rq)
                                        (DreamRequest.userId rq) = Some sid)
                      reqs).
    { eapply Forall_impl; [|exact Heff']. simpl. intros a Ha.
      rewrite (effectiveId_window db db1 _ _ Hw). exact Ha. }
    destruct (IH db1 db2 rs' sid Hnd1 E2 Hok' Heff1) as (Hl2 & Hlq2 & Hq2).
    split; [|split].
    + rewrite Hl2, Hl. simpl. lia.
    + rewrite Hlq2. exact Hlq.
    + intros q Hq' _. apply Hq2; [rewrite Hlq; exact Hq'|].
      right. apply Hq. exact Hq'.
Qed.

(** C3. Letters are counted in code points, not in storage bytes: the
    count of a text's UTF-16 form is its number of scalar values, which
    never exceeds its UTF-8 length, and a character beyond ASCII counts
    once although it takes two bytes or more.  After any run of successful dream creations charged to one
    subscription, [lettersUsed] has grown by the sum of the descriptions'
    code-point counts, and once a creation succeeded it does not exceed
    the plan's [letterQuota] when one is set. *)
Theorem lettersUsed_is_sum_of_code_points :
  (forall text : list Z,
      Forall (fun cp => isScalarValue cp = true) text ->
      countContentLetters (Some (utf16Encode text))
      = Z.of_nat (List.length text)
      /\ countContentLetters (Some (utf16Encode text)) <= utf8ByteLength text)
  /\ (forall cp : Z,
        isScalarValue cp = true -> 128 <= cp ->
        countContentLetters (Some (utf16Encode [cp])) = 1
        /\ 2 <= utf8ByteLength [cp])
  /\ (forall (reqs : list DreamRequest.t) (db db' : DB) (rs : list Response)
             (sid : string),
        NoDup (map UserPlan.id (userPlans db)) ->
        dreams_post_seq StringToNumber newDate reqs db = (rs, db') ->
        Forall (fun r => status r = 201) rs ->
        Forall (fun rq => effectiveId db (DreamRequest.now rq)
                            (DreamRequest.userId rq) = Some sid) reqs ->
        lettersUsedOf db' sid = lettersUsedOf db sid + lettersRequested reqs
        /\ (forall q, letterQuotaOf db' sid = Some q ->
                      reqs <> [] \/ lettersUsedOf db sid <= q ->
                      lettersUsedOf db' sid <= q)).
Proof.
  split; [|split].
  - intros text Htext.
    rewrite countContentLetters_length, (Array_from_utf16Encode _ Htext).
    split; [reflexivity|apply utf8ByteLength_ge_length].
  - intros cp Hcp Hge.
    rewrite countContentLetters_length,
      (Array_from_utf16Encode [cp] (Forall_cons _ Hcp (Forall_nil _))).
    split; [reflexivity|].
    unfold utf8ByteLength, utf8Length1. cbn [fold_right].
    destruct (cp <? 128) eqn:E; [apply Z.ltb_lt in E; lia|].
    destruct (cp <? 2048); [lia|]. destruct (cp <? 65536); lia.
  - intros reqs db db' rs sid Hnd Hrun Hok Heff.
    destruct (dreams_post_seq_sum reqs db db' rs sid Hnd Hrun Hok Heff)
      as (Hl & Hlq & Hq).
    split; [exact Hl|].
    intros q Hq'. apply Hq. rewrite <- Hlq. exact Hq'.
Qed.

End DreamSequenceProperties.

(** *** Audio minutes *)

Lemma Qceiling_zero_num (q : Q) : Qnum q = 0 -> Qceiling q = 0.
Proof.
  destruct q as [n d]. simpl. intros ->. reflexivity.
Qed.

Section AudioMinutes.

Variable StringToNumber : string -> JSNum.
Variable newDate : JsVal -> option Z.

Lemma audioMinutesRequested_of_number (q : Q) :
  audioMinutesRequested_of StringToNumber (JNumber (Fin q))
  = IFin (Qceiling q).
Proof.
  unfold audioMinutesRequested_of. simpl.
  destruct (Qnum q =? 0) eqn:E; simpl; [|reflexivity].
  apply Z.eqb_eq in E. rewrite (Qceiling_zero_num q E). reflexivity.
Qed.

Lemma planChecks_audio_code (db : DB) (now : Z) (userId : string)
  (letterCount : Z) (requested : IntNum) (r : Response) :
  planChecks db now userId letterCount requested = inl r ->
  code_of r = Some "AUDIO_QUOTA_EXCEEDED" ->
  gt0 requested = true.
Proof.
  unfold planChecks.
  destruct (getActiveSubscription db now userId) as [[s0 [plan|]]|];
    try (intros H; injection H as <-; discriminate).
  lazymatch goal with
  | |- (if ?c then _ else _) = _ -> _ =>
      destruct c; [intros H; injection H as <-; discriminate|]
  end.
  destruct (gt0 requested); [reflexivity|]. simpl.
  lazymatch goal with
  | |- (if ?c then _ else _) = _ -> _ =>
      destruct c; [intros H; injection H as <-; discriminate|]
  end.
  discriminate.
Qed.

Lemma dreams_post_audio_code (now : Z) (newId userId : string)
  (body : DreamBody.t) (db db' : DB) (r : Response) :
  dreams_post StringToNumber newDate now newId userId body db = (r, db') ->
  code_of r = Some "AUDIO_QUOTA_EXCEEDED" ->
  gt0 (audioMinutesRequested_of StringToNumber (DreamBody.audioMinutes body))
  = true.
Proof.
  unfold dreams_post.
  destruct (negb (truthy_string (DreamBody.title body))
            || negb (truthy_jsstring (DreamBody.description body))).
  { intros H; injection H as <- <-. discriminate. }
  destruct (profile_findUnique db userId) as [profile|].
  2:{ intros H; injection H as <- <-. discriminate. }
  destruct (isAdminRole (Profile.role profile)); simpl negb; cbv iota.
  - destruct (transaction _ db) as [[d|] db1];
      intros H; injection H as <- <-; discriminate.
  - destruct (planChecks db now userId _ _) as [denied|s] eqn:Ep.
    + intros H; injection H as <- <-.
      apply (planChecks_audio_code _ _ _ _ _ _ Ep).
    + destruct (transaction _ db) as [[d|] db1];
        intros H; injection H as <- <-; discriminate.
Qed.

(** C10. The audio minutes of a request are [Math.ceil(Number(v))] when
    [v] is truthy and 0 otherwise: a fractional number is rounded up to
    the next whole integer, a string is converted and then rounded up.
    The rounded value is what the audio-quota comparison adds to
    [audioMinutesUsed] and what a successful creation debits.  When the
    value is absent, zero or rounds to zero, no request is answered
    AUDIO_QUOTA_EXCEEDED and a successful creation leaves
    [audioMinutesUsed] unchanged. *)
Theorem audio_minutes_rounded_up_and_gated (now : Z) (newId userId : string)
  (body : DreamBody.t) (db : DB) :
  let requested :=
    audioMinutesRequested_of StringToNumber (DreamBody.audioMinutes body) in
  (forall q : Q,
      audioMinutesRequested_of StringToNumber (JNumber (Fin q))
      = IFin (Qceiling q)
      /\ (inject_Z (Qceiling q - 1) < q)%Q /\ (q <= inject_Z (Qceiling q))%Q)
  /\ (forall s : string,
        s <> "" ->
        audioMinutesRequested_of StringToNumber (JString s)
        = Math_ceil (StringToNumber s))
  /\ audioMinutesRequested_of StringToNumber JUndefined = IFin 0
  /\ (forall profile s plan aq z,
        truthy_string (DreamBody.title body) = true ->
        truthy_jsstring (DreamBody.description body) = true ->
        profile_findUnique db userId = Some profile ->
        isAdminRole (Profile.role profile) = false ->
        getActiveSubscription db now userId = Some (s, Some plan) ->
        (forall q, Plan.letterQuota plan = Some q ->
                   UserPlan.lettersUsed s
                   + countContentLetters (DreamBody.description body) <= q) ->
        requested = IFin z -> 0 < z ->
        Plan.audioMinutesQuota plan = Some aq ->
        aq < UserPlan.audioMinutesUsed s + z ->
        dreams_post StringToNumber newDate now newId userId body db
        = (mkResponse 403
             (Error ("Audio minutes quota exceeded for the current plan ("
                     ++ Z_toString aq ++ " minutes)")%string
                    (Some "AUDIO_QUOTA_EXCEEDED")), db))
  /\ (forall r db' sid,
        dreams_post StringToNumber newDate now newId userId body db = (r, db') ->
        status r = 201 ->
        effectiveId db now userId = Some sid ->
        audioMinutesUsedOf db' sid
        = audioMinutesUsedOf db sid + debitOf requested)
  /\ (gt0 requested = false ->
      debitOf requested = 0
      /\ forall r db',
          dreams_post StringToNumber newDate now newId userId body db = (r, db') ->
          code_of r <> Some "AUDIO_QUOTA_EXCEEDED").
Proof.
  intros requested.
  split; [|split; [|split; [|split; [|split]]]].
  - intros q. split; [apply audioMinutesRequested_of_number|].
    split; [apply Qceiling_lt|apply Qle_ceiling].
  - intros s Hs. unfold audioMinutesRequested_of. simpl.
    destruct (String.eqb s "") eqn:E; [|reflexivity].
    apply String.eqb_eq in E. contradiction.
  - reflexivity.
  - intros profile s plan aq z Ht Hd Hp Ha Hg Hl Hr Hz Haq Hlt.
    unfold dreams_post. rewrite Ht, Hd, Hp. simpl. rewrite Ha. simpl.
    unfold planChecks. rewrite Hg.
    fold requested. rewrite Hr, Haq.
    assert (El : match Plan.letterQuota plan with
                 | Some q => q <? UserPlan.lettersUsed s
                                  + countContentLetters
                                      (DreamBody.description body)
                 | None => false
                 end = false).
    { destruct (Plan.letterQuota plan) as [q|]; [|reflexivity].
      apply Z.ltb_ge. apply Hl. reflexivity. }
    rewrite El. simpl.
    apply Z.ltb_lt in Hz. rewrite Hz. apply Z.ltb_lt in Hlt. rewrite Hlt.
    reflexivity.
  - intros r db' sid H H201 He. apply dreams_post_inv in H.
    destruct H as [[Hne _]|H]; [contradiction|].
    destruct H as (profile & s & plan & s0 & s' & H). cbv zeta in H.
    destruct H as (Hp & Ha & Hc & Hg & Hf & Hu & -> & ->).
    unfold effectiveId in He. rewrite Hg in He. injection He as <-.
    apply usageUpdate_Some in Hu.
    destruct (find_id _ _ _ Hf) as [Hid _].
    assert (Hid' : UserPlan.id s' = UserPlan.id s)
      by (rewrite Hu; exact Hid).
    unfold audioMinutesUsedOf, userPlan_findUnique in *. simpl.
    rewrite (find_replace_row _ _ _ _ Hf Hid'), Hf, Hu. reflexivity.
  - intros Hg. split.
    + destruct requested as [| | |z]; simpl in *; try reflexivity.
      rewrite Hg. reflexivity.
    + intros r db' H Hcode.
      pose proof (dreams_post_audio_code _ _ _ _ _ _ _ H Hcode) as Hg'.
      fold requested in Hg'. congruence.
Qed.

End AudioMinutes.

(** *** The dream-creation properties on the sample data *)

(** The scenario of the specification: quota 10, seven letters pass and
    are debited. *)
Example seven_letters_accepted :
  dreams_post StringToNumber_digits newDate_timeValue 1000 "d1" "u1"
    (dreamBody sevenLetters JUndefined) dbSubscribed
  = (mkResponse 201
       (DreamJson (Dream.mk "d1" "u1" None "A dream" sevenLetters sevenLetters
                     None None status_new 1000)),
     dbSevenUsed).
Proof. reflexivity. Qed.

Example seven_arabic_letters_are_thirteen_bytes :
  countContentLetters (Some (utf16Encode sevenLetters)) = 7
  /\ utf8ByteLength sevenLetters = 13.
Proof. split; reflexivity. Qed.

Lemma no_effective_subscription_denied_witness :
  dreams_post StringToNumber_digits newDate_timeValue 1000 "d1" "u1"
    (dreamBody sevenLetters JUndefined) dbExpired
  = (mkResponse 402
       (Error "Active subscription required" (Some "NO_ACTIVE_SUBSCRIPTION")),
     dbExpired)
  /\ (In subscriptionS2 (userPlans dbTwoCurrent)
      /\ UserPlan.userId subscriptionS2 = "u1"
      /\ activeUnexpired 1000 subscriptionS2
      /\ Some planPlus = plan_findUnique dbTwoCurrent "p2"
      /\ forall s', In s' (userPlans dbTwoCurrent) ->
                    UserPlan.userId s' = "u1" ->
                    activeUnexpired 1000 s' ->
                    UserPlan.startedAt s' <= 200)
  /\ (exists plan,
        getActiveSubscription dbTwoCurrent 1000 "u1"
        = Some (subscriptionS2, Some plan)).
Proof.
  assert (H : forall s,
             In s (userPlans dbExpired) -> UserPlan.userId s = "u1" ->
             ~ activeUnexpired 1000 s).
  { intros s [<-|[]] _ [_ [H|[e [He Hlt]]]]; [discriminate|].
    injection He as <-. lia. }
  pose proof (no_effective_subscription_denied StringToNumber_digits
                newDate_timeValue 1000 "d1" "u1"
                (dreamBody sevenLetters JUndefined) dbExpired
                (Profile.mk "u1" "u1@example.com" "Dreamer" dreamer None)
                eq_refl eq_refl eq_refl ltac:(discriminate)
                ltac:(discriminate) H) as (Hdenied & _ & Hfound & Hchecks).
  split; [exact Hdenied|]. split.
  - exact (Hfound dbTwoCurrent 1000 "u1").
  - exact (Hchecks dbTwoCurrent 1000 "u1" 7 (IFin 0)).
Defined.

Lemma admin_dream_creation_fails_witness :
  dreams_post StringToNumber_digits newDate_timeValue 1000 "d1" "a1"
    (dreamBody sevenLetters JUndefined) dbSubscribed
  = (mkResponse 500 (Error "Failed to create dream" None), dbSubscribed).
Proof.
  exact (admin_dream_creation_fails StringToNumber_digits newDate_timeValue
           1000 "d1" "a1" (dreamBody sevenLetters JUndefined) dbSubscribed
           (Profile.mk "a1" "a1@example.com" "Admin" admin None)
           eq_refl eq_refl eq_refl eq_refl).
Defined.

Lemma letter_quota_rejects_and_debit_is_atomic_witness :
  dreams_post StringToNumber_digits newDate_timeValue 2000 "d2" "u1"
    (dreamBody fiveLetters JUndefined) dbSevenUsed
  = (mkResponse 403
       (Error "Letter quota exceeded for the current plan (10 characters)"
              (Some "QUOTA_EXCEEDED")),
     dbSevenUsed)
  /\ lettersUsedOf dbSevenUsed "s1" = 7.
Proof.
  split; [|reflexivity].
  refine (proj1 (letter_quota_rejects_and_debit_is_atomic
                   StringToNumber_digits newDate_timeValue 2000 "d2" "u1"
                   (dreamBody fiveLetters JUndefined) dbSevenUsed)
            (Profile.mk "u1" "u1@example.com" "Dreamer" dreamer None)
            (UserPlan.mk "s1" "u1" "p1" 100 (Some 5000000000) true 7 0)
            planBasic 10 eq_refl eq_refl eq_refl eq_refl eq_refl eq_refl _).
  reflexivity.
Defined.

Lemma lettersUsed_is_sum_of_code_points_witness :
  lettersUsedOf
    (snd (dreams_post_seq StringToNumber_digits newDate_timeValue twoRequests
            dbSubscribed)) "s1" = 0 + (7 + (3 + 0))
  /\ lettersUsedOf
       (snd (dreams_post_seq StringToNumber_digits newDate_timeValue
               twoRequests dbSubscribed)) "s1" <= 10.
Proof.
  assert (Hnd : NoDup (map UserPlan.id (userPlans dbSubscribed))).
  { repeat constructor. simpl. tauto. }
  assert (Hok : Forall (fun r => status r = 201)
                  (fst (dreams_post_seq StringToNumber_digits
                          newDate_timeValue twoRequests dbSubscribed))).
  { repeat constructor. }
  assert (Heff : Forall (fun rq => effectiveId dbSubscribed
                                     (DreamRequest.now rq)
                                     (DreamRequest.userId rq) = Some "s1")
                   twoRequests).
  { repeat constructor. }
  destruct (proj2 (proj2 (lettersUsed_is_sum_of_code_points
                            StringToNumber_digits newDate_timeValue))
              twoRequests dbSubscribed _ _ "s1" Hnd
              (surjective_pairing _) Hok Heff) as [Hsum Hq].
  split; [exact Hsum|].
  apply Hq; [reflexivity|left; discriminate].
Defined.

Lemma audio_minutes_rounded_up_and_gated_witness :
  dreams_post StringToNumber_digits newDate_timeValue 1000 "d1" "u1"
    (dreamBody sevenLetters (JString "7")) dbSubscribed
  = (mkResponse 403
       (Error "Audio minutes quota exceeded for the current plan (5 minutes)"
              (Some "AUDIO_QUOTA_EXCEEDED")),
     dbSubscribed)
  /\ audioMinutesUsedOf
       (snd (dreams_post StringToNumber_digits newDate_timeValue 1000 "d1"
               "u1" (dreamBody sevenLetters (JNumber (Fin (5 # 2))))
               dbSubscribed)) "s1" = 0 + 3.
Proof.
  split.
  - refine (proj1 (proj2 (proj2 (proj2
              (audio_minutes_rounded_up_and_gated StringToNumber_digits
                 newDate_timeValue 1000 "d1" "u1"
                 (dreamBody sevenLetters (JString "7")) dbSubscribed))))
              (Profile.mk "u1" "u1@example.com" "Dreamer" dreamer None)
              subscriptionS1 planBasic 5 7
              eq_refl eq_refl eq_refl eq_refl eq_refl _ eq_refl eq_refl
              eq_refl eq_refl).
    intros q Hq. injection Hq as <-. discriminate.
  - refine (proj1 (proj2 (proj2 (proj2 (proj2
              (audio_minutes_rounded_up_and_gated StringToNumber_digits
                 newDate_timeValue 1000 "d1" "u1"
                 (dreamBody sevenLetters (JNumber (Fin (5 # 2))))
                 dbSubscribed)))))
              _ _ "s1" (surjective_pairing _) eq_refl eq_refl).
Defined.

(** *** The payment webhook *)

Lemma find_pair_replace_row (userId planId : string) (s s' : UserPlan.t)
  (l : list UserPlan.t) :
  find (fun x => String.eqb (UserPlan.userId x) userId
                 && String.eqb (UserPlan.planId x) planId) l = Some s ->
  UserPlan.userId s' = userId -> UserPlan.planId s' = planId ->
  find (fun x => String.eqb (UserPlan.userId x) userId
                 && String.eqb (UserPlan.planId x) planId)
       (replace_row UserPlan.id (UserPlan.id s) s' l) = Some s'.
Proof.
  intros Hf Hu Hp. induction l as [|a l IH]; simpl in *; [discriminate|].
  destruct (String.eqb (UserPlan.id a) (UserPlan.id s)) eqn:Eid.
  - rewrite Hu, Hp, !String.eqb_refl. reflexivity.
  - destruct (String.eqb (UserPlan.userId a) userId
              && String.eqb (UserPlan.planId a) planId) eqn:E.
    + injection Hf as ->. rewrite String.eqb_refl in Eid. discriminate.
    + apply IH. exact Hf.
Qed.

Lemma find_pair_app_new (userId planId : string) (s' : UserPlan.t)
  (l : list UserPlan.t) :
  find (fun x => String.eqb (UserPlan.userId x) userId
                 && String.eqb (UserPlan.planId x) planId) l = None ->
  UserPlan.userId s' = userId -> UserPlan.planId s' = planId ->
  find (fun x => String.eqb (UserPlan.userId x) userId
                 && String.eqb (UserPlan.planId x) planId) (l ++ [s'])
  = Some s'.
Proof.
  intros Hf Hu Hp. induction l as [|a l IH]; simpl in *.
  - rewrite Hu, Hp, !String.eqb_refl. reflexivity.
  - destruct (String.eqb (UserPlan.userId a) userId
              && String.eqb (UserPlan.planId a) planId);
      [discriminate|]. apply IH. exact Hf.
Qed.

Lemma replace_row_length {A : Type} (id_of : A -> string) (id : string)
  (row : A) (l : list A) :
  List.length (replace_row id_of id row l) = List.length l.
Proof. unfold replace_row. apply length_map. Qed.

(** What a committed [checkout.session.completed] transaction wrote. *)
Lemma checkoutCompletedTx_Some (LocalTZA : TimeZone) (now : Z)
  (newPaymentId newUserPlanId : string)
  (session : Session.t) (db db' : DB) (u : unit) :
  checkoutCompletedTx LocalTZA now newPaymentId newUserPlanId session db
  = Some (u, db') ->
  exists userId planId expiresAt s',
    Session.userId session = Some userId
    /\ Session.planId session = Some planId
    /\ payments db' = payments db
                      ++ [paymentOf now newPaymentId userId session]
    /\ userPlan_findUnique_userId_planId db' userId planId = Some s'
    /\ s' = UserPlan.mk (UserPlan.id s') userId planId now
              (Some expiresAt) true 0 0
    /\ (match userPlan_findUnique_userId_planId db userId planId with
        | Some s =>
            UserPlan.id s' = UserPlan.id s
            /\ userPlans db' = replace_row UserPlan.id (UserPlan.id s) s'
                                 (userPlans db)
        | None =>
            UserPlan.id s' = newUserPlanId
            /\ userPlans db' = userPlans db ++ [s']
        end)
    /\ (exists p, profile_findUnique db' userId = Some p
                  /\ Profile.currentPlanId p = Some planId)
    /\ addDays LocalTZA now
         (match Session.durationDays session with
          | Some d => parseInt d
          | None => INaN
          end) = Some expiresAt.
Proof.
  destruct u. unfold checkoutCompletedTx, bind, deref, ret.
  destruct (Session.userId session) as [userId|] eqn:Eu;
    [|unfold throw; discriminate].
  unfold payment_create at 1. cbn [Payment.id Payment.userId Payment.planId].
  destruct (existsb_id Payment.id newPaymentId (payments db));
    [discriminate|].
  destruct (negb (existsb_id Profile.id userId (profiles db)));
    [discriminate|].
  destruct (Session.planId session) as [planId|] eqn:Epl;
    [|unfold throw; discriminate].
  destruct (negb (existsb_id Plan.id planId (plans db))) eqn:Eplan;
    [discriminate|].
  destruct (addDays LocalTZA now _) as [expiresAt|] eqn:Ed;
    [|unfold throw; discriminate].
  set (pay := Payment.mk newPaymentId userId (Some planId) _ _ _ _ _ _).
  assert (Hpay : pay = paymentOf now newPaymentId userId session)
    by (unfold paymentOf; rewrite Epl; reflexivity).
  unfold userPlan_upsert.
  change (userPlan_findUnique_userId_planId
            (set_payments db (payments db ++ [pay])) userId planId)
    with (userPlan_findUnique_userId_planId db userId planId).
  destruct (userPlan_findUnique_userId_planId db userId planId)
    as [s|] eqn:Ef.
  - (* the pair exists: update branch *)
    unfold profile_update_currentPlanId.
    change (profile_findUnique (set_userPlans ?d ?l) userId)
      with (profile_findUnique db userId).
    destruct (profile_findUnique db userId) as [p|] eqn:Ep; [|discriminate].
    cbn [plans set_userPlans set_payments]. rewrite Eplan.
    intros H. injection H as <-.
    pose proof (find_some _ _ Ef) as [_ Hm].
    apply andb_true_iff in Hm. destruct Hm as [Hu Hp].
    apply String.eqb_eq in Hu. apply String.eqb_eq in Hp.
    exists userId, planId, expiresAt, (webhookUpdate now expiresAt s).
    split; [reflexivity|]. split; [reflexivity|].
    split; [simpl; rewrite <- Hpay; reflexivity|].
    split.
    { unfold userPlan_findUnique_userId_planId in *. simpl.
      apply find_pair_replace_row; assumption. }
    split.
    { unfold webhookUpdate. simpl. rewrite Hu, Hp. reflexivity. }
    split; [rewrite Ef; split; reflexivity|].
    split; [|reflexivity].
    exists (Profile.mk (Profile.id p) (Profile.email p) (Profile.fullName p)
              (Profile.role p) (Some planId)).
    split; [|reflexivity].
    unfold profile_findUnique in *. simpl.
    clear - Ep. induction (profiles db) as [|a l IH]; simpl in *;
      [discriminate|].
    destruct (String.eqb (Profile.id a) userId) eqn:E.
    + injection Ep as ->. simpl. rewrite E. reflexivity.
    + rewrite E. apply IH. exact Ep.
  - (* no such pair: create branch *)
    unfold userPlan_create.
    cbn [UserPlan.id UserPlan.userId UserPlan.planId].
    change (userPlan_findUnique_userId_planId
              (set_payments db (payments db ++ [pay])) userId planId)
      with (userPlan_findUnique_userId_planId db userId planId).
    rewrite Ef.
    destruct (existsb_id UserPlan.id newUserPlanId
                (userPlans (set_payments db (payments db ++ [pay]))));
      [discriminate|].
    destruct (negb (existsb_id Profile.id userId
                      (profiles (set_payments db (payments db ++ [pay])))));
      [discriminate|].
    destruct (negb (existsb_id Plan.id planId
                      (plans (set_payments db (payments db ++ [pay])))));
      [discriminate|].
    unfold profile_update_currentPlanId.
    change (profile_findUnique (set_userPlans ?d ?l) userId)
      with (profile_findUnique db userId).
    destruct (profile_findUnique db userId) as [p|] eqn:Ep; [|discriminate].
    cbn [plans set_userPlans set_payments]. rewrite Eplan.
    intros H. injection H as <-.
    exists userId, planId, expiresAt,
      (UserPlan.mk newUserPlanId userId planId now (Some expiresAt) true 0 0).
    split; [reflexivity|]. split; [reflexivity|].
    split; [simpl; rewrite <- Hpay; reflexivity|].
    split.
    { unfold userPlan_findUnique_userId_planId in *. simpl.
      apply find_pair_app_new; [exact Ef|reflexivity|reflexivity]. }
    split; [reflexivity|]. split; [rewrite Ef; split; reflexivity|].
    split; [|reflexivity].
    exists (Profile.mk (Profile.id p) (Profile.email p) (Profile.fullName p)
              (Profile.role p) (Some planId)).
    split; [|reflexivity].
    unfold profile_findUnique in *. simpl.
    clear - Ep. induction (profiles db) as [|a l IH]; simpl in *;
      [discriminate|].
    destruct (String.eqb (Profile.id a) userId) eqn:E.
    + injection Ep as ->. simpl. rewrite E. reflexivity.
    + rewrite E. apply IH. exact Ep.
Qed.

(** One successful handling of an event, in whatever state it finds the
    database. *)
Lemma handleEvent_completed (LocalTZA : TimeZone) (now : Z)
  (newPaymentId newUserPlanId : string)
  (event : StripeEvent.t) (db db' : DB) (r : Response) :
  StripeEvent.type event = "checkout.session.completed" ->
  handleEvent LocalTZA now newPaymentId newUserPlanId event db = (r, db') ->
  status r = 200 ->
  exists userId planId expiresAt s',
    Session.userId (StripeEvent.object event) = Some userId
    /\ Session.planId (StripeEvent.object event) = Some planId
    /\ payments db' = payments db
                      ++ [paymentOf now newPaymentId userId
                            (StripeEvent.object event)]
    /\ userPlan_findUnique_userId_planId db' userId planId = Some s'
    /\ s' = UserPlan.mk (UserPlan.id s') userId planId now
              (Some expiresAt) true 0 0
    /\ (match userPlan_findUnique_userId_planId db userId planId with
        | Some s =>
            UserPlan.id s' = UserPlan.id s
            /\ userPlans db' = replace_row UserPlan.id (UserPlan.id s) s'
                                 (userPlans db)
        | None =>
            UserPlan.id s' = newUserPlanId
            /\ userPlans db' = userPlans db ++ [s']
        end)
    /\ (exists p, profile_findUnique db' userId = Some p
                  /\ Profile.currentPlanId p = Some planId)
    /\ addDays LocalTZA now
         (match Session.durationDays (StripeEvent.object event) with
          | Some d => parseInt d
          | None => INaN
          end) = Some expiresAt.
Proof.
  intros Ht H H200. unfold handleEvent in H. rewrite Ht in H. simpl in H.
  unfold transaction in H.
  destruct (checkoutCompletedTx _ _ _ _ _ db) as [[u db1]|] eqn:E.
  - injection H as <- <-. apply checkoutCompletedTx_Some in E. exact E.
  - injection H as <- <-. discriminate.
Qed.

(** *** The webhook behind the body parsers *)

Section WebhookWiring.

Variable bodyParsers : Delivery.t -> Response + JsVal.
Variable constructEvent : Payload -> string -> StripeEvent.t + string.
Variable LocalTZA : TimeZone.

(** What the handler answers when the payload is refused. *)
Lemma payments_webhook_refused (stripeConfigured : bool) (now : Z)
  (newPaymentId newUserPlanId : string) (req : WebhookRequest.t) (db : DB) :
  (forall sig, exists message,
      constructEvent (WebhookRequest.body req) sig = inr message) ->
  snd (payments_webhook constructEvent LocalTZA stripeConfigured now
         newPaymentId newUserPlanId req db) = db
  /\ status (fst (payments_webhook constructEvent LocalTZA stripeConfigured
                    now newPaymentId newUserPlanId req db))
     = (if stripeConfigured then 400 else 503).
Proof.
  intros Hrefuse. unfold payments_webhook.
  destruct stripeConfigured; cbn [negb]; [|split; reflexivity].
  destruct (WebhookRequest.stripe_signature req) as [[|c sig]|];
    [split; reflexivity| |split; reflexivity].
  destruct (Hrefuse (String c sig)) as [message ->]. split; reflexivity.
Qed.

(** C1 (as the code behaves). The application parses every request body
    before the payments router runs and mounts no raw-body parser, so the
    webhook handler hands [constructEvent] the parsed object, which the
    Stripe library refuses whatever the signature.  A delivery of an
    event (a JSON object) is therefore answered 400 (503 without Stripe
    configuration) and writes nothing: after the same event was delivered
    twice the database is what it was, with no Payment row added for any
    reference and no subscription touched. *)
Theorem webhook_deliveries_are_refused (stripeConfigured : bool)
  (now1 now2 : Z) (payment1 payment2 userPlan1 userPlan2 : string)
  (delivery : Delivery.t) (db : DB) :
  (forall sig, exists message,
      constructEvent (ParsedBody (JObject objectObject)) sig = inr message) ->
  bodyParsers delivery = inr (JObject objectObject) ->
  let first :=
    api_payments_webhook bodyParsers constructEvent LocalTZA stripeConfigured
      now1 payment1 userPlan1 delivery db in
  let second :=
    api_payments_webhook bodyParsers constructEvent LocalTZA stripeConfigured
      now2 payment2 userPlan2 delivery (snd first) in
  snd first = db
  /\ snd second = db
  /\ status (fst first) = (if stripeConfigured then 400 else 503)
  /\ status (fst second) = (if stripeConfigured then 400 else 503)
  /\ (forall reference,
        paymentsWithReference (snd second) reference
        = paymentsWithReference db reference)
  /\ userPlans (snd second) = userPlans db.
Proof.
  intros Hrefuse Hparsed first second.
  assert (H1 : snd first = db
               /\ status (fst first) = (if stripeConfigured then 400 else 503)).
  { unfold first, api_payments_webhook. rewrite Hparsed.
    apply payments_webhook_refused. exact Hrefuse. }
  destruct H1 as [Hdb1 Hst1].
  assert (H2 : snd second = db
               /\ status (fst second)
                  = (if stripeConfigured then 400 else 503)).
  { unfold second, api_payments_webhook. rewrite Hparsed, Hdb1.
    apply payments_webhook_refused. exact Hrefuse. }
  destruct H2 as [Hdb2 Hst2].
  split; [exact Hdb1|]. split; [exact Hdb2|].
  split; [exact Hst1|]. split; [exact Hst2|].
  rewrite Hdb2. split; [reflexivity|reflexivity].
Qed.

End WebhookWiring.

(** The event of session [cs_123], signed by Stripe, delivered twice:
    the library would verify the body as it was sent, but what reaches
    it is the parsed object, and no Payment row with reference [cs_123]
    exists afterwards. *)
Lemma webhook_deliveries_are_refused_witness :
  constructEvent_sample (RawBody (Delivery.text deliveryCs123)) "sig-ok"
  = inl eventCs123
  /\ status
       (fst (api_payments_webhook bodyParsers_sample constructEvent_sample
               utcZone true 1000 "pay1" "s1" deliveryCs123 dbNoSubscription))
     = 400
  /\ paymentsWithReference
       (snd (api_payments_webhook bodyParsers_sample constructEvent_sample
               utcZone true 2000 "pay2" "s2" deliveryCs123
               (snd (api_payments_webhook bodyParsers_sample
                       constructEvent_sample utcZone true 1000 "pay1" "s1"
                       deliveryCs123 dbNoSubscription))))
       "cs_123" = [].
Proof.
  split; [reflexivity|].
  destruct (webhook_deliveries_are_refused bodyParsers_sample
              constructEvent_sample utcZone true 1000 2000 "pay1" "pay2"
              "s1" "s2" deliveryCs123 dbNoSubscription
              (fun sig => ex_intro _ _ eq_refl) eq_refl)
    as (_ & _ & Hst & _ & Hpay & _).
  split; [exact Hst|]. rewrite (Hpay "cs_123"). reflexivity.
Defined.

Lemma find_existsb_id {A : Type} (id_of : A -> string) (id : string)
  (l : list A) (a : A) :
  find (fun x => String.eqb (id_of x) id) l = Some a ->
  existsb_id id_of id l = true.
Proof.
  intros H. unfold existsb_id. apply existsb_exists. exists a.
  apply find_some in H. exact H.
Qed.

Lemma existsb_id_replace_row {A : Type} (id_of : A -> string)
  (id id' : string) (row : A) (l : list A) :
  id_of row = id' ->
  existsb_id id_of id (replace_row id_of id' row l) = existsb_id id_of id l.
Proof.
  intros Hrow. unfold existsb_id, replace_row.
  induction l as [|a l IH]; simpl; [reflexivity|].
  rewrite IH. f_equal.
  destruct (String.eqb (id_of a) id') eqn:E; [|reflexivity].
  apply String.eqb_eq in E. rewrite Hrow, E. reflexivity.
Qed.

Lemma profile_find_replace_row (userId : string) (p p' : Profile.t)
  (l : list Profile.t) :
  find (fun x => String.eqb (Profile.id x) userId) l = Some p ->
  Profile.id p' = Profile.id p ->
  find (fun x => String.eqb (Profile.id x) userId)
       (replace_row Profile.id userId p' l) = Some p'.
Proof.
  intros Hf Hid. induction l as [|a l IH]; simpl in *; [discriminate|].
  destruct (String.eqb (Profile.id a) userId) eqn:E.
  - injection Hf as ->. rewrite Hid, E. reflexivity.
  - rewrite E. apply IH. exact Hf.
Qed.

(** The date [setDate] gives on a server whose offset from UTC never
    changes: exactly [d] times 24 hours later, when that is a date. *)
Lemma addDays_fixed_offset (LocalTZA : TimeZone) (offset t d : Z) :
  (forall u isUTC, LocalTZA u isUTC = offset) ->
  Z.abs (t + d * msPerDay) <= maxTime ->
  addDays LocalTZA t (IFin d) = Some (t + d * msPerDay).
Proof.
  intros Hz Hr. unfold addDays, UTC, LocalTime, TimeClip. rewrite !Hz.
  replace (t + offset + d * msPerDay - offset) with (t + d * msPerDay) by lia.
  unfold maxTime in Hr. apply Z.leb_le in Hr. rewrite Hr. reflexivity.
Qed.

(** C7 (as the code behaves). Re-subscribing to a plan the user already
    holds resets [lettersUsed] and [audioMinutesUsed] to zero, sets the
    expiry to the date [setDate] computes and points the profile at the
    plan on both paths; the webhook's upsert also restarts the window at
    the instant of handling, but [POST /plans/subscribe] leaves
    [startedAt] as it was.  When the computed expiry is no valid date
    the subscription request is answered 500 and nothing changes; on a
    server whose offset from UTC never changes the expiry is
    [durationDays] times 24 hours after the request, provided that is a
    date in range. *)
Theorem subscribe_resets_usage_but_keeps_start (LocalTZA : TimeZone)
  (now : Z) (newPaymentId newUserPlanId userId planId : string) (db : DB)
  (plan : Plan.t) (s : UserPlan.t) (profile : Profile.t) :
  planId <> "" ->
  plan_findUnique db planId = Some plan ->
  userPlan_findUnique_userId_planId db userId planId = Some s ->
  profile_findUnique db userId = Some profile ->
  existsb_id Payment.id newPaymentId (payments db) = false ->
  match addDays LocalTZA now (IFin (Plan.durationDays plan)) with
  | Some expiresAt =>
      exists db',
        plans_subscribe LocalTZA now newPaymentId newUserPlanId userId
          (Some planId) db
        = (mkResponse 200 (SubscriptionJson (subscribeUpdate expiresAt s)),
           db')
        /\ userPlan_findUnique_userId_planId db' userId planId
           = Some (UserPlan.mk (UserPlan.id s) userId planId
                     (UserPlan.startedAt s) (Some expiresAt) true 0 0)
        /\ (exists p, profile_findUnique db' userId = Some p
                      /\ Profile.currentPlanId p = Some planId)
  | None =>
      plans_subscribe LocalTZA now newPaymentId newUserPlanId userId
        (Some planId) db
      = (mkResponse 500 (Error "Failed to subscribe to plan" None), db)
  end
  /\ (forall event newPaymentId' db1 r,
        StripeEvent.type event = "checkout.session.completed" ->
        Session.userId (StripeEvent.object event) = Some userId ->
        Session.planId (StripeEvent.object event) = Some planId ->
        handleEvent LocalTZA now newPaymentId' newUserPlanId event db
        = (r, db1) ->
        status r = 200 ->
        exists expiresAt,
          addDays LocalTZA now
            (match Session.durationDays (StripeEvent.object event) with
             | Some d => parseInt d
             | None => INaN
             end) = Some expiresAt
          /\ userPlan_findUnique_userId_planId db1 userId planId
             = Some (UserPlan.mk (UserPlan.id s) userId planId now
                       (Some expiresAt) true 0 0)
          /\ exists p, profile_findUnique db1 userId = Some p
                       /\ Profile.currentPlanId p = Some planId)
  /\ (forall offset,
        (forall t isUTC, LocalTZA t isUTC = offset) ->
        Z.abs (now + Plan.durationDays plan * msPerDay) <= maxTime ->
        addDays LocalTZA now (IFin (Plan.durationDays plan))
        = Some (now + Plan.durationDays plan * msPerDay)).
Proof.
  intros Hne Hplan Hs Hprof Hfresh.
  pose proof (find_some _ _ Hs) as [_ Hm].
  apply andb_true_iff in Hm. destruct Hm as [Hu Hp].
  apply String.eqb_eq in Hu. apply String.eqb_eq in Hp.
  pose proof (find_some _ _ Hprof) as [_ Hpid]. apply String.eqb_eq in Hpid.
  assert (Hplan_ex : existsb_id Plan.id planId (plans db) = true)
    by (apply (find_existsb_id _ _ _ _ Hplan)).
  assert (Hprof_ex : existsb_id Profile.id userId (profiles db) = true)
    by (apply (find_existsb_id _ _ _ _ Hprof)).
  assert (Et : truthy_string (Some planId) = true).
  { simpl. destruct (String.eqb planId "") eqn:E; [|reflexivity].
    apply String.eqb_eq in E. contradiction. }
  split; [|split].
  3:{ intros offset Hz Hr.
      exact (addDays_fixed_offset LocalTZA offset _ _ Hz Hr). }
  - destruct (addDays LocalTZA now (IFin (Plan.durationDays plan)))
      as [expiresAt|] eqn:Ed.
    + set (p' := Profile.mk (Profile.id profile) (Profile.email profile)
                   (Profile.fullName profile) (Profile.role profile)
                   (Some planId)).
      set (pay := Payment.mk newPaymentId userId (Some planId)
                    (Plan.price plan) (Plan.currency plan) succeeded
                    (Some "manual") (Some ("SUB-" ++ Z_toString now)%string)
                    None).
      exists (set_payments
                (set_profiles
                   (set_userPlans db
                      (replace_row UserPlan.id (UserPlan.id s)
                         (subscribeUpdate expiresAt s) (userPlans db)))
                   (replace_row Profile.id userId p' (profiles db)))
                (payments db ++ [pay])).
      split; [|split].
      * unfold plans_subscribe.
        rewrite Et. simpl negb. cbv iota. rewrite Hplan. cbv zeta.
        rewrite Ed.
        unfold transaction, subscribeTx, bind, deref, ret, userPlan_upsert.
        cbv beta iota. rewrite Hs. unfold profile_update_currentPlanId.
        change (profile_findUnique (set_userPlans db ?l) userId)
          with (profile_findUnique db userId).
        rewrite Hprof. cbn [plans set_userPlans]. rewrite Hplan_ex.
        simpl negb. cbv iota. unfold payment_create.
        cbn [Payment.id Payment.userId Payment.planId payments profiles plans
             set_profiles set_userPlans].
        rewrite Hfresh.
        rewrite (existsb_id_replace_row Profile.id userId userId p' _ Hpid).
        rewrite Hprof_ex, Hplan_ex. reflexivity.
      * unfold userPlan_findUnique_userId_planId in *. simpl.
        rewrite (find_pair_replace_row userId planId s
                   (subscribeUpdate expiresAt s) _ Hs Hu Hp).
        unfold subscribeUpdate. rewrite Hu, Hp. reflexivity.
      * exists p'. split; [|reflexivity].
        unfold profile_findUnique in *. simpl.
        apply (profile_find_replace_row _ _ _ _ Hprof). reflexivity.
    + unfold plans_subscribe.
      rewrite Et. simpl negb. cbv iota. rewrite Hplan. cbv zeta. rewrite Ed.
      reflexivity.
  - intros event newPaymentId' db1 r Ht Heu Hep Hh H200.
    destruct (handleEvent_completed _ _ _ _ _ _ _ _ Ht Hh H200)
      as (userId' & planId' & expiresAt & s' & Hu' & Hp' & _ & Hf' & Hs'
          & Hrows & Hprofile & Hdate).
    rewrite Heu in Hu'. injection Hu' as <-.
    rewrite Hep in Hp'. injection Hp' as <-.
    rewrite Hs in Hrows. destruct Hrows as [Hid _].
    exists expiresAt. split; [exact Hdate|].
    split; [rewrite Hf', Hs', Hid; reflexivity|exact Hprofile].
Qed.

Lemma subscribe_resets_usage_but_keeps_start_witness :
  userPlan_findUnique_userId_planId
    (snd (plans_subscribe utcZone 5000 "pay1" "s2" "u1" (Some "p1")
            dbSevenUsed))
    "u1" "p1"
  = Some (UserPlan.mk "s1" "u1" "p1" 100 (Some (5000 + 30 * msPerDay))
            true 0 0).
Proof.
  destruct (proj1 (subscribe_resets_usage_but_keeps_start utcZone 5000 "pay1"
                     "s2" "u1" "p1" dbSevenUsed planBasic
                     (UserPlan.mk "s1" "u1" "p1" 100 (Some 5000000000) true
                        7 0)
                     (Profile.mk "u1" "u1@example.com" "Dreamer" dreamer None)
                     ltac:(discriminate) eq_refl eq_refl eq_refl eq_refl))
    as (db' & Hrun & Hf & _).
  rewrite Hrun. exact Hf.
Defined.

(** *** Messages on a dream without interpreter *)

Lemma truthy_string_Some (s : string) :
  s <> "" -> truthy_string (Some s) = true.
Proof.
  intros H. simpl. destruct (String.eqb s "") eqn:E; [|reflexivity].
  apply String.eqb_eq in E. contradiction.
Qed.

(** C6 (amended). On a dream with no assigned interpreter, reading the
    messages is refused with 403 to every requester who is not
    super_admin (dreamer, interpreter or admin alike) and allowed to a
    super_admin; sending a message is refused with 403 and code
    NO_INTERPRETER_ASSIGNED to every requester, super_admin included.
    Nothing is written in either case. *)
Theorem messages_gate_without_interpreter (db : DB) (dreamId : string)
  (dream : Dream.t) :
  dreamId <> "" ->
  dream_findUnique db dreamId = Some dream ->
  Dream.interpreterId dream = None ->
  (forall userId,
      roleIs (profile_findUnique db userId) super_admin = false ->
      exists message,
        messages_get userId (Some dreamId) db
        = (mkResponse 403 (Error message None), db))
  /\ (forall userId,
        roleIs (profile_findUnique db userId) super_admin = true ->
        messages_get userId (Some dreamId) db
        = (mkResponse 200
             (MessagesJson
                (orderByAsc Message.createdAt
                   (filter (fun m => String.eqb (Message.dreamId m) dreamId)
                           (messages db)))), db))
  /\ (forall now newId userId body,
        MessageBody.dream_id body = Some dreamId ->
        truthy_jsstring (MessageBody.content body) = true
        \/ truthy_string (MessageBody.audio body) = true ->
        messages_post now newId userId body db
        = (mkResponse 403
             (Error "Cannot send messages until an interpreter is assigned"
                    (Some "NO_INTERPRETER_ASSIGNED")), db)).
Proof.
  intros Hne Hd Hi. split; [|split].
  - intros userId Hsa. unfold messages_get.
    rewrite (truthy_string_Some _ Hne). simpl negb. cbv iota.
    rewrite Hd, Hi, Hsa. simpl.
    destruct (String.eqb (Dream.dreamerId dream) userId
              || false
              || roleIs (profile_findUnique db userId) admin
              || false); simpl; eauto.
  - intros userId Hsa. unfold messages_get.
    rewrite (truthy_string_Some _ Hne). simpl negb. cbv iota.
    rewrite Hd, Hi, Hsa. simpl.
    rewrite !orb_true_r. reflexivity.
  - intros now newId userId body Hb Hc. unfold messages_post.
    rewrite Hb, (truthy_string_Some _ Hne). simpl negb. cbv iota.
    assert (E : negb (truthy_jsstring (MessageBody.content body))
                && negb (truthy_string (MessageBody.audio body)) = false).
    { destruct Hc as [-> | ->]; simpl; [reflexivity|].
      apply andb_false_r. }
    rewrite E, Hd, Hi. reflexivity.
Qed.

Lemma messages_gate_without_interpreter_witness :
  (exists message,
      messages_get "u1" (Some "d1") dbSevenUsed
      = (mkResponse 403 (Error message None), dbSevenUsed))
  /\ status (fst (messages_get "root" (Some "d1") dbSevenUsed)) = 200.
Proof.
  destruct (messages_gate_without_interpreter dbSevenUsed "d1"
              (Dream.mk "d1" "u1" None "A dream" sevenLetters sevenLetters
                 None None status_new 1000)
              ltac:(discriminate) eq_refl eq_refl) as (Hget & Hroot & _).
  split.
  - exact (Hget "u1" eq_refl).
  - rewrite (Hroot "root" eq_refl). reflexivity.
Defined.

(** C6 (as stated) fails: a super_admin who sends a message on a dream
    without interpreter is refused. *)
Lemma super_admin_cannot_send_without_interpreter :
  roleIs (profile_findUnique dbSevenUsed "root") super_admin = true
  /\ dream_findUnique dbSevenUsed "d1"
     = Some (Dream.mk "d1" "u1" None "A dream" sevenLetters sevenLetters
               None None status_new 1000)
  /\ messages_post 3000 "m1" "root"
       (MessageBody.mk (Some "d1") (Some fiveLetters) None) dbSevenUsed
     = (mkResponse 403
          (Error "Cannot send messages until an interpreter is assigned"
                 (Some "NO_INTERPRETER_ASSIGNED")), dbSevenUsed).
Proof. repeat split. Qed.

(** *** Registration and the trial plan *)

Lemma existsb_id_app {A : Type} (id_of : A -> string) (id : string)
  (l : list A) (a : A) :
  existsb_id id_of id (l ++ [a])
  = existsb_id id_of id l || String.eqb (id_of a) id.
Proof.
  unfold existsb_id. rewrite existsb_app. simpl. rewrite orb_false_r.
  reflexivity.
Qed.

Lemma find_None_existsb_id {A : Type} (id_of : A -> string) (id : string)
  (l : list A) :
  find (fun x => String.eqb (id_of x) id) l = None ->
  existsb_id id_of id l = false.
Proof.
  intros H. unfold existsb_id.
  induction l as [|a l IH]; simpl in *; [reflexivity|].
  destruct (String.eqb (id_of a) id); [discriminate|]. apply IH. exact H.
Qed.

Lemma find_pair_fresh_user (userId planId : string) (l : list UserPlan.t) :
  (forall s, In s l -> UserPlan.userId s <> userId) ->
  find (fun x => String.eqb (UserPlan.userId x) userId
                 && String.eqb (UserPlan.planId x) planId) l = None.
Proof.
  intros H. induction l as [|a l IH]; simpl; [reflexivity|].
  destruct (String.eqb (UserPlan.userId a) userId) eqn:E.
  - apply String.eqb_eq in E. exfalso. apply (H a); [left; reflexivity|exact E].
  - simpl. apply IH. intros s Hs. apply H. right. exact Hs.
Qed.

Lemma plan_findFirst_trial_Some (db : DB) (plan : Plan.t) :
  plan_findFirst_trial db = Some plan ->
  In plan (plans db)
  /\ Plan.isTrial plan = true /\ Plan.isActive plan = true
  /\ forall p, In p (plans db) -> Plan.isTrial p = true ->
               Plan.isActive p = true ->
               Plan.createdAt p <= Plan.createdAt plan.
Proof.
  unfold plan_findFirst_trial.
  destruct (orderByDesc _ _) as [|y rest] eqn:E; [discriminate|].
  intros H. injection H as ->.
  apply orderByDesc_head in E. destruct E as [Hin Hmax].
  apply filter_In in Hin. destruct Hin as [Hin Hb].
  apply andb_true_iff in Hb. destruct Hb as [Ht Ha].
  repeat split; auto.
  intros p Hp Hpt Hpa. apply Hmax. apply filter_In.
  split; [exact Hp|]. rewrite Hpt, Hpa. reflexivity.
Qed.

(** The registration transaction commits when the email and the
    generated ids are new. *)
Lemma registerTx_commits (LocalTZA : TimeZone) (now : Z)
  (newUserId newUserPlanId email hashedPassword fullName : string)
  (role : Role) (db : DB) :
  existsb_id User.email email (users db) = false ->
  existsb_id Profile.email email (profiles db) = false ->
  existsb_id User.id newUserId (users db) = false ->
  existsb_id Profile.id newUserId (profiles db) = false ->
  existsb_id UserPlan.id newUserPlanId (userPlans db) = false ->
  (forall s, In s (userPlans db) -> UserPlan.userId s <> newUserId) ->
  match (match role with
         | dreamer => trialRows LocalTZA db now newUserId newUserPlanId
         | _ => Some []
         end) with
  | Some rows =>
      exists db',
        registerTx LocalTZA now newUserId newUserPlanId email hashedPassword
          fullName role db
        = Some ((User.mk newUserId email hashedPassword,
                 Profile.mk newUserId email fullName role None), db')
        /\ users db' = users db ++ [User.mk newUserId email hashedPassword]
        /\ profiles db'
           = profiles db ++ [Profile.mk newUserId email fullName role None]
        /\ plans db' = plans db
        /\ userPlans db' = userPlans db ++ rows
  | None =>
      registerTx LocalTZA now newUserId newUserPlanId email hashedPassword
        fullName role db = None
  end.
Proof.
  intros Hue Hpe Hui Hpi Hsi Hfresh.
  unfold registerTx, bind, deref, throw, ret, user_create, profile_create.
  cbn [User.id User.email Profile.id Profile.email users profiles
       set_users set_profiles].
  rewrite Hui, Hue. cbv beta iota.
  cbn [User.id User.email Profile.id Profile.email users profiles
       set_users set_profiles].
  rewrite Hpi, Hpe.
  rewrite existsb_id_app. cbn [User.id]. rewrite String.eqb_refl, orb_true_r.
  simpl negb. cbv iota.
  set (db2 := set_profiles (set_users db _) _).
  assert (Hplans : plan_findFirst_trial db2 = plan_findFirst_trial db)
    by reflexivity.
  destruct role; try (eexists; split; [reflexivity|];
                      repeat split; simpl; rewrite ?app_nil_r; reflexivity).
  rewrite Hplans. unfold trialRows.
  destruct (plan_findFirst_trial db) as [plan|] eqn:Eplan.
  2:{ eexists; split; [reflexivity|].
      repeat split; simpl; rewrite ?app_nil_r; reflexivity. }
  destruct (trialDays (Some plan)) as [days|] eqn:Edays.
  2:{ eexists; split; [reflexivity|].
      repeat split; simpl; rewrite ?app_nil_r; reflexivity. }
  destruct (addDays LocalTZA now (IFin days)) as [expiresAt|];
    [|reflexivity].
  cbv beta iota. unfold userPlan_create.
  cbn [UserPlan.id UserPlan.userId UserPlan.planId].
  change (userPlans db2) with (userPlans db).
  change (plans db2) with (plans db).
  unfold userPlan_findUnique_userId_planId.
  change (userPlans db2) with (userPlans db).
  rewrite Hsi, (find_pair_fresh_user _ _ _ Hfresh).
  change (profiles db2)
    with (profiles db ++ [Profile.mk newUserId email fullName dreamer None]).
  rewrite existsb_id_app. cbn [Profile.id].
  rewrite String.eqb_refl, orb_true_r. simpl negb. cbv iota.
  apply plan_findFirst_trial_Some in Eplan. destruct Eplan as (Hin & _).
  assert (Hpl : existsb_id Plan.id (Plan.id plan) (plans db) = true).
  { unfold existsb_id. apply existsb_exists. exists plan.
    split; [exact Hin|apply String.eqb_refl]. }
  rewrite Hpl. simpl negb. cbv iota.
  eexists; split; [reflexivity|]. repeat split.
Qed.

Lemma auth_register_commits (LocalTZA : TimeZone) (now : Z)
  (newUserId newUserPlanId hashedPassword email password fullName : string)
  (roleName : option string) (role : Role) (db : DB) :
  email <> "" -> password <> "" -> fullName <> "" ->
  selfServiceRole (match roleName with Some r => r | None => "dreamer" end)
  = Some role ->
  user_findUnique_email db email = None ->
  existsb_id Profile.email email (profiles db) = false ->
  existsb_id User.id newUserId (users db) = false ->
  existsb_id Profile.id newUserId (profiles db) = false ->
  existsb_id UserPlan.id newUserPlanId (userPlans db) = false ->
  (forall s, In s (userPlans db) -> UserPlan.userId s <> newUserId) ->
  match (match role with
         | dreamer => trialRows LocalTZA db now newUserId newUserPlanId
         | _ => Some []
         end) with
  | Some rows =>
      exists db',
        auth_register LocalTZA now newUserId newUserPlanId hashedPassword
          (RegisterBody.mk (Some email) (Some password) (Some fullName)
             roleName) db
        = (mkResponse 201
             (RegisteredJson (User.mk newUserId email hashedPassword)
                (Profile.mk newUserId email fullName role None)), db')
        /\ users db' = users db ++ [User.mk newUserId email hashedPassword]
        /\ profiles db'
           = profiles db ++ [Profile.mk newUserId email fullName role None]
        /\ userPlans db' = userPlans db ++ rows
  | None =>
      auth_register LocalTZA now newUserId newUserPlanId hashedPassword
        (RegisterBody.mk (Some email) (Some password) (Some fullName)
           roleName) db
      = (mkResponse 500 (Error "Failed to register user" None), db)
  end.
Proof.
  intros He Hp Hn Hrole Hue Hpe Hui Hpi Hsi Hfresh.
  pose proof (registerTx_commits LocalTZA now newUserId newUserPlanId email
                hashedPassword fullName role db
                (find_None_existsb_id _ _ _ Hue) Hpe Hui Hpi Hsi Hfresh)
    as Hrun.
  assert (Hunfold :
            auth_register LocalTZA now newUserId newUserPlanId hashedPassword
              (RegisterBody.mk (Some email) (Some password) (Some fullName)
                 roleName) db
            = match transaction
                      (registerTx LocalTZA now newUserId newUserPlanId email
                         hashedPassword fullName role) db with
              | (Some (user, profile), db') =>
                  (mkResponse 201 (RegisteredJson user profile), db')
              | (None, db') =>
                  (mkResponse 500 (Error "Failed to register user" None), db')
              end).
  { unfold auth_register.
    cbn [RegisterBody.email RegisterBody.password RegisterBody.fullName
         RegisterBody.role].
    rewrite !truthy_string_Some by assumption. simpl negb. simpl orb.
    cbv iota. rewrite Hrole, Hue. reflexivity. }
  rewrite Hunfold. unfold transaction.
  destruct (match role with
            | dreamer => trialRows LocalTZA db now newUserId newUserPlanId
            | _ => Some []
            end) as [rows|].
  - destruct Hrun as (db' & Hrun & Hu & Hpr & _ & Hrows).
    exists db'. rewrite Hrun. auto.
  - rewrite Hrun. reflexivity.
Qed.

Ltac registered_by H :=
  let Hresult := fresh "Hresult" in
  let Hrows := fresh "Hrows" in
  destruct H as (? & Hresult & _ & _ & Hrows);
  rewrite Hresult; cbn [fst snd status]; rewrite Hrows;
  split; reflexivity.

(** C8 (amended). A registration with role 'dreamer' (the default) at
    instant [now] looks at the most recently created active trial plan
    only.  If that plan has a non-zero [trialDurationDays], one
    subscription to it is created with both counters at zero,
    [startedAt = now] and [expiresAt] the date [setDate] gives for that
    many days after [now], whatever the plan's [durationDays]: the same
    local time of day that many calendar days later, which is exactly
    that many times 24 hours when the server's offset from UTC does not
    change; when this is no valid date the registration is answered 500
    and nothing is written.  Otherwise (no active trial plan, or a newest
    one without trial duration) registration succeeds with no
    subscription.  Role 'interpreter' registers with no subscription, and
    any other role is refused with nothing written. *)
Theorem register_trial_subscription (LocalTZA : TimeZone) (now : Z)
  (newUserId newUserPlanId hashedPassword email password fullName : string)
  (roleName : option string) (db : DB) :
  email <> "" -> password <> "" -> fullName <> "" ->
  user_findUnique_email db email = None ->
  existsb_id Profile.email email (profiles db) = false ->
  existsb_id User.id newUserId (users db) = false ->
  existsb_id Profile.id newUserId (profiles db) = false ->
  existsb_id UserPlan.id newUserPlanId (userPlans db) = false ->
  (forall s, In s (userPlans db) -> UserPlan.userId s <> newUserId) ->
  let result :=
    auth_register LocalTZA now newUserId newUserPlanId hashedPassword
      (RegisterBody.mk (Some email) (Some password) (Some fullName) roleName)
      db in
  let registered (rows : list UserPlan.t) :=
    status (fst result) = 201
    /\ userPlans (snd result) = userPlans db ++ rows in
  (roleName = None \/ roleName = Some "dreamer" ->
   match plan_findFirst_trial db with
   | Some plan =>
       match Plan.trialDurationDays plan with
       | Some days =>
           if days =? 0 then registered []
           else
             match addDays LocalTZA now (IFin days) with
             | Some expiresAt =>
                 registered
                   [UserPlan.mk newUserPlanId newUserId (Plan.id plan) now
                      (Some expiresAt) true 0 0]
                 /\ expiresAt
                    = UTC LocalTZA (LocalTime LocalTZA now + days * msPerDay)
                 /\ (forall offset,
                       (forall t isUTC, LocalTZA t isUTC = offset) ->
                       expiresAt = now + days * msPerDay)
             | None =>
                 result
                 = (mkResponse 500 (Error "Failed to register user" None),
                    db)
                 /\ maxTime
                    < Z.abs (UTC LocalTZA
                               (LocalTime LocalTZA now + days * msPerDay))
             end
       | None => registered []
       end
   | None => registered []
   end)
  /\ (roleName = Some "interpreter" -> registered [])
  /\ (forall r, roleName = Some r -> selfServiceRole r = None ->
                result
                = (mkResponse 403
                     (Error "You are not allowed to register with this role"
                            None), db))
  /\ (forall plan, plan_findFirst_trial db = Some plan ->
                   In plan (plans db)
                   /\ Plan.isTrial plan = true /\ Plan.isActive plan = true
                   /\ forall p, In p (plans db) -> Plan.isTrial p = true ->
                                Plan.isActive p = true ->
                                Plan.createdAt p <= Plan.createdAt plan).
Proof.
  intros He Hp Hn Hue Hpe Hui Hpi Hsi Hfresh result registered.
  split; [|split; [|split]].
  - intros Hr.
    assert (Hrole : selfServiceRole
                      (match roleName with Some r => r | None => "dreamer" end)
                    = Some dreamer)
      by (destruct Hr as [-> | ->]; reflexivity).
    pose proof (auth_register_commits LocalTZA now newUserId newUserPlanId
                  hashedPassword email password fullName roleName dreamer db
                  He Hp Hn Hrole Hue Hpe Hui Hpi Hsi Hfresh) as Hrun.
    cbv beta iota in Hrun. unfold trialRows, trialDays in Hrun.
    fold result in Hrun. unfold registered.
    destruct (plan_findFirst_trial db) as [plan|].
    2:{ registered_by Hrun. }
    destruct (Plan.trialDurationDays plan) as [days|].
    2:{ registered_by Hrun. }
    destruct (days =? 0).
    { registered_by Hrun. }
    destruct (addDays LocalTZA now (IFin days)) as [expiresAt|] eqn:Ed.
    + split; [registered_by Hrun|].
      unfold addDays, TimeClip in Ed.
      destruct (Z.abs _ <=? 8640000000000000); [|discriminate].
      injection Ed as <-. split; [reflexivity|].
      intros offset Hz. unfold UTC, LocalTime. rewrite !Hz. lia.
    + split; [exact Hrun|].
      unfold addDays, TimeClip in Ed. unfold maxTime.
      destruct (Z.abs _ <=? 8640000000000000) eqn:E; [discriminate|].
      apply Z.leb_gt in E. exact E.
  - intros ->.
    pose proof (auth_register_commits LocalTZA now newUserId newUserPlanId
                  hashedPassword email password fullName (Some "interpreter")
                  interpreter db He Hp Hn eq_refl Hue Hpe Hui Hpi Hsi Hfresh)
      as Hrun.
    cbv beta iota in Hrun. subst registered result. cbv beta.
    registered_by Hrun.
  - intros r -> Hr. subst result. unfold auth_register.
    cbn [RegisterBody.email RegisterBody.password RegisterBody.fullName
         RegisterBody.role].
    rewrite !truthy_string_Some by assumption. simpl negb. simpl orb.
    cbv iota. rewrite Hr. reflexivity.
  - apply plan_findFirst_trial_Some.
Qed.

(** The scenario of the specification on a server on UTC: a trial plan
    with [trialDurationDays = 7] gives a subscription that expires seven
    times 24 hours after the registration instant, with no letters used.
    On a server whose clocks go forward in between, the expiry comes an
    hour earlier. *)
Lemma register_trial_subscription_witness :
  userPlans (snd (auth_register utcZone 1000 "u9" "s9" "$2a$10$digest"
                    registerDreamer dbOneTrial))
  = [UserPlan.mk "s9" "u9" "t1" 1000 (Some (1000 + 7 * 86400000)) true 0 0]
  /\ userPlans (snd (auth_register summerZone 4999999000 "u9" "s9"
                       "$2a$10$digest" registerDreamer dbOneTrial))
     = [UserPlan.mk "s9" "u9" "t1" 4999999000
          (Some (4999999000 + 7 * 86400000 - 3600000)) true 0 0].
Proof.
  split.
  - exact (proj2 (proj1 (proj1 (register_trial_subscription utcZone 1000 "u9"
                                  "s9" "$2a$10$digest" "new@example.com"
                                  "secret" "New Dreamer" (Some "dreamer")
                                  dbOneTrial
                                  ltac:(discriminate) ltac:(discriminate)
                                  ltac:(discriminate) eq_refl eq_refl eq_refl
                                  eq_refl eq_refl
                                  (fun s (H : In s []) => False_ind _ H))
                               (or_intror eq_refl)))).
  - exact (proj2 (proj1 (proj1 (register_trial_subscription summerZone
                                  4999999000 "u9" "s9" "$2a$10$digest"
                                  "new@example.com" "secret" "New Dreamer"
                                  (Some "dreamer") dbOneTrial
                                  ltac:(discriminate) ltac:(discriminate)
                                  ltac:(discriminate) eq_refl eq_refl eq_refl
                                  eq_refl eq_refl
                                  (fun s (H : In s []) => False_ind _ H))
                               (or_intror eq_refl)))).
Defined.

(** C8 (as stated) fails: an active trial plan with a seven-day trial
    exists, yet the dreamer is registered without subscription, because
    the newest active trial plan has no trial duration. *)
Lemma trial_plan_exists_but_no_subscription :
  In trialOld (plans dbTwoTrials)
  /\ Plan.isActive trialOld = true
  /\ Plan.isTrial trialOld = true
  /\ Plan.trialDurationDays trialOld = Some 7
  /\ status (fst (auth_register utcZone 1000 "u9" "s9" "$2a$10$digest"
                    registerDreamer dbTwoTrials)) = 201
  /\ userPlans (snd (auth_register utcZone 1000 "u9" "s9" "$2a$10$digest"
                       registerDreamer dbTwoTrials)) = [].
Proof.
  split; [left; reflexivity|]. repeat split.
Qed.

(** *** Token validation in front of the content handlers *)

Section AuthProperties.

Variable verifyToken : string -> option JWTPayload.t.

Lemma requireAuth_rejects_401 (req : Request.t) (rejected : Response) :
  requireAuth verifyToken req = inl rejected -> status rejected = 401.
Proof.
  unfold requireAuth.
  destruct (negb (truthy_string (extractToken req))).
  - intros H; injection H as <-. reflexivity.
  - destruct (verifyToken _); [discriminate|].
    intros H; injection H as <-. reflexivity.
Qed.

Lemma requireAuth_accepts_verified (req : Request.t)
  (payload : JWTPayload.t) :
  requireAuth verifyToken req = inr payload ->
  exists token, extractToken req = Some token /\ token <> ""
                /\ verifyToken token = Some payload.
Proof.
  unfold requireAuth.
  destruct (extractToken req) as [token|]; simpl; [|discriminate].
  destruct (String.eqb token "") eqn:E; simpl; [discriminate|].
  destruct (verifyToken token) as [p|] eqn:Ev; [|discriminate].
  intros H; injection H as <-. exists token.
  split; [reflexivity|]. split; [|exact Ev].
  intros ->. discriminate.
Qed.

(** C9 (as the code behaves). Every route of the content routers except
    the listing of comments runs [requireAuth] first: a request without a
    valid token is answered 401 and the handler is not run.
    [GET /api/comments] is registered without the middleware: its handler
    runs for any request and never answers 401. *)
Theorem content_routes_token_gate :
  (forall (r : Route) (handler : Handler) (req : Request.t) (db : DB)
          (rejected : Response),
      In r contentRoutes ->
      Route_eqb r commentsGet = false ->
      requireAuth verifyToken req = inl rejected ->
      serve verifyToken r handler req db = (rejected, db)
      /\ status rejected = 401)
  /\ In commentsGet contentRoutes
  /\ (forall (dream_id : option string) (req : Request.t) (db : DB),
        serve verifyToken commentsGet (fun _ => comments_get dream_id) req db
        = comments_get dream_id db
        /\ status (fst (comments_get dream_id db)) <> 401).
Proof.
  split; [|split].
  - intros r handler req db rejected Hin Hne Hrej.
    assert (Hauth : authenticated r = true).
    { unfold contentRoutes in Hin. simpl in Hin.
      repeat (destruct Hin as [<-|Hin]; [first [reflexivity|discriminate]|]).
      contradiction. }
    unfold serve. rewrite Hauth, Hrej.
    split; [reflexivity|apply (requireAuth_rejects_401 _ _ Hrej)].
  - unfold contentRoutes. simpl. tauto.
  - intros dream_id req db. split; [reflexivity|].
    unfold comments_get.
    destruct (negb (truthy_string dream_id)); simpl; discriminate.
Qed.

End AuthProperties.

Lemma content_routes_token_gate_witness :
  serve rejectAll (mkRoute "comments" POST "/" true)
    (fun _ db => (mkResponse 201 OtherJson, db)) anonymousRequest dbCommented
  = (mkResponse 401 (Error "Authentication required" None), dbCommented)
  /\ serve rejectAll commentsGet (fun _ => comments_get (Some "d1"))
       anonymousRequest dbCommented
     = (mkResponse 200
          (CommentsJson [Comment.mk "c1" "d1" "i1" fiveLetters 1200]),
        dbCommented).
Proof.
  split.
  - refine (proj1 (proj1 (content_routes_token_gate rejectAll)
                     (mkRoute "comments" POST "/" true)
                     (fun _ db => (mkResponse 201 OtherJson, db))
                     anonymousRequest dbCommented
                     (mkResponse 401 (Error "Authentication required" None))
                     _ eq_refl eq_refl)).
    unfold contentRoutes. simpl. tauto.
  - exact (proj1 (proj2 (proj2 (content_routes_token_gate rejectAll))
                    (Some "d1") anonymousRequest dbCommented)).
Defined.

(** ** Further properties of the handlers *)

(** *** Token extraction *)

Lemma stripPrefix_app (p s : string) : stripPrefix p (p ++ s)%string = Some s.
Proof.
  induction p as [|a p IH]; simpl; [destruct s; reflexivity|].
  rewrite Ascii.eqb_refl. exact IH.
Qed.

Lemma stripPrefix_Some (p s r : string) :
  stripPrefix p s = Some r -> s = (p ++ r)%string.
Proof.
  revert s. induction p as [|a p IH]; simpl; intros s H.
  - destruct s; injection H as <-; reflexivity.
  - destruct s as [|b s]; [discriminate|].
    destruct (Ascii.eqb a b) eqn:E; [|discriminate].
    apply Ascii.eqb_eq in E. subst b. f_equal. apply IH. exact H.
Qed.

Section AuthExtra.

Variable verifyToken : string -> option JWTPayload.t.

(** X1. [optionalAuth] and [requireAuth] recognise the same requests: the
    optional middleware sets [req.user] to a payload exactly when the
    mandatory one lets the request through with that payload. *)
Theorem optionalAuth_agrees_with_requireAuth (req : Request.t)
  (payload : JWTPayload.t) :
  requireAuth verifyToken req = inr payload
  <-> optionalAuth verifyToken req = Some payload.
Proof.
  unfold requireAuth, optionalAuth.
  destruct (truthy_string (extractToken req)); simpl.
  - destruct (verifyToken _) as [p|]; split; intros H;
      try discriminate; injection H as <-; reflexivity.
  - split; discriminate.
Qed.

(** X2. A request whose [Authorization] header starts with ["Bearer "] is
    judged on that header alone: when the trimmed remainder does not
    verify, [requireAuth] answers 401 and [optionalAuth] leaves the
    request anonymous, whatever the [auth_token] cookie holds. *)
Theorem bearer_header_overrides_cookie (token : string)
  (cookie : option string) :
  verifyToken (trim token) = None ->
  (exists error,
      requireAuth verifyToken
        (Request.mk (Some ("Bearer " ++ token)%string) cookie)
      = inl (mkResponse 401 (Error error None)))
  /\ optionalAuth verifyToken
       (Request.mk (Some ("Bearer " ++ token)%string) cookie) = None.
Proof.
  intros Hv.
  assert (He : extractToken
                 (Request.mk (Some ("Bearer " ++ token)%string) cookie)
               = Some (trim token)).
  { unfold extractToken. cbn [Request.authorization].
    rewrite stripPrefix_app. reflexivity. }
  unfold requireAuth, optionalAuth. rewrite He.
  destruct (truthy_string (Some (trim token))); simpl negb; cbv iota.
  - rewrite Hv. split; [eexists; reflexivity|reflexivity].
  - split; [eexists; reflexivity|reflexivity].
Qed.

End AuthExtra.

Lemma optionalAuth_agrees_with_requireAuth_witness :
  optionalAuth verifyToken_sample (Request.mk (Some "Bearer  good ") None)
  = Some (JWTPayload.mk "u1" "u1@example.com" "dreamer").
Proof.
  apply (proj1 (optionalAuth_agrees_with_requireAuth verifyToken_sample
                  (Request.mk (Some "Bearer  good ") None)
                  (JWTPayload.mk "u1" "u1@example.com" "dreamer"))).
  reflexivity.
Defined.

Lemma bearer_header_overrides_cookie_witness :
  optionalAuth verifyToken_sample
    (Request.mk (Some "Bearer stale") (Some "good")) = None.
Proof.
  exact (proj2 (bearer_header_overrides_cookie verifyToken_sample "stale"
                  (Some "good") eq_refl)).
Defined.

(** A no-break space (code unit 160) around the token is stripped like a
    space, so the token behind it is the one that is verified. *)
Example trim_strips_no_break_space :
  trim (String (ascii_of_nat 160) ("good" ++ String (ascii_of_nat 160) " "))
  = "good"
  /\ requireAuth verifyToken_sample
       (Request.mk
          (Some ("Bearer " ++ String (ascii_of_nat 160) "good")%string) None)
     = inr (JWTPayload.mk "u1" "u1@example.com" "dreamer").
Proof. split; reflexivity. Qed.

(** *** The audio data URL *)

Lemma spanWord_spec (s w r : string) :
  spanWord s = (w, r) ->
  s = (w ++ r)%string /\ allWordChars w = true.
Proof.
  revert w r. induction s as [|c s IH]; simpl; intros w r H.
  - injection H as <- <-. split; reflexivity.
  - destruct (isWordChar c) eqn:E.
    + destruct (spanWord s) as [w' r'] eqn:Es. injection H as <- <-.
      destruct (IH w' r' eq_refl) as [-> Hw]. simpl. rewrite E, Hw.
      split; reflexivity.
    + injection H as <- <-. split; reflexivity.
Qed.

Lemma spanWord_app (w r : string) :
  allWordChars w = true ->
  match r with
  | String c _ => isWordChar c = false
  | EmptyString => True
  end ->
  spanWord (w ++ r) = (w, r).
Proof.
  intros Hw Hr. induction w as [|c w IH]; simpl in *.
  - destruct r as [|c r]; [reflexivity|]. simpl. rewrite Hr. reflexivity.
  - apply andb_true_iff in Hw. destruct Hw as [Hc Hw].
    rewrite Hc, (IH Hw). reflexivity.
Qed.

(** X3. The audio pattern [/^data:audio\/(\w+);base64,(.+)$/] accepts
    exactly the strings ["data:audio/" ++ type ++ ";base64," ++ data]
    with a non-empty [type] made of word characters and a non-empty
    [data] free of line terminators, and its groups are [type] and
    [data]. *)
Theorem matchAudioDataUrl_characterised (audio audioType base64Data : string) :
  matchAudioDataUrl audio = Some (audioType, base64Data)
  <-> audio = ("data:audio/" ++ audioType ++ ";base64," ++ base64Data)%string
      /\ audioType <> ""
      /\ allWordChars audioType = true
      /\ base64Data <> ""
      /\ noLineTerminator base64Data = true.
Proof.
  unfold matchAudioDataUrl. split.
  - destruct (stripPrefix "data:audio/" audio) as [rest|] eqn:E1;
      [|discriminate].
    destruct (spanWord rest) as [w r] eqn:E2.
    destruct w as [|c w]; [discriminate|].
    destruct (stripPrefix ";base64," r) as [d|] eqn:E3; [|discriminate].
    destruct (String.eqb d "") eqn:E4; simpl; [discriminate|].
    destruct (noLineTerminator d) eqn:E5; [|discriminate].
    intros H. injection H as <- <-.
    apply stripPrefix_Some in E1. apply stripPrefix_Some in E3.
    apply spanWord_spec in E2. destruct E2 as [E2 Hw].
    subst. repeat split; auto; try discriminate.
    intros ->. discriminate.
  - intros (-> & Ht & Hw & Hd & Hl).
    rewrite (stripPrefix_app "data:audio/").
    rewrite (spanWord_app audioType (";base64," ++ base64Data) Hw
               ltac:(reflexivity)).
    destruct audioType as [|c w]; [contradiction|].
    rewrite (stripPrefix_app ";base64,").
    destruct (String.eqb base64Data "") eqn:E.
    + apply String.eqb_eq in E. contradiction.
    + simpl. rewrite Hl. reflexivity.
Qed.

Lemma matchAudioDataUrl_characterised_witness :
  matchAudioDataUrl "data:audio/mp3;base64,SUQz" = Some ("mp3", "SUQz").
Proof.
  apply (proj2 (matchAudioDataUrl_characterised "data:audio/mp3;base64,SUQz"
                  "mp3" "SUQz")).
  repeat split; try discriminate.
Defined.

(** *** Letters and code units *)

Lemma Array_from_cons (c : Z) (rest : JsString) :
  Array_from (c :: rest)
  = if isLeadSurrogate c then
      match rest with
      | d :: rest' =>
          if isTrailSurrogate d
          then UTF16SurrogatePairToCodePoint c d :: Array_from rest'
          else c :: Array_from rest
      | [] => [c]
      end
    else c :: Array_from rest.
Proof. reflexivity. Qed.

Lemma Array_from_length_bounds (s : JsString) :
  (List.length (Array_from s) <= List.length s
   /\ List.length s <= 2 * List.length (Array_from s))%nat
  /\ forall c,
      (List.length (Array_from (c :: s)) <= List.length (c :: s)
       /\ List.length (c :: s) <= 2 * List.length (Array_from (c :: s)))%nat.
Proof.
  induction s as [|d s [IH1 IH2]].
  - split; [simpl; lia|]. intros c. simpl.
    destruct (isLeadSurrogate c); simpl; lia.
  - split; [apply IH2|]. intros c.
    rewrite (Array_from_cons c (d :: s)). specialize (IH2 d).
    destruct (isLeadSurrogate c).
    + destruct (isTrailSurrogate d); cbn [List.length] in *; lia.
    + cbn [List.length] in *; lia.
Qed.

Lemma Array_from_no_lead (s : JsString) :
  Forall (fun c => isLeadSurrogate c = false) s -> Array_from s = s.
Proof.
  induction 1 as [|c s Hc _ IH]; [reflexivity|].
  rewrite Array_from_cons, Hc, IH. reflexivity.
Qed.

(** X4. The letter count of a description never exceeds its number of
    UTF-16 code units ([description.length]) and is at least half of it;
    the two agree when the description holds no lead surrogate. *)
Theorem countContentLetters_bounds (description : JsString) :
  countContentLetters (Some description)
  <= Z.of_nat (List.length description)
  /\ Z.of_nat (List.length description)
     <= 2 * countContentLetters (Some description)
  /\ (Forall (fun c => isLeadSurrogate c = false) description ->
      countContentLetters (Some description)
      = Z.of_nat (List.length description)).
Proof.
  rewrite countContentLetters_length.
  destruct (Array_from_length_bounds description) as [[H1 H2] _].
  split; [lia|]. split; [lia|].
  intros H. rewrite (Array_from_no_lead _ H). reflexivity.
Qed.

Lemma countContentLetters_bounds_witness :
  countContentLetters (Some sevenLetters) = 7.
Proof.
  apply (proj2 (proj2 (countContentLetters_bounds sevenLetters))).
  repeat constructor.
Defined.

(** *** The webhook endpoint *)

Section WebhookExtra.

Variable constructEvent : Payload -> string -> StripeEvent.t + string.
Variable LocalTZA : TimeZone.

(** X5. [POST /payments/webhook] writes to the database only for an event
    whose signature Stripe's library verified and whose type is
    [checkout.session.completed], and then it answers 200: a missing
    configuration, a missing or refused signature, any other event type
    and a failed activation all leave the database as it was. *)
Theorem webhook_writes_only_for_verified_checkout (stripeConfigured : bool)
  (now : Z) (newPaymentId newUserPlanId : string) (req : WebhookRequest.t)
  (db db' : DB) (r : Response) :
  payments_webhook constructEvent LocalTZA stripeConfigured now newPaymentId
    newUserPlanId req db = (r, db') ->
  db' <> db ->
  stripeConfigured = true
  /\ status r = 200
  /\ exists sig event,
      WebhookRequest.stripe_signature req = Some sig
      /\ constructEvent (WebhookRequest.body req) sig = inl event
      /\ StripeEvent.type event = "checkout.session.completed".
Proof.
  unfold payments_webhook. intros H Hne.
  destruct stripeConfigured; simpl in H;
    [|injection H as <- <-; contradiction].
  destruct (WebhookRequest.stripe_signature req) as [sig|] eqn:Es;
    [|injection H as <- <-; contradiction].
  destruct sig as [|c sig]; [injection H as <- <-; contradiction|].
  destruct (constructEvent _ _) as [event|message] eqn:Ec;
    [|injection H as <- <-; contradiction].
  unfold handleEvent in H.
  destruct (String.eqb (StripeEvent.type event) "checkout.session.completed")
    eqn:Et.
  - apply String.eqb_eq in Et. unfold transaction in H.
    destruct (checkoutCompletedTx _ _ _ _ _ db) as [[u db1]|].
    + injection H as <- <-. split; [reflexivity|]. split; [reflexivity|].
      exists (String c sig), event. auto.
    + injection H as <- <-. contradiction.
  - destruct (String.eqb (StripeEvent.type event)
                "payment_intent.payment_failed");
      injection H as <- <-; contradiction.
Qed.

End WebhookExtra.

Lemma webhook_writes_only_for_verified_checkout_witness :
  status (fst (payments_webhook constructEvent_sample utcZone true 1000 "pay1"
                 "s1" (WebhookRequest.mk (Some "sig-ok") (RawBody cs123Text))
                 dbNoSubscription))
  = 200.
Proof.
  refine (proj1 (proj2 (webhook_writes_only_for_verified_checkout
                          constructEvent_sample utcZone true 1000 "pay1" "s1"
                          (WebhookRequest.mk (Some "sig-ok")
                             (RawBody cs123Text))
                          dbNoSubscription _ _ (surjective_pairing _) _))).
  intros H. apply (f_equal (fun d => List.length (payments d))) in H.
  discriminate.
Defined.

(** *** Decimal printing and parseInt *)

Lemma readDigits_string_of_uint (d : Decimal.uint) :
  readDigits 10 (NilEmpty.string_of_uint d) = uintDigits d.
Proof.
  induction d; cbn [NilEmpty.string_of_uint uintDigits readDigits];
    [reflexivity|..]; rewrite IHd; reflexivity.
Qed.

Lemma digitsValue_of_uint_acc (d : Decimal.uint) (acc : positive) :
  fold_left (fun a k => a * 10 + k) (uintDigits d) (Z.pos acc)
  = Z.pos (Pos.of_uint_acc d acc).
Proof.
  revert acc. induction d; intros acc; cbn [uintDigits fold_left Pos.of_uint_acc];
    [reflexivity|..];
    rewrite <- IHd; f_equal; lia.
Qed.

Lemma digitsValue_of_uint (d : Decimal.uint) :
  digitsValue 10 (uintDigits d) = Z.of_N (Pos.of_uint d).
Proof.
  unfold digitsValue.
  induction d; cbn [uintDigits fold_left Pos.of_uint];
    [reflexivity|exact IHd|..];
    change (0 * 10 + ?k) with k; rewrite digitsValue_of_uint_acc;
    reflexivity.
Qed.

Lemma uintDigits_nonnil (d : Decimal.uint) :
  d <> Decimal.Nil -> uintDigits d <> [].
Proof. destruct d; intros H; [contradiction|..]; discriminate. Qed.

Lemma parseInt_string_of_uint (sign : Z) (d : Decimal.uint) :
  d <> Decimal.Nil ->
  parseUnsigned sign (NilEmpty.string_of_uint d)
  = IFin (sign * Z.of_N (Pos.of_uint d))
  /\ parseInt (NilEmpty.string_of_uint d) = IFin (Z.of_N (Pos.of_uint d)).
Proof.
  intros Hd.
  assert (Hp : forall sg, parseDigits 10 sg (NilEmpty.string_of_uint d)
                          = IFin (sg * Z.of_N (Pos.of_uint d))).
  { intros sg. unfold parseDigits. rewrite readDigits_string_of_uint.
    pose proof (uintDigits_nonnil d Hd) as Hn.
    destruct (uintDigits d) eqn:E; [contradiction|].
    rewrite <- E, digitsValue_of_uint. reflexivity. }
  assert (Hu : forall sg, parseUnsigned sg (NilEmpty.string_of_uint d)
                          = parseDigits 10 sg (NilEmpty.string_of_uint d)).
  { intros sg. destruct d; try reflexivity. destruct d; reflexivity. }
  split; [rewrite Hu; apply Hp|].
  transitivity (parseUnsigned 1 (NilEmpty.string_of_uint d)).
  - destruct d; reflexivity.
  - rewrite Hu, Hp. f_equal. lia.
Qed.

(** [parseInt] reads back what the decimal printing of an integer wrote. *)
Lemma parseInt_Z_toString (z : Z) : parseInt (Z_toString z) = IFin z.
Proof.
  unfold Z_toString. destruct z as [|p|p]; [reflexivity|..];
    cbn [Z.to_int NilZero.string_of_int]; unfold NilZero.string_of_uint;
    pose proof (Unsigned.to_uint_nonnil p) as Hn;
    assert (Hs : NilEmpty.string_of_uint (Pos.to_uint p)
                 = match Pos.to_uint p with
                   | Decimal.Nil => "0"
                   | _ => NilEmpty.string_of_uint (Pos.to_uint p)
                   end)
      by (destruct (Pos.to_uint p); [contradiction|..]; reflexivity);
    rewrite <- Hs.
  - rewrite (proj2 (parseInt_string_of_uint 1 _ Hn)), Unsigned.of_to.
    reflexivity.
  - unfold parseInt. cbn [skipWhiteSpace].
    change (isWhiteSpace "-") with false. cbv iota.
    rewrite (proj1 (parseInt_string_of_uint (-1) _ Hn)), Unsigned.of_to.
    reflexivity.
Qed.

(** *** Opening a checkout session *)

Lemma toUpperCase_toLowerCase (s : string) :
  toUpperCase (toLowerCase s) = toUpperCase s.
Proof.
  induction s as [|c s IH]; [reflexivity|].
  cbn [toLowerCase toUpperCase]. rewrite IH. f_equal.
  destruct c as [[|] [|] [|] [|] [|] [|] [|] [|]]; reflexivity.
Qed.

Lemma Math_round_cents (q : Q) (cents : Z) :
  q == inject_Z cents -> Math_round q = cents.
Proof.
  intros H. unfold Math_round. rewrite H.
  unfold Qfloor, Qplus, inject_Z. cbn [Qnum Qden].
  change (Z.pos (1 * 2)) with 2.
  symmetry. apply (Z.div_unique _ 2 cents 1); lia.
Qed.

(** X6. A checkout session is opened only for an existing, active plan
    and an existing profile, and then with exactly these parameters: the
    profile's email as customer email, the requester's id and the plan's
    id in the metadata together with the plan's [durationDays] as a
    decimal string that [parseInt] reads back unchanged, the plan's
    currency in lower case, and as unit amount the plan's price times 100
    rounded to the nearest integer -- the price in cents when it has at
    most two decimals. *)
Theorem checkout_session_carries_the_plan
  (sessionsCreate : CheckoutParams.t -> option (option string * string))
  (userId planId : string) (db : DB) (session : option string * string) :
  payments_create_checkout_session sessionsCreate true userId (Some planId) db
  = Ok 200 session ->
  exists plan user params,
    plan_findUnique db planId = Some plan
    /\ Plan.id plan = planId
    /\ Plan.isActive plan = true
    /\ profile_findUnique db userId = Some user
    /\ params = checkoutParams user userId plan
    /\ sessionsCreate params = Some session
    /\ CheckoutParams.customer_email params = Profile.email user
    /\ CheckoutParams.metadata_userId params = userId
    /\ CheckoutParams.metadata_planId params = planId
    /\ parseInt (CheckoutParams.metadata_durationDays params)
       = IFin (Plan.durationDays plan)
    /\ CheckoutParams.currency params = toLowerCase (Plan.currency plan)
    /\ toUpperCase (CheckoutParams.currency params)
       = toUpperCase (Plan.currency plan)
    /\ (inject_Z (CheckoutParams.unit_amount params)
        <= Plan.price plan * 100 + (1 # 2)
        /\ Plan.price plan * 100 + (1 # 2)
           < inject_Z (CheckoutParams.unit_amount params + 1))%Q
    /\ (forall cents, (Plan.price plan * 100 == inject_Z cents)%Q ->
                      CheckoutParams.unit_amount params = cents).
Proof.
  unfold payments_create_checkout_session. cbn [negb].
  destruct (truthy_string (Some planId)) eqn:Et; cbn [negb];
    [|discriminate].
  destruct (plan_findUnique db planId) as [plan|] eqn:Ep; [|discriminate].
  destruct (Plan.isActive plan) eqn:Ea; cbn [negb]; [|discriminate].
  destruct (profile_findUnique db userId) as [user|] eqn:Eu; [|discriminate].
  destruct (sessionsCreate _) as [sess|] eqn:Es; [|discriminate].
  intros H. injection H as <-.
  pose proof (find_some _ _ Ep) as [_ Hid]. apply String.eqb_eq in Hid.
  exists plan, user, (checkoutParams user userId plan).
  cbn [checkoutParams CheckoutParams.customer_email CheckoutParams.currency
       CheckoutParams.unit_amount CheckoutParams.metadata_userId
       CheckoutParams.metadata_planId CheckoutParams.metadata_durationDays].
  repeat (split; [first [reflexivity|assumption]|]).
  split; [apply parseInt_Z_toString|].
  split; [reflexivity|].
  split; [apply toUpperCase_toLowerCase|].
  split.
  - unfold Math_round. split; [apply Qfloor_le|apply Qlt_floor].
  - intros cents Hc. apply Math_round_cents. exact Hc.
Qed.

Lemma checkout_session_carries_the_plan_witness :
  exists params,
    sessionsCreate_sample params
    = Some (Some "https://checkout.stripe.com/c/pay/cs_123", "cs_123")
    /\ CheckoutParams.metadata_planId params = "p1"
    /\ parseInt (CheckoutParams.metadata_durationDays params) = IFin 30
    /\ CheckoutParams.unit_amount params = 1000.
Proof.
  destruct (checkout_session_carries_the_plan sessionsCreate_sample
              "u1" "p1" dbNoSubscription _ eq_refl)
    as (plan & user & params & Hp & _ & _ & _ & _ & Hs & _ & _ & Hid & Hd
        & _ & _ & _ & Hc).
  injection Hp as <-.
  exists params. split; [exact Hs|]. split; [exact Hid|].
  split; [exact Hd|]. apply Hc. reflexivity.
Defined.

(** X7. Once a payment is handled, the paid plan is the one the quota
    checks consult: provided the user's subscriptions to other plans
    started before the delivery and the (user, plan) pair is not
    duplicated, at every instant before the new expiry
    [getActiveSubscription] returns the activated row, with both counters
    at zero. *)
Theorem activation_becomes_effective (LocalTZA : TimeZone) (now : Z)
  (newPaymentId newUserPlanId : string) (event : StripeEvent.t)
  (db db' : DB) (r : Response) (userId planId : string) :
  StripeEvent.type event = "checkout.session.completed" ->
  Session.userId (StripeEvent.object event) = Some userId ->
  Session.planId (StripeEvent.object event) = Some planId ->
  handleEvent LocalTZA now newPaymentId newUserPlanId event db = (r, db') ->
  status r = 200 ->
  (forall a, In a (userPlans db) -> UserPlan.userId a = userId ->
             UserPlan.planId a <> planId -> UserPlan.startedAt a < now) ->
  (forall a b, In a (userPlans db) -> In b (userPlans db) ->
               UserPlan.userId a = userId -> UserPlan.planId a = planId ->
               UserPlan.userId b = userId -> UserPlan.planId b = planId ->
               a = b) ->
  exists s expiresAt,
    userPlan_findUnique_userId_planId db' userId planId = Some s
    /\ UserPlan.expiresAt s = Some expiresAt
    /\ UserPlan.lettersUsed s = 0 /\ UserPlan.audioMinutesUsed s = 0
    /\ forall t, t < expiresAt ->
                 getActiveSubscription db' t userId
                 = Some (s, plan_findUnique db' planId).
Proof.
  intros Ht Heu Hep Hh H200 Hother Huniq.
  destruct (handleEvent_completed _ _ _ _ _ _ _ _ Ht Hh H200)
    as (uid & pid & expiresAt & s & Hu & Hp & _ & Hf & Hs & Hrows & _).
  rewrite Heu in Hu. injection Hu as <-.
  rewrite Hep in Hp. injection Hp as <-.
  exists s, expiresAt.
  split; [exact Hf|]. split; [rewrite Hs; reflexivity|].
  split; [rewrite Hs; reflexivity|]. split; [rewrite Hs; reflexivity|].
  intros t Hlt.
  assert (Hin : In s (userPlans db'))
    by (apply (find_some _ _ Hf)).
  assert (Hcur : subscriptionIsCurrent t userId s = true).
  { apply subscriptionIsCurrent_spec. rewrite Hs. simpl.
    split; [reflexivity|]. split; [reflexivity|].
    right. eexists. split; [reflexivity|exact Hlt]. }
  assert (Hrest : forall a, In a (userPlans db') ->
                            UserPlan.userId a = userId ->
                            a = s \/ UserPlan.startedAt a < now).
  { intros a Ha Hau.
    destruct (userPlan_findUnique_userId_planId db userId planId)
      as [s0|] eqn:Ef0.
    - destruct Hrows as [_ Hrows]. rewrite Hrows in Ha.
      unfold replace_row in Ha. apply in_map_iff in Ha.
      destruct Ha as (a0 & Ha0 & Hin0).
      destruct (String.eqb (UserPlan.id a0) (UserPlan.id s0)) eqn:E.
      + left. symmetry. exact Ha0.
      + subst a0. right.
        apply Hother; [exact Hin0|exact Hau|].
        intros Hap.
        pose proof (find_some _ _ Ef0) as [Hin_s0 Hm].
        apply andb_true_iff in Hm. destruct Hm as [Hmu Hmp].
        apply String.eqb_eq in Hmu. apply String.eqb_eq in Hmp.
        rewrite (Huniq a s0 Hin0 Hin_s0 Hau Hap Hmu Hmp), String.eqb_refl in E.
        discriminate.
    - destruct Hrows as [_ Hrows]. rewrite Hrows in Ha.
      apply in_app_or in Ha. destruct Ha as [Ha|[<-|[]]]; [|left; reflexivity].
      right. apply Hother; [exact Ha|exact Hau|].
      intros Hap.
      unfold userPlan_findUnique_userId_planId in Ef0.
      apply (find_none _ _ Ef0) in Ha.
      rewrite Hau, Hap, !String.eqb_refl in Ha. discriminate. }
  unfold getActiveSubscription.
  destruct (orderByDesc UserPlan.startedAt
              (filter (subscriptionIsCurrent t userId) (userPlans db')))
    as [|y rest] eqn:E.
  - apply orderByDesc_nil in E.
    assert (Hf' : In s (filter (subscriptionIsCurrent t userId)
                          (userPlans db')))
      by (apply filter_In; auto).
    rewrite E in Hf'. contradiction.
  - apply orderByDesc_head in E. destruct E as [Hy Hmax].
    apply filter_In in Hy. destruct Hy as [Hy Hycur].
    apply subscriptionIsCurrent_spec in Hycur. destruct Hycur as [Hyu _].
    assert (Hsmax : UserPlan.startedAt s <= UserPlan.startedAt y)
      by (apply Hmax; apply filter_In; auto).
    destruct (Hrest y Hy Hyu) as [-> | Hylt].
    + rewrite Hs. reflexivity.
    + rewrite Hs in Hsmax. simpl in Hsmax. lia.
Qed.

Lemma activation_becomes_effective_witness :
  exists s, getActiveSubscription dbPaidOnce 5000 "u1"
            = Some (s, plan_findUnique dbPaidOnce "p1")
            /\ UserPlan.lettersUsed s = 0.
Proof.
  destruct (activation_becomes_effective utcZone 1000 "pay1" "s1" eventCs123
              dbNoSubscription dbPaidOnce (mkResponse 200 Received) "u1" "p1"
              eq_refl eq_refl eq_refl eq_refl eq_refl
              (fun a (H : In a []) => False_ind _ H)
              (fun a b (H : In a []) => False_ind _ H))
    as (s & expiresAt & Hf & He & Hl & _ & Hg).
  exists s. split; [|exact Hl].
  apply Hg.
  assert (Hx : Some expiresAt = Some (1000 + 30 * msPerDay)).
  { rewrite <- He. clear - Hf. injection Hf as <-. reflexivity. }
  injection Hx as ->. reflexivity.
Defined.

(** *** Listings are sorted rearrangements *)

Section OrderByExtra.

Context {A : Type} (key : A -> Z).

Lemma insertDesc_Permutation (a : A) (l : list A) :
  Permutation (insertDesc key a l) (a :: l).
Proof.
  induction l as [|y l IH]; simpl; [reflexivity|].
  destruct (key y <=? key a); [reflexivity|].
  rewrite IH. apply perm_swap.
Qed.

Lemma orderByDesc_Permutation (l : list A) :
  Permutation (orderByDesc key l) l.
Proof.
  induction l as [|a l IH]; simpl; [reflexivity|].
  rewrite insertDesc_Permutation, IH. reflexivity.
Qed.

Lemma insertAsc_Permutation (a : A) (l : list A) :
  Permutation (insertAsc key a l) (a :: l).
Proof.
  induction l as [|y l IH]; simpl; [reflexivity|].
  destruct (key a <=? key y); [reflexivity|].
  rewrite IH. apply perm_swap.
Qed.

Lemma orderByAsc_Permutation (l : list A) :
  Permutation (orderByAsc key l) l.
Proof.
  induction l as [|a l IH]; simpl; [reflexivity|].
  rewrite insertAsc_Permutation, IH. reflexivity.
Qed.

Lemma insertAsc_ascending (a : A) (l : list A) :
  ascending key l -> ascending key (insertAsc key a l).
Proof.
  unfold ascending. induction l as [|y l IH]; intros Hs; simpl.
  - repeat constructor.
  - destruct (key a <=? key y) eqn:E.
    + apply Z.leb_le in E. constructor; [exact Hs|].
      constructor; [exact E|].
      inversion Hs as [|? ? _ Hall]; subst.
      eapply Forall_impl; [|exact Hall]. simpl. intros; lia.
    + apply Z.leb_gt in E.
      inversion Hs as [|? ? Hs' Hall]; subst.
      constructor; [apply IH; exact Hs'|].
      apply Forall_forall. intros x Hx.
      apply (Permutation_in _ (insertAsc_Permutation a l)) in Hx.
      destruct Hx as [<-|Hx]; [lia|].
      rewrite Forall_forall in Hall. apply Hall; exact Hx.
Qed.

Lemma orderByAsc_ascending (l : list A) : ascending key (orderByAsc key l).
Proof.
  induction l as [|a l IH]; simpl.
  - constructor.
  - apply insertAsc_ascending; exact IH.
Qed.

End OrderByExtra.

(** *** Reading dreams *)

(** X8. [GET /dreams] answers with the dreams the requester's role may
    see, each once, newest first: a dreamer gets their own dreams only, an
    interpreter the dreams assigned to them or to nobody, an admin or
    super_admin every dream. *)
Theorem dreams_get_lists_visible_dreams (userId : string) (db : DB)
  (profile : Profile.t) :
  profile_findUnique db userId = Some profile ->
  exists l,
    dreams_get userId db = Ok 200 l
    /\ descending Dream.createdAt l
    /\ Permutation l
         (filter (dreamsVisibleTo (Profile.role profile) userId) (dreams db))
    /\ forall d,
        In d l
        <-> In d (dreams db)
            /\ match Profile.role profile with
               | dreamer => Dream.dreamerId d = userId
               | interpreter =>
                   Dream.interpreterId d = Some userId
                   \/ Dream.interpreterId d = None
               | admin | super_admin => True
               end.
Proof.
  intros Hp. unfold dreams_get. rewrite Hp. eexists. split; [reflexivity|].
  split; [apply orderByDesc_descending|].
  split; [apply orderByDesc_Permutation|].
  intros d. rewrite orderByDesc_In, filter_In.
  unfold dreamsVisibleTo, assignedToOrOpen.
  destruct (Profile.role profile).
  - rewrite String.eqb_eq. reflexivity.
  - destruct (Dream.interpreterId d) as [i|].
    + rewrite String.eqb_eq. split.
      * intros [H ->]. auto.
      * intros [H [E|E]]; [injection E as ->; auto|discriminate].
    + split; [intros [H _]; auto|intros [H _]; auto].
  - tauto.
  - tauto.
Qed.

Lemma dreams_get_lists_visible_dreams_witness :
  exists l,
    dreams_get "i1" dbConversation = Ok 200 l
    /\ descending Dream.createdAt l
    /\ List.length l = 2%nat.
Proof.
  destruct (dreams_get_lists_visible_dreams "i1" dbConversation
              (Profile.mk "i1" "i1@example.com" "Interpreter" interpreter None)
              eq_refl) as (l & Hl & Hd & Hperm & _).
  exists l. split; [exact Hl|]. split; [exact Hd|].
  rewrite (Permutation_length Hperm). reflexivity.
Defined.

Lemma length_filter_status (l : list Dream.t) :
  Z.of_nat (List.length l)
  = countStatus status_new l + countStatus pending_inquiry l
    + countStatus pending_interpretation l + countStatus interpreted l
    + countStatus returned l.
Proof.
  unfold countStatus. induction l as [|d l IH]; [reflexivity|].
  cbn [filter List.length]. destruct (Dream.status d); cbn -[Z.of_nat];
    rewrite ?Nat2Z.inj_succ; lia.
Qed.

(** X9. In the answer of [GET /dreams/stats] the five per-status counts
    add up to [total]: every counted dream falls under exactly one
    status. *)
Theorem dreams_stats_counts_add_up (userId : string) (db : DB)
  (stats : DreamStats.t) :
  dreams_stats userId db = Ok 200 stats ->
  DreamStats.total stats
  = DreamStats.new stats + DreamStats.pending_inquiry stats
    + DreamStats.pending_interpretation stats + DreamStats.interpreted stats
    + DreamStats.returned stats
  /\ 0 <= DreamStats.total stats <= Z.of_nat (List.length (dreams db)).
Proof.
  unfold dreams_stats.
  destruct (profile_findUnique db userId) as [profile|]; [|discriminate].
  intros H. injection H as <-. cbn [DreamStats.total DreamStats.new
    DreamStats.pending_inquiry DreamStats.pending_interpretation
    DreamStats.interpreted DreamStats.returned].
  split; [apply length_filter_status|].
  split; [lia|]. apply Nat2Z.inj_le. apply filter_length_le.
Qed.

Lemma dreams_stats_counts_add_up_witness :
  dreams_stats "u1" dbConversation = Ok 200 (DreamStats.mk 2 1 0 1 0 0)
  /\ 2 = 1 + 0 + 1 + 0 + 0.
Proof.
  split; [reflexivity|].
  exact (proj1 (dreams_stats_counts_add_up "u1" dbConversation
                  (DreamStats.mk 2 1 0 1 0 0) eq_refl)).
Defined.

(** X10. The list and the detail view disagree for interpreters: a dream
    that has no interpreter yet, and does not belong to the requesting
    interpreter, appears in their [GET /dreams] list, but [GET /dreams/:id]
    refuses it with 403. *)
Theorem interpreter_lists_but_cannot_open_unassigned (userId : string)
  (db : DB) (profile : Profile.t) (dream : Dream.t) :
  profile_findUnique db userId = Some profile ->
  Profile.role profile = interpreter ->
  dream_findUnique db (Dream.id dream) = Some dream ->
  Dream.interpreterId dream = None ->
  Dream.dreamerId dream <> userId ->
  (exists l, dreams_get userId db = Ok 200 l /\ In dream l)
  /\ dreams_get_one userId (Dream.id dream) db = Fail 403 "Forbidden" None.
Proof.
  intros Hp Hrole Hd Hi Hne. split.
  - unfold dreams_get. rewrite Hp, Hrole. eexists. split; [reflexivity|].
    apply orderByDesc_In, filter_In.
    split; [apply (find_some _ _ Hd)|].
    unfold dreamsVisibleTo, assignedToOrOpen. rewrite Hi. reflexivity.
  - unfold dreams_get_one. rewrite Hd, Hp, Hi.
    unfold roleIs. rewrite Hrole. cbn [isUser orb].
    destruct (String.eqb (Dream.dreamerId dream) userId) eqn:E.
    + apply String.eqb_eq in E. contradiction.
    + reflexivity.
Qed.

Lemma interpreter_lists_but_cannot_open_unassigned_witness :
  dreams_get_one "i1" "d2" dbConversation = Fail 403 "Forbidden" None.
Proof.
  exact (proj2 (interpreter_lists_but_cannot_open_unassigned "i1"
                  dbConversation
                  (Profile.mk "i1" "i1@example.com" "Interpreter" interpreter
                     None)
                  (Dream.mk "d2" "u1" None "Another" fiveLetters fiveLetters
                     None None status_new 1100)
                  eq_refl eq_refl eq_refl eq_refl ltac:(discriminate))).
Defined.

(** *** Sending, reading and deleting messages *)

Lemma set_messages_same (db : DB) : set_messages db (messages db) = db.
Proof. destruct db; reflexivity. Qed.

(** X11. A message is stored only for a dream that has an interpreter and
    only when the requester is its dreamer or that interpreter (admins
    and super_admins included in the refusal); the stored row is always
    sent in the requester's own name, at the request's instant, with the
    placeholder text when only audio was given, and it is of type audio
    exactly when an audio URL was derived.  Every other outcome leaves
    the database untouched. *)
Theorem messages_post_only_participants (now : Z) (newId userId : string)
  (body : MessageBody.t) (db db' : DB) (r : Response) :
  messages_post now newId userId body db = (r, db') ->
  (status r <> 201 /\ db' = db)
  \/ (exists dreamId dream interpreterId m,
        MessageBody.dream_id body = Some dreamId
        /\ dream_findUnique db dreamId = Some dream
        /\ Dream.interpreterId dream = Some interpreterId
        /\ (Dream.dreamerId dream = userId \/ interpreterId = userId)
        /\ r = mkResponse 201 (MessageJson m)
        /\ db' = set_messages db (messages db ++ [m])
        /\ Message.id m = newId
        /\ Message.senderId m = userId
        /\ Message.dreamId m = dreamId
        /\ Message.createdAt m = now
        /\ Message.content m
           = (match MessageBody.content body with
              | Some (c :: s) => c :: s
              | _ => voiceMessageLabel
              end)
        /\ (Message.messageType m = type_audio
            <-> Message.audioUrl m <> None)).
Proof.
  unfold messages_post.
  destruct (MessageBody.dream_id body) as [dreamId|] eqn:Eb.
  2:{ simpl. intros H; injection H as <- <-. left.
      split; [discriminate|reflexivity]. }
  destruct (negb (truthy_string (Some dreamId))).
  { intros H; injection H as <- <-. left.
    split; [discriminate|reflexivity]. }
  destruct (negb (truthy_jsstring (MessageBody.content body))
            && negb (truthy_string (MessageBody.audio body))).
  { intros H; injection H as <- <-. left.
    split; [discriminate|reflexivity]. }
  destruct (dream_findUnique db dreamId) as [dream|] eqn:Ed.
  2:{ intros H; injection H as <- <-. left.
      split; [discriminate|reflexivity]. }
  destruct (negb (truthy_string (Dream.interpreterId dream))) eqn:Ei.
  { intros H; injection H as <- <-. left.
    split; [discriminate|reflexivity]. }
  destruct (Dream.interpreterId dream) as [interp|] eqn:Ei';
    [|discriminate].
  destruct (negb (String.eqb (Dream.dreamerId dream) userId)
            && negb (isUser (Some interp) userId)) eqn:Ep.
  { intros H; injection H as <- <-. left.
    split; [discriminate|reflexivity]. }
  unfold await, transaction, message_create.
  cbn [Message.id Message.dreamId Message.senderId].
  destruct (existsb_id Message.id newId (messages db)).
  { intros H; injection H as <- <-. left.
    split; [discriminate|reflexivity]. }
  destruct (negb (existsb_id Dream.id dreamId (dreams db))).
  { intros H; injection H as <- <-. left.
    split; [discriminate|reflexivity]. }
  destruct (negb (existsb_id Profile.id userId (profiles db))).
  { intros H; injection H as <- <-. left.
    split; [discriminate|reflexivity]. }
  intros H; injection H as <- <-. right.
  exists dreamId, dream, interp. eexists.
  split; [reflexivity|]. split; [exact Ed|]. split; [exact Ei'|].
  split.
  { apply andb_false_iff in Ep. destruct Ep as [Ep|Ep];
      apply negb_false_iff in Ep.
    - left. apply String.eqb_eq. exact Ep.
    - right. apply String.eqb_eq. exact Ep. }
  split; [reflexivity|]. split; [reflexivity|].
  cbn [Message.id Message.senderId Message.dreamId Message.createdAt
       Message.content Message.messageType Message.audioUrl].
  repeat (split; [reflexivity|]).
  split.
  { destruct (MessageBody.content body) as [[|c s]|]; reflexivity. }
  match goal with
  | |- context [match ?u with Some _ => type_audio | None => type_text end] =>
      destruct u
  end; split; intros H; try discriminate; try reflexivity.
  contradiction.
Qed.

Lemma messages_post_only_participants_witness :
  status (fst (messages_post 4000 "m3" "u1"
                 (MessageBody.mk (Some "d1") None
                    (Some "data:audio/webm;base64,AAAA")) dbConversation))
  = 201
  /\ status (fst (messages_post 4000 "m3" "a1"
                    (MessageBody.mk (Some "d1") (Some fiveLetters) None)
                    dbConversation)) = 403.
Proof.
  split.
  - destruct (messages_post_only_participants 4000 "m3" "u1"
                (MessageBody.mk (Some "d1") None
                   (Some "data:audio/webm;base64,AAAA")) dbConversation
                _ _ (surjective_pairing _)) as [[Hne _]|H].
    + exfalso. apply Hne. reflexivity.
    + reflexivity.
  - reflexivity.
Defined.

(** X12. Only its sender can delete a message, whatever the role of the
    requester: a successful delete removes the row with that id and no
    other, and every refusal leaves the database as it was. *)
Theorem messages_delete_by_sender_only (userId id : string) (db db' : DB)
  (a : Answer unit) :
  messages_delete userId id db = (a, db') ->
  (statusOf a <> 200 /\ db' = db)
  \/ (a = Ok 200 tt
      /\ (exists m, message_findUnique db id = Some m
                    /\ Message.senderId m = userId)
      /\ message_findUnique db' id = None
      /\ (forall m, In m (messages db') <->
                    In m (messages db) /\ Message.id m <> id)
      /\ db' = set_messages db (messages db')).
Proof.
  unfold messages_delete.
  destruct (message_findUnique db id) as [m|] eqn:Ef.
  2:{ intros H; injection H as <- <-. left.
      split; [discriminate|reflexivity]. }
  destruct (String.eqb (Message.senderId m) userId) eqn:Es; cbn [negb].
  2:{ intros H; injection H as <- <-. left.
      split; [discriminate|reflexivity]. }
  intros H; injection H as <- <-. right.
  apply String.eqb_eq in Es.
  split; [reflexivity|]. split; [eauto|].
  split.
  { unfold message_findUnique. simpl.
    destruct (find _ (filter _ (messages db))) as [x|] eqn:E; [|reflexivity].
    apply find_some in E. destruct E as [Hin Hx].
    apply filter_In in Hin. destruct Hin as [_ Hn].
    rewrite Hx in Hn. discriminate. }
  split; [|reflexivity].
  intros x. simpl. rewrite filter_In, negb_true_iff.
  split; intros [Hin Hx]; (split; [exact Hin|]).
  - intros E. rewrite E, String.eqb_refl in Hx. discriminate.
  - apply String.eqb_neq. exact Hx.
Qed.

Lemma messages_delete_by_sender_only_witness :
  statusOf (fst (messages_delete "u1" "m1" dbConversation)) = 200
  /\ statusOf (fst (messages_delete "root" "m1" dbConversation)) = 403.
Proof.
  split.
  - destruct (messages_delete_by_sender_only "u1" "m1" dbConversation _ _
                (surjective_pairing _)) as [[Hne _]|(Ha & _)].
    + exfalso. apply Hne. reflexivity.
    + rewrite Ha. reflexivity.
  - reflexivity.
Defined.

Lemma find_app_new {A : Type} (key : A -> string) (k : string)
  (l : list A) (a : A) :
  existsb_id key k l = false -> key a = k ->
  find (fun x => String.eqb (key x) k) (l ++ [a]) = Some a.
Proof.
  intros Hf Ha. unfold existsb_id in Hf.
  induction l as [|b l IH]; simpl in *.
  - rewrite Ha, String.eqb_refl. reflexivity.
  - apply orb_false_iff in Hf. destruct Hf as [Hb Hl].
    rewrite Hb. apply IH. exact Hl.
Qed.

Lemma filter_fresh_id (id : string) (l : list Message.t) (m : Message.t) :
  existsb_id Message.id id l = false -> Message.id m = id ->
  filter (fun x => negb (String.eqb (Message.id x) id)) (l ++ [m]) = l.
Proof.
  intros Hf Hm. rewrite filter_app. simpl. rewrite Hm, String.eqb_refl.
  simpl. rewrite app_nil_r.
  unfold existsb_id in Hf. induction l as [|a l IH]; [reflexivity|].
  simpl in *. apply orb_false_iff in Hf. destruct Hf as [Ha Hl].
  rewrite Ha. simpl. rewrite (IH Hl). reflexivity.
Qed.

Lemma messages_post_201 (now : Z) (newId userId : string)
  (body : MessageBody.t) (db db1 : DB) (r : Response) :
  messages_post now newId userId body db = (r, db1) ->
  status r = 201 ->
  existsb_id Message.id newId (messages db) = false
  /\ exists m, db1 = set_messages db (messages db ++ [m])
               /\ Message.id m = newId /\ Message.senderId m = userId.
Proof.
  unfold messages_post.
  repeat lazymatch goal with
  | |- (if ?c then _ else _) = _ -> _ =>
      destruct c; [intros H; injection H as <- <-; discriminate|]
  | |- match ?c with Some _ => _ | None => _ end = _ -> _ =>
      destruct c; [|intros H; injection H as <- <-; discriminate]
  end.
  unfold await, transaction, message_create.
  cbn [Message.id Message.dreamId Message.senderId].
  destruct (existsb_id Message.id newId (messages db)) eqn:Hfresh;
    [intros H; injection H as <- <-; discriminate|].
  destruct (negb (existsb_id Dream.id _ (dreams db)));
    [intros H; injection H as <- <-; discriminate|].
  destruct (negb (existsb_id Profile.id userId (profiles db)));
    [intros H; injection H as <- <-; discriminate|].
  intros H; injection H as <- <-. intros _.
  split; [reflexivity|]. eexists. split; [reflexivity|].
  split; reflexivity.
Qed.

(** X13. Sending and then deleting is a round trip: the sender of a
    message that was just stored can delete it, and the database is then
    exactly what it was before the message was sent. *)
Theorem messages_post_then_delete_restores (now : Z) (newId userId : string)
  (body : MessageBody.t) (db db1 : DB) (r : Response) :
  messages_post now newId userId body db = (r, db1) ->
  status r = 201 ->
  messages_delete userId newId db1 = (Ok 200 tt, db).
Proof.
  intros H H201.
  destruct (messages_post_201 _ _ _ _ _ _ _ H H201)
    as (Hfresh & m & -> & Hid & Hs).
  unfold messages_delete, message_findUnique. cbn [messages set_messages].
  rewrite (find_app_new Message.id newId _ m Hfresh Hid).
  rewrite Hs, String.eqb_refl. cbn [negb].
  rewrite (filter_fresh_id _ _ _ Hfresh Hid).
  destruct db; reflexivity.
Qed.

Lemma messages_post_then_delete_restores_witness :
  messages_delete "u1" "m3"
    (snd (messages_post 4000 "m3" "u1"
            (MessageBody.mk (Some "d1") (Some fiveLetters) None)
            dbConversation))
  = (Ok 200 tt, dbConversation).
Proof.
  exact (messages_post_then_delete_restores 4000 "m3" "u1"
           (MessageBody.mk (Some "d1") (Some fiveLetters) None)
           dbConversation _ _ (surjective_pairing _) eq_refl).
Defined.

(** X14. On a dream that has an interpreter, the thread is given to the
    dreamer, the interpreter, admins and super_admins and to nobody else;
    what they receive is exactly the dream's messages (each once, none of
    another dream), oldest first, and reading changes nothing. *)
Theorem messages_get_thread_oldest_first (userId dreamId interp : string)
  (dream : Dream.t) (db : DB) :
  dreamId <> "" ->
  dream_findUnique db dreamId = Some dream ->
  Dream.interpreterId dream = Some interp ->
  interp <> "" ->
  if String.eqb (Dream.dreamerId dream) userId
     || String.eqb interp userId
     || roleIs (profile_findUnique db userId) admin
     || roleIs (profile_findUnique db userId) super_admin
  then
    exists l,
      messages_get userId (Some dreamId) db
      = (mkResponse 200 (MessagesJson l), db)
      /\ ascending Message.createdAt l
      /\ Permutation l
           (filter (fun m => String.eqb (Message.dreamId m) dreamId)
                   (messages db))
      /\ (forall m, In m l <->
                    In m (messages db) /\ Message.dreamId m = dreamId)
  else
    messages_get userId (Some dreamId) db
    = (mkResponse 403 (Error "Forbidden" None), db).
Proof.
  intros Hd Hf Hi Hne. unfold messages_get.
  rewrite (truthy_string_Some _ Hd). cbn [negb]. rewrite Hf, Hi.
  cbn [isUser].
  destruct (String.eqb (Dream.dreamerId dream) userId
            || String.eqb interp userId
            || roleIs (profile_findUnique db userId) admin
            || roleIs (profile_findUnique db userId) super_admin);
    cbn [negb]; [|reflexivity].
  rewrite (truthy_string_Some _ Hne). cbn [negb andb].
  eexists. split; [reflexivity|].
  split; [apply orderByAsc_ascending|].
  split; [apply orderByAsc_Permutation|].
  intros m. split.
  - intros H.
    apply (Permutation_in _ (orderByAsc_Permutation _ _)) in H.
    apply filter_In in H. destruct H as [Hin He].
    split; [exact Hin|]. apply String.eqb_eq. exact He.
  - intros [Hin He].
    apply (Permutation_in _ (Permutation_sym (orderByAsc_Permutation _ _))).
    apply filter_In. split; [exact Hin|]. apply String.eqb_eq. exact He.
Qed.

Lemma messages_get_thread_oldest_first_witness :
  (exists l,
     messages_get "u1" (Some "d1") dbConversation
     = (mkResponse 200 (MessagesJson l), dbConversation)
     /\ ascending Message.createdAt l
     /\ List.length l = 2%nat)
  /\ messages_get "u2" (Some "d1") dbConversation
     = (mkResponse 403 (Error "Forbidden" None), dbConversation).
Proof.
  split.
  - destruct (messages_get_thread_oldest_first "u1" "d1" "i1" _
                dbConversation ltac:(discriminate) eq_refl eq_refl
                ltac:(discriminate)) as (l & Hl & Hs & Hp & _).
    exists l. split; [exact Hl|]. split; [exact Hs|].
    exact (Permutation_length Hp).
  - exact (messages_get_thread_oldest_first "u2" "d1" "i1" _
             dbConversation ltac:(discriminate) eq_refl eq_refl
             ltac:(discriminate)).
Defined.

(** *** Comments *)

(** X15. Any authenticated user who has a profile can comment on any
    existing dream -- the handler checks neither ownership nor
    assignment -- and the comment is then listed, with the earlier
    comments of that dream, newest first; the lists of all other dreams
    are unchanged.  A comment on a dream that does not exist is answered
    500 and stores nothing. *)
Theorem comments_post_then_get (now : Z) (newId userId dreamId : string)
  (content : JsString) (db : DB) :
  dreamId <> "" ->
  content <> [] ->
  existsb_id Profile.id userId (profiles db) = true ->
  existsb_id Comment.id newId (comments db) = false ->
  let c := Comment.mk newId dreamId userId content now in
  if existsb_id Dream.id dreamId (dreams db)
  then
    exists db',
      comments_post now newId userId (Some dreamId) (Some content) db
      = (mkResponse 201 (CommentJson c), db')
      /\ (exists l,
            comments_get (Some dreamId) db'
            = (mkResponse 200 (CommentsJson l), db')
            /\ descending Comment.createdAt l
            /\ Permutation l
                 (c :: filter
                         (fun x => String.eqb (Comment.dreamId x) dreamId)
                         (comments db)))
      /\ (forall other, other <> dreamId ->
            fst (comments_get (Some other) db')
            = fst (comments_get (Some other) db))
  else
    comments_post now newId userId (Some dreamId) (Some content) db
    = (mkResponse 500 (Error "Failed to create comment" None), db).
Proof.
  intros Hd Hc Hp Hn c. unfold comments_post.
  rewrite (truthy_string_Some _ Hd).
  destruct content as [|u content]; [contradiction|].
  cbn [truthy_jsstring negb orb].
  unfold await, transaction, comment_create.
  cbn [Comment.id Comment.dreamId Comment.userId].
  rewrite Hn, Hp.
  destruct (existsb_id Dream.id dreamId (dreams db)); cbn [negb];
    [|reflexivity].
  eexists. split; [reflexivity|]. split.
  - unfold comments_get. rewrite (truthy_string_Some _ Hd). cbn [negb].
    eexists. split; [reflexivity|].
    split; [apply orderByDesc_descending|].
    etransitivity; [apply orderByDesc_Permutation|].
    cbn [comments]. rewrite filter_app. simpl filter at 2.
    cbn [Comment.dreamId]. rewrite String.eqb_refl.
    apply Permutation_sym, Permutation_cons_append.
  - intros other Ho. unfold comments_get.
    destruct (negb (truthy_string (Some other))); [reflexivity|].
    cbn [fst comments]. rewrite filter_app. simpl filter at 2.
    cbn [Comment.dreamId].
    destruct (String.eqb dreamId other) eqn:E.
    { apply String.eqb_eq in E. congruence. }
    rewrite app_nil_r. reflexivity.
Qed.

Lemma comments_post_then_get_witness :
  exists db',
    comments_post 1300 "c2" "u1" (Some "d1") (Some fiveLetters) dbCommented
    = (mkResponse 201
         (CommentJson (Comment.mk "c2" "d1" "u1" fiveLetters 1300)), db')
    /\ exists l,
         comments_get (Some "d1") db' = (mkResponse 200 (CommentsJson l), db')
         /\ List.length l = 2%nat.
Proof.
  destruct (comments_post_then_get 1300 "c2" "u1" "d1" fiveLetters
              dbCommented ltac:(discriminate) ltac:(discriminate)
              eq_refl eq_refl) as (db' & Hpost & (l & Hget & _ & Hperm) & _).
  exists db'. split; [exact Hpost|].
  exists l. split; [exact Hget|].
  exact (Permutation_length Hperm).
Defined.

(** *** Registration and login *)

Lemma userPlan_create_users (s x : UserPlan.t) (db db' : DB) :
  userPlan_create s db = Some (x, db') -> users db' = users db.
Proof.
  unfold userPlan_create.
  repeat lazymatch goal with
  | |- (if ?c then _ else _) = _ -> _ => destruct c; [discriminate|]
  end.
  intros H; injection H as _ <-. reflexivity.
Qed.

Lemma userPlan_create_profiles (s x : UserPlan.t) (db db' : DB) :
  userPlan_create s db = Some (x, db') -> profiles db' = profiles db.
Proof.
  unfold userPlan_create.
  repeat lazymatch goal with
  | |- (if ?c then _ else _) = _ -> _ => destruct c; [discriminate|]
  end.
  intros H; injection H as _ <-. reflexivity.
Qed.

Lemma truthy_string_inv (o : option string) :
  truthy_string o = true -> exists s, o = Some s /\ s <> "".
Proof.
  destruct o as [s|]; [|discriminate]. simpl. intros H. exists s.
  split; [reflexivity|]. intros ->. discriminate.
Qed.

(** What a committed registration has written. *)
Lemma registerTx_Some (LocalTZA : TimeZone) (now : Z)
  (newUserId newUserPlanId email hashedPassword fullName : string)
  (role : Role) (db db1 : DB) (u : User.t) (p : Profile.t) :
  registerTx LocalTZA now newUserId newUserPlanId email hashedPassword
    fullName role db = Some ((u, p), db1) ->
  u = User.mk newUserId email hashedPassword
  /\ p = Profile.mk newUserId email fullName role None
  /\ users db1 = users db ++ [u]
  /\ profiles db1 = profiles db ++ [p]
  /\ existsb_id User.id newUserId (users db) = false
  /\ existsb_id User.email email (users db) = false
  /\ existsb_id Profile.id newUserId (profiles db) = false.
Proof.
  unfold registerTx, bind, deref, throw, ret, user_create.
  cbn [User.id User.email].
  destruct (existsb_id User.id newUserId (users db)) eqn:Hui; [discriminate|].
  destruct (existsb_id User.email email (users db)) eqn:Hue; [discriminate|].
  cbv beta iota. unfold profile_create.
  cbn [Profile.id Profile.email User.id User.email users profiles set_users].
  destruct (existsb_id Profile.id newUserId (profiles db)) eqn:Hpi;
    [discriminate|].
  destruct (existsb_id Profile.email email (profiles db)); [discriminate|].
  destruct (negb (existsb_id User.id newUserId _)); [discriminate|].
  cbv beta iota.
  set (db2 := set_profiles (set_users db _) _).
  assert (H2 : users db2 = users db ++ [User.mk newUserId email hashedPassword]
               /\ profiles db2
                  = profiles db
                    ++ [Profile.mk newUserId email fullName role None])
    by (split; reflexivity).
  destruct H2 as [Hu2 Hp2]. clearbody db2.
  intros H.
  assert (Hdone : u = User.mk newUserId email hashedPassword
                  /\ p = Profile.mk newUserId email fullName role None
                  /\ users db1 = users db2 /\ profiles db1 = profiles db2).
  { revert H.
    destruct role; try (intros H; injection H as <- <- <-; auto).
    destruct (plan_findFirst_trial db2) as [plan|];
      [|intros H; injection H as <- <- <-; auto].
    destruct (trialDays (Some plan)) as [days|];
      [|intros H; injection H as <- <- <-; auto].
    destruct (addDays LocalTZA now (IFin days)) as [expiresAt|];
      [|discriminate].
    cbv beta iota.
    destruct (userPlan_create _ db2) as [[x db3]|] eqn:Ec; [|discriminate].
    intros H; injection H as <- <- <-.
    rewrite (userPlan_create_users _ _ _ _ Ec),
      (userPlan_create_profiles _ _ _ _ Ec). auto. }
  destruct Hdone as (-> & -> & Hu1 & Hp1).
  rewrite Hu1, Hp1, Hu2, Hp2. auto 10.
Qed.

(** What an answer 201 of [POST /auth/register] tells. *)
Lemma auth_register_201 (LocalTZA : TimeZone) (now : Z)
  (newUserId newUserPlanId hashedPassword : string) (body : RegisterBody.t)
  (db db' : DB) (r : Response) :
  auth_register LocalTZA now newUserId newUserPlanId hashedPassword body db
  = (r, db') ->
  status r = 201 ->
  exists email password fullName role,
    (RegisterBody.email body = Some email /\ email <> "")
    /\ (RegisterBody.password body = Some password /\ password <> "")
    /\ (RegisterBody.fullName body = Some fullName /\ fullName <> "")
    /\ selfServiceRole (match RegisterBody.role body with
                        | Some x => x
                        | None => "dreamer"
                        end) = Some role
    /\ user_findUnique_email db email = None
    /\ r = mkResponse 201
             (RegisteredJson (User.mk newUserId email hashedPassword)
                (Profile.mk newUserId email fullName role None))
    /\ users db' = users db ++ [User.mk newUserId email hashedPassword]
    /\ profiles db'
       = profiles db ++ [Profile.mk newUserId email fullName role None]
    /\ existsb_id Profile.id newUserId (profiles db) = false.
Proof.
  unfold auth_register.
  destruct (negb (truthy_string (RegisterBody.email body))
            || negb (truthy_string (RegisterBody.password body))
            || negb (truthy_string (RegisterBody.fullName body))) eqn:Ev.
  { intros H; injection H as <- <-. discriminate. }
  apply orb_false_iff in Ev. destruct Ev as [Ev Evn].
  apply orb_false_iff in Ev. destruct Ev as [Eve Evp].
  apply negb_false_iff, truthy_string_inv in Eve, Evp, Evn.
  destruct Eve as (email & -> & He). destruct Evp as (password & -> & Hp).
  destruct Evn as (fullName & -> & Hn).
  destruct (selfServiceRole _) as [role|] eqn:Hrole.
  2:{ intros H; injection H as <- <-. discriminate. }
  destruct (user_findUnique_email db email) eqn:Ef.
  { intros H; injection H as <- <-. discriminate. }
  unfold transaction.
  destruct (registerTx _ _ _ _ _ _ _ _ db) as [[[u p] db1]|] eqn:Er.
  2:{ intros H; injection H as <- <-. discriminate. }
  intros H; injection H as <- <-. intros _.
  apply registerTx_Some in Er.
  destruct Er as (-> & -> & Hu & Hpr & _ & _ & Hpi).
  exists email, password, fullName, role. auto 12.
Qed.

Section LoginExtra.

Variable verifyPassword : string -> string -> bool.
Variable generateToken : JWTPayload.t -> string.

(** X16. Registration and login fit together.  When a registration is
    answered 201, its body gave an unused email, a password and a name,
    and: before it a login with that email was refused; after it the
    registered password (one the digest verifies) logs in and yields a
    token for the new user's id, email and role; and a password the
    digest does not verify gets exactly the answer an unknown email
    gets. *)
Theorem register_then_login (LocalTZA : TimeZone) (now : Z)
  (newUserId newUserPlanId hashedPassword : string) (body : RegisterBody.t)
  (db db' : DB) (r : Response) :
  auth_register LocalTZA now newUserId newUserPlanId hashedPassword body db
  = (r, db') ->
  status r = 201 ->
  exists email password fullName role,
    RegisterBody.email body = Some email
    /\ RegisterBody.password body = Some password
    /\ RegisterBody.fullName body = Some fullName
    /\ selfServiceRole (match RegisterBody.role body with
                        | Some x => x
                        | None => "dreamer"
                        end) = Some role
    /\ let user := User.mk newUserId email hashedPassword in
       let profile := Profile.mk newUserId email fullName role None in
       let login := auth_login verifyPassword generateToken in
       r = mkResponse 201 (RegisteredJson user profile)
       /\ login (LoginBody.mk (Some email) (Some password)) db
          = Fail 401 "Invalid email or password" None
       /\ (verifyPassword password hashedPassword = true ->
           login (LoginBody.mk (Some email) (Some password)) db'
           = Ok 200
                (generateToken
                   (JWTPayload.mk newUserId email (roleString role)),
                 user, profile))
       /\ (forall wrong, wrong <> "" ->
             verifyPassword wrong hashedPassword = false ->
             login (LoginBody.mk (Some email) (Some wrong)) db'
             = Fail 401 "Invalid email or password" None
             /\ login (LoginBody.mk (Some email) (Some wrong)) db
                = Fail 401 "Invalid email or password" None).
Proof.
  intros Hreg H201.
  destruct (auth_register_201 _ _ _ _ _ _ _ _ _ Hreg H201)
    as (email & password & fullName & role & [Hbe He] & [Hbp Hp] & [Hbn Hn]
        & Hrole & Hue & -> & Hu & Hpr & Hpi).
  exists email, password, fullName, role.
  repeat (split; [assumption|]).
  intros user profile login.
  assert (Hfu : user_findUnique_email db' email = Some user).
  { unfold user_findUnique_email. rewrite Hu.
    apply find_app_new; [|reflexivity].
    apply find_None_existsb_id. exact Hue. }
  assert (Hfp : profile_findUnique db' newUserId = Some profile).
  { unfold profile_findUnique. rewrite Hpr.
    apply find_app_new; [exact Hpi|reflexivity]. }
  split; [reflexivity|].
  unfold login, auth_login. cbn [LoginBody.email LoginBody.password].
  rewrite !truthy_string_Some by assumption. cbn [negb orb].
  rewrite Hue, Hfu. cbn [User.id User.password User.email user].
  rewrite Hfp.
  split; [reflexivity|]. split.
  - intros Hv. rewrite Hv. reflexivity.
  - intros wrong Hw Hwv. rewrite ?truthy_string_Some by assumption.
    cbn [negb orb]. rewrite Hwv. split; reflexivity.
Qed.

(** X17. An email registers once: after a successful registration every
    further registration with that email -- whatever password, name,
    allowed role or instant -- is answered 409 and writes nothing. *)
Theorem register_same_email_conflicts (LocalTZA : TimeZone) (now : Z)
  (newUserId newUserPlanId hashedPassword : string) (body : RegisterBody.t)
  (db db' : DB) (r : Response) :
  auth_register LocalTZA now newUserId newUserPlanId hashedPassword body db
  = (r, db') ->
  status r = 201 ->
  forall now2 id2 planId2 hashed2 password2 fullName2 roleName2,
    password2 <> "" -> fullName2 <> "" ->
    selfServiceRole
      (match roleName2 with Some x => x | None => "dreamer" end) <> None ->
    auth_register LocalTZA now2 id2 planId2 hashed2
      (RegisterBody.mk (RegisterBody.email body) (Some password2)
         (Some fullName2) roleName2) db'
    = (mkResponse 409 (Error "User with this email already exists" None),
       db').
Proof.
  intros Hreg H201.
  destruct (auth_register_201 _ _ _ _ _ _ _ _ _ Hreg H201)
    as (email & password & fullName & role & [Hbe He] & _ & _
        & _ & Hue & _ & Hu & _ & _).
  intros now2 id2 planId2 hashed2 password2 fullName2 roleName2 Hp2 Hn2 Hr2.
  assert (Hin : existsb_id User.email email (users db') = true).
  { rewrite Hu, existsb_id_app. cbn [User.email].
    rewrite String.eqb_refl. apply orb_true_r. }
  unfold auth_register.
  cbn [RegisterBody.email RegisterBody.password RegisterBody.fullName
       RegisterBody.role].
  rewrite Hbe, !truthy_string_Some by assumption. cbn [negb orb].
  destruct (selfServiceRole _); [|contradiction].
  destruct (user_findUnique_email db' email) eqn:E2; [reflexivity|].
  apply find_None_existsb_id in E2. congruence.
Qed.

End LoginExtra.

Lemma register_then_login_witness :
  let db' := snd (auth_register utcZone 1000 "u9" "s9" "hash:secret"
                    registerDreamer dbOneTrial) in
  auth_login verifyPassword_sample generateToken_sample
    (LoginBody.mk (Some "new@example.com") (Some "secret")) dbOneTrial
  = Fail 401 "Invalid email or password" None
  /\ auth_login verifyPassword_sample generateToken_sample
       (LoginBody.mk (Some "new@example.com") (Some "secret")) db'
     = Ok 200
          ("jwt:u9:dreamer",
           User.mk "u9" "new@example.com" "hash:secret",
           Profile.mk "u9" "new@example.com" "New Dreamer" dreamer None).
Proof.
  intros db'.
  destruct (register_then_login verifyPassword_sample generateToken_sample
              utcZone 1000 "u9" "s9" "hash:secret" registerDreamer
              dbOneTrial db' _ (surjective_pairing _) eq_refl)
    as (email & password & fullName & role & He & Hp & Hn & Hr & _
        & Hbefore & Hafter & _).
  injection He as <-. injection Hp as <-. injection Hn as <-.
  injection Hr as <-.
  split; [exact Hbefore|exact (Hafter eq_refl)].
Defined.

Lemma register_same_email_conflicts_witness :
  status
    (fst (auth_register utcZone 2000 "u10" "s10" "hash:other"
            (RegisterBody.mk (Some "new@example.com") (Some "other")
               (Some "Someone Else") None)
            (snd (auth_register utcZone 1000 "u9" "s9" "hash:secret"
                    registerDreamer dbOneTrial))))
  = 409.
Proof.
  exact (f_equal (fun x => status (fst x))
           (register_same_email_conflicts utcZone 1000 "u9" "s9"
              "hash:secret" registerDreamer dbOneTrial _ _
              (surjective_pairing _) eq_refl
              2000 "u10" "s10" "hash:other" "other" "Someone Else" None
              ltac:(discriminate) ltac:(discriminate) ltac:(discriminate))).
Defined.

(** *** Subscribing without checkout *)

(** X18. [POST /plans/subscribe] asks for no payment session and does not
    look at [isActive]: for every existing plan -- a withdrawn one
    included, which [create-checkout-session] refuses with 400 -- whose
    [durationDays] days after the request are a valid date, a first
    subscription is created active, with zero usage and that date as
    expiry ([setDate]: the same local time [durationDays] calendar days
    later), the profile is pointed at the plan, and a payment of the
    plan's price is booked as succeeded with provider [manual].  When
    that date is not valid the answer is 500 and nothing is written. *)
Theorem subscribe_needs_no_checkout (LocalTZA : TimeZone) (now : Z)
  (newPaymentId newUserPlanId userId planId : string) (db : DB)
  (plan : Plan.t) (profile : Profile.t) :
  planId <> "" ->
  plan_findUnique db planId = Some plan ->
  userPlan_findUnique_userId_planId db userId planId = None ->
  profile_findUnique db userId = Some profile ->
  existsb_id Payment.id newPaymentId (payments db) = false ->
  existsb_id UserPlan.id newUserPlanId (userPlans db) = false ->
  match addDays LocalTZA now (IFin (Plan.durationDays plan)) with
  | Some expiresAt =>
      let s := UserPlan.mk newUserPlanId userId planId now (Some expiresAt)
                 true 0 0 in
      expiresAt
      = UTC LocalTZA
          (LocalTime LocalTZA now + Plan.durationDays plan * msPerDay)
      /\ exists db',
          plans_subscribe LocalTZA now newPaymentId newUserPlanId userId
            (Some planId) db
          = (mkResponse 200 (SubscriptionJson s), db')
          /\ userPlans db' = userPlans db ++ [s]
          /\ payments db'
             = payments db
               ++ [Payment.mk newPaymentId userId (Some planId)
                     (Plan.price plan) (Plan.currency plan) succeeded
                     (Some "manual")
                     (Some ("SUB-" ++ Z_toString now)%string) None]
          /\ (exists p, profile_findUnique db' userId = Some p
                        /\ Profile.currentPlanId p = Some planId)
  | None =>
      plans_subscribe LocalTZA now newPaymentId newUserPlanId userId
        (Some planId) db
      = (mkResponse 500 (Error "Failed to subscribe to plan" None), db)
      /\ maxTime
         < Z.abs (UTC LocalTZA
                    (LocalTime LocalTZA now
                     + Plan.durationDays plan * msPerDay))
  end
  /\ (Plan.isActive plan = false ->
      forall sessionsCreate,
        payments_create_checkout_session sessionsCreate true userId
          (Some planId) db
        = Fail 400 "This plan is not available" None).
Proof.
  intros Hne Hplan Hs Hprof Hfresh Hsid.
  pose proof (find_some _ _ Hprof) as [_ Hpid]. apply String.eqb_eq in Hpid.
  assert (Hplan_ex : existsb_id Plan.id planId (plans db) = true)
    by (apply (find_existsb_id _ _ _ _ Hplan)).
  assert (Hprof_ex : existsb_id Profile.id userId (profiles db) = true)
    by (apply (find_existsb_id _ _ _ _ Hprof)).
  split.
  2:{ intros Hinactive sessionsCreate.
      unfold payments_create_checkout_session.
      rewrite (truthy_string_Some _ Hne). cbn [negb].
      rewrite Hplan, Hinactive. reflexivity. }
  destruct (addDays LocalTZA now (IFin (Plan.durationDays plan)))
    as [expiresAt|] eqn:Ed.
  2:{ split.
      - unfold plans_subscribe.
        rewrite (truthy_string_Some _ Hne). cbn [negb]. rewrite Hplan.
        cbv zeta. rewrite Ed. reflexivity.
      - unfold addDays, TimeClip in Ed. unfold maxTime.
        destruct (Z.abs _ <=? 8640000000000000) eqn:E; [discriminate|].
        apply Z.leb_gt in E. exact E. }
  intros s. split.
  { unfold addDays, TimeClip in Ed.
    destruct (Z.abs _ <=? 8640000000000000); [|discriminate].
    injection Ed as <-. reflexivity. }
  set (p' := Profile.mk (Profile.id profile) (Profile.email profile)
               (Profile.fullName profile) (Profile.role profile)
               (Some planId)).
  set (pay := Payment.mk newPaymentId userId (Some planId) (Plan.price plan)
                (Plan.currency plan) succeeded (Some "manual")
                (Some ("SUB-" ++ Z_toString now)%string) None).
  exists (set_payments
            (set_profiles
               (set_userPlans db (userPlans db ++ [s]))
               (replace_row Profile.id userId p' (profiles db)))
            (payments db ++ [pay])).
  split; [|split; [|split]].
  - unfold plans_subscribe.
    rewrite (truthy_string_Some _ Hne). cbn [negb]. rewrite Hplan.
    cbv zeta. rewrite Ed.
    unfold transaction, subscribeTx, bind, deref, ret, userPlan_upsert.
    cbv beta iota.
    rewrite Hs. unfold userPlan_create.
    cbn [UserPlan.id UserPlan.userId UserPlan.planId].
    rewrite Hsid, Hs, Hprof_ex, Hplan_ex. cbn [negb].
    unfold profile_update_currentPlanId.
    change (profile_findUnique (set_userPlans db ?l) userId)
      with (profile_findUnique db userId).
    rewrite Hprof. cbn [plans set_userPlans]. rewrite Hplan_ex. cbn [negb].
    unfold payment_create.
    cbn [Payment.id Payment.userId Payment.planId payments profiles plans
         set_profiles set_userPlans].
    rewrite Hfresh.
    rewrite (existsb_id_replace_row Profile.id userId userId p' _ Hpid).
    rewrite Hprof_ex, Hplan_ex. reflexivity.
  - reflexivity.
  - reflexivity.
  - exists p'. split; [|reflexivity].
    unfold profile_findUnique in *. simpl.
    apply (profile_find_replace_row _ _ _ _ Hprof). reflexivity.
Qed.

Lemma subscribe_needs_no_checkout_witness :
  status (fst (plans_subscribe utcZone 5000 "pay1" "s2" "u1" (Some "p2")
                 dbRetiredPlan)) = 200
  /\ payments_create_checkout_session sessionsCreate_sample true "u1"
       (Some "p2") dbRetiredPlan
     = Fail 400 "This plan is not available" None.
Proof.
  destruct (subscribe_needs_no_checkout utcZone 5000 "pay1" "s2" "u1" "p2"
              dbRetiredPlan planRetired
              (Profile.mk "u1" "u1@example.com" "Dreamer" dreamer None)
              ltac:(discriminate) eq_refl eq_refl eq_refl eq_refl eq_refl)
    as (Hrun & Hno).
  assert (Ed : addDays utcZone 5000 (IFin (Plan.durationDays planRetired))
               = Some (5000 + 90 * msPerDay)) by reflexivity.
  rewrite Ed in Hrun. destruct Hrun as (_ & db' & Hrun & _). split.
  - rewrite Hrun. reflexivity.
  - exact (Hno eq_refl sessionsCreate_sample).
Defined.

(** *** Updating and deleting dreams *)

Lemma find_replace_row_key {A : Type} (key : A -> string) (id : string)
  (row a : A) (l : list A) :
  find (fun x => String.eqb (key x) id) l = Some a ->
  key row = id ->
  find (fun x => String.eqb (key x) id) (replace_row key id row l)
  = Some row.
Proof.
  intros Hf Hk. unfold replace_row.
  induction l as [|b l IH]; simpl in *; [discriminate|].
  destruct (String.eqb (key b) id) eqn:E.
  - rewrite Hk, String.eqb_refl. reflexivity.
  - rewrite E. apply IH. exact Hf.
Qed.

Lemma filter_app_fresh {A : Type} (key : A -> string) (id : string)
  (l : list A) (a : A) :
  existsb_id key id l = false -> key a = id ->
  filter (fun x => negb (String.eqb (key x) id)) (l ++ [a]) = l.
Proof.
  intros Hf Ha. rewrite filter_app. simpl. rewrite Ha, String.eqb_refl.
  simpl. rewrite app_nil_r.
  unfold existsb_id in Hf. induction l as [|b l IH]; [reflexivity|].
  simpl in *. apply orb_false_iff in Hf. destruct Hf as [Hb Hl].
  rewrite Hb. simpl. rewrite (IH Hl). reflexivity.
Qed.

(** X19. [PATCH /dreams/:id] writes only what the requester's standing
    allows: a status or notes change needs a super_admin, the assigned
    interpreter (with role interpreter) or the owner (with role dreamer);
    an interpretation needs a super_admin or the assigned interpreter;
    assigning an interpreter needs an admin or super_admin -- so a plain
    admin can assign and nothing else.  An assignment without a status
    moves the dream to [pending_interpretation]; owner, title, texts and
    creation instant never change, and any answer other than 200 leaves
    the database as it was. *)
Theorem dreams_patch_permissions (userId id : string) (body : PatchBody.t)
  (db db' : DB) (a : Answer Dream.t) :
  dreams_patch userId id body db = (a, db') ->
  (statusOf a <> 200 /\ db' = db)
  \/ (exists dream d',
        let profile := profile_findUnique db userId in
        let assigned :=
          roleIs profile interpreter
          && isUser (Dream.interpreterId dream) userId in
        let owner :=
          roleIs profile dreamer
          && String.eqb (Dream.dreamerId dream) userId in
        dream_findUnique db id = Some dream
        /\ a = Ok 200 d'
        /\ db' = set_dreams db (replace_row Dream.id id d' (dreams db))
        /\ (truthy_string (PatchBody.status body) = true ->
            roleIs profile super_admin || assigned || owner = true)
        /\ (truthy_jsstring (PatchBody.interpretation body) = true ->
            roleIs profile super_admin || assigned = true)
        /\ (truthy_jsstring (PatchBody.notes body) = true ->
            roleIs profile super_admin || assigned || owner = true)
        /\ (truthy_string (PatchBody.interpreter_id body) = true ->
            roleIs profile admin || roleIs profile super_admin = true)
        /\ Dream.interpreterId d'
           = (if truthy_string (PatchBody.interpreter_id body)
              then PatchBody.interpreter_id body
              else Dream.interpreterId dream)
        /\ (if truthy_string (PatchBody.status body)
            then exists s, PatchBody.status body = Some s
                           /\ parseDreamStatus s = Some (Dream.status d')
            else Dream.status d'
                 = (if truthy_string (PatchBody.interpreter_id body)
                    then pending_interpretation
                    else Dream.status dream))
        /\ Dream.mk (Dream.id d') (Dream.dreamerId d')
             (Dream.interpreterId dream) (Dream.title d') (Dream.content d')
             (Dream.description d') (Dream.dreamDate d') (Dream.mood d')
             (Dream.status dream) (Dream.createdAt d')
           = dream).
Proof.
  unfold dreams_patch.
  match goal with |- _ -> ?G => set (Post := G) end.
  assert (Hleft : forall status error code,
             status <> 200 ->
             (Fail status error code : Answer Dream.t, db) = (a, db') -> Post).
  { intros st e c Hst H. injection H as <- <-. left.
    split; [exact Hst|reflexivity]. }
  destruct (dream_findUnique db id) as [dream|] eqn:Ed;
    [|apply Hleft; discriminate].
  cbv zeta.
  set (profile := profile_findUnique db userId).
  set (assigned := roleIs profile interpreter
                   && isUser (Dream.interpreterId dream) userId).
  set (owner := roleIs profile dreamer
                && String.eqb (Dream.dreamerId dream) userId).
  destruct (negb (roleIs profile super_admin || assigned || owner)
            && negb (roleIs profile admin)) eqn:E0;
    [apply Hleft; discriminate|].
  destruct (truthy_string (PatchBody.status body)
            && (negb (roleIs profile super_admin || assigned || owner)
                && negb (roleIs profile super_admin))) eqn:E1;
    [apply Hleft; discriminate|].
  destruct (truthy_jsstring (PatchBody.interpretation body)
            && (negb (roleIs profile super_admin) && negb assigned)) eqn:E2;
    [apply Hleft; discriminate|].
  destruct (truthy_jsstring (PatchBody.notes body)
            && (negb (roleIs profile super_admin || assigned || owner)
                && negb (roleIs profile super_admin))) eqn:E3;
    [apply Hleft; discriminate|].
  destruct (truthy_string (PatchBody.interpreter_id body)
            && (negb (roleIs profile admin)
                && negb (roleIs profile super_admin))) eqn:E4;
    [apply Hleft; discriminate|].
  destruct (noUpdates _); [apply Hleft; discriminate|].
  assert (P1 : truthy_string (PatchBody.status body) = true ->
               roleIs profile super_admin || assigned || owner = true).
  { intros T. rewrite T in E1.
    destruct (roleIs profile super_admin), assigned, owner;
      try reflexivity; discriminate. }
  assert (P2 : truthy_jsstring (PatchBody.interpretation body) = true ->
               roleIs profile super_admin || assigned = true).
  { intros T. rewrite T in E2.
    destruct (roleIs profile super_admin), assigned;
      try reflexivity; discriminate. }
  assert (P3 : truthy_jsstring (PatchBody.notes body) = true ->
               roleIs profile super_admin || assigned || owner = true).
  { intros T. rewrite T in E3.
    destruct (roleIs profile super_admin), assigned, owner;
      try reflexivity; discriminate. }
  assert (P4 : truthy_string (PatchBody.interpreter_id body) = true ->
               roleIs profile admin || roleIs profile super_admin = true).
  { intros T. rewrite T in E4.
    destruct (roleIs profile admin), (roleIs profile super_admin);
      try reflexivity; discriminate. }
  clear E0 E1 E2 E3 E4.
  unfold await, transaction, dream_update. rewrite Ed.
  cbn [UpdateData.status UpdateData.interpreterId].
  assert (Hright : forall d',
             Dream.interpreterId d'
             = (if truthy_string (PatchBody.interpreter_id body)
                then PatchBody.interpreter_id body
                else Dream.interpreterId dream) ->
             (if truthy_string (PatchBody.status body)
              then exists s, PatchBody.status body = Some s
                             /\ parseDreamStatus s = Some (Dream.status d')
              else Dream.status d'
                   = (if truthy_string (PatchBody.interpreter_id body)
                      then pending_interpretation
                      else Dream.status dream)) ->
             Dream.mk (Dream.id d') (Dream.dreamerId d')
               (Dream.interpreterId dream) (Dream.title d') (Dream.content d')
               (Dream.description d') (Dream.dreamDate d') (Dream.mood d')
               (Dream.status dream) (Dream.createdAt d')
             = dream ->
             (Ok 200 d',
              set_dreams db (replace_row Dream.id id d' (dreams db)))
             = (a, db') -> Post).
  { intros d' Hi Hs Hrest H. injection H as <- <-. right.
    exists dream, d'. cbv zeta. fold profile. fold assigned. fold owner.
    repeat (split; [first [reflexivity | assumption]|]). assumption. }
  clearbody Post.
  destruct (truthy_string (PatchBody.status body)) eqn:Ts.
  - destruct (PatchBody.status body) as [s|] eqn:Es; [|discriminate].
    destruct (parseDreamStatus s) as [st|] eqn:Ep;
      [|apply Hleft; discriminate].
    destruct (truthy_string (PatchBody.interpreter_id body)) eqn:Ti.
    + destruct (PatchBody.interpreter_id body) as [i|] eqn:Ei;
        [|discriminate].
      destruct (negb (existsb_id Profile.id i (profiles db)));
        [apply Hleft; discriminate|].
      apply Hright; [reflexivity| |destruct dream; reflexivity].
      exists s. split; [reflexivity|exact Ep].
    + apply Hright; [reflexivity| |destruct dream; reflexivity].
      exists s. split; [reflexivity|exact Ep].
  - destruct (truthy_string (PatchBody.interpreter_id body)) eqn:Ti.
    + destruct (PatchBody.interpreter_id body) as [i|] eqn:Ei;
        [|discriminate].
      cbn [parseDreamStatus String.eqb Ascii.eqb Bool.eqb].
      destruct (negb (existsb_id Profile.id i (profiles db)));
        [apply Hleft; discriminate|].
      apply Hright; [reflexivity|reflexivity|destruct dream; reflexivity].
    + apply Hright; [reflexivity|reflexivity|destruct dream; reflexivity].
Qed.

Lemma dreams_patch_permissions_witness :
  statusOf (fst (dreams_patch "a1" "d2"
                   (PatchBody.mk None None None (Some "i1")) dbConversation))
  = 200
  /\ statusOf (fst (dreams_patch "a1" "d2"
                      (PatchBody.mk (Some "interpreted") None None None)
                      dbConversation)) = 403.
Proof.
  split.
  - destruct (dreams_patch_permissions "a1" "d2"
                (PatchBody.mk None None None (Some "i1")) dbConversation _ _
                (surjective_pairing _)) as [[Hne _]|(dream & d' & H)].
    + exfalso. apply Hne. reflexivity.
    + cbv zeta in H. destruct H as (_ & Ha & _). rewrite Ha. reflexivity.
  - reflexivity.
Defined.

Lemma messages_post_text_201 (now : Z)
  (newId userId dreamId interp : string) (content : JsString)
  (dream : Dream.t) (db : DB) :
  dreamId <> "" -> content <> [] ->
  dream_findUnique db dreamId = Some dream ->
  Dream.interpreterId dream = Some interp -> interp <> "" ->
  Dream.dreamerId dream = userId \/ interp = userId ->
  existsb_id Message.id newId (messages db) = false ->
  existsb_id Profile.id userId (profiles db) = true ->
  status (fst (messages_post now newId userId
                 (MessageBody.mk (Some dreamId) (Some content) None) db))
  = 201.
Proof.
  intros Hd Hc Hf Hi Hne Hpart Hfresh Hprof. unfold messages_post.
  cbn [MessageBody.dream_id MessageBody.content MessageBody.audio].
  rewrite (truthy_string_Some _ Hd).
  destruct content as [|c content]; [contradiction|].
  cbn [truthy_jsstring negb andb]. rewrite Hf, Hi.
  rewrite (truthy_string_Some _ Hne). cbn [negb isUser].
  assert (Hp : negb (String.eqb (Dream.dreamerId dream) userId)
               && negb (String.eqb interp userId) = false).
  { destruct Hpart as [<- | <-]; rewrite String.eqb_refl;
      [reflexivity|apply andb_false_r]. }
  rewrite Hp. unfold await, transaction, message_create.
  cbn [Message.id Message.dreamId Message.senderId].
  rewrite Hfresh, (find_existsb_id _ _ _ _ Hf), Hprof. reflexivity.
Qed.

(** X20. Assigning an interpreter opens the conversation.  On a dream
    without interpreter the dreamer's message is refused with
    NO_INTERPRETER_ASSIGNED; once an admin or super_admin has patched the
    dream with an [interpreter_id] -- any existing profile, whatever its
    role -- the dream is [pending_interpretation] and both the dreamer
    and the assigned profile can send. *)
Theorem assignment_opens_messaging (now : Z)
  (newId requester dreamId interp : string) (content : JsString)
  (dream : Dream.t) (db : DB) :
  dreamId <> "" -> interp <> "" -> content <> [] ->
  dream_findUnique db dreamId = Some dream ->
  Dream.interpreterId dream = None ->
  roleIs (profile_findUnique db requester) admin
  || roleIs (profile_findUnique db requester) super_admin = true ->
  existsb_id Profile.id interp (profiles db) = true ->
  existsb_id Profile.id (Dream.dreamerId dream) (profiles db) = true ->
  existsb_id Message.id newId (messages db) = false ->
  let body := MessageBody.mk (Some dreamId) (Some content) None in
  exists d' db1,
    dreams_patch requester dreamId (PatchBody.mk None None None (Some interp))
      db = (Ok 200 d', db1)
    /\ Dream.interpreterId d' = Some interp
    /\ Dream.status d' = pending_interpretation
    /\ code_of (fst (messages_post now newId (Dream.dreamerId dream) body db))
       = Some "NO_INTERPRETER_ASSIGNED"
    /\ status (fst (messages_post now newId (Dream.dreamerId dream) body db1))
       = 201
    /\ status (fst (messages_post now newId interp body db1)) = 201.
Proof.
  intros Hd Hne Hc Hf Hi Hrole Hip Hdp Hfresh body.
  pose proof (find_some _ _ Hf) as [_ Hid]. apply String.eqb_eq in Hid.
  set (d' := Dream.mk (Dream.id dream) (Dream.dreamerId dream) (Some interp)
               (Dream.title dream) (Dream.content dream)
               (Dream.description dream) (Dream.dreamDate dream)
               (Dream.mood dream) pending_interpretation
               (Dream.createdAt dream)).
  set (db1 := set_dreams db (replace_row Dream.id dreamId d' (dreams db))).
  assert (Hf1 : dream_findUnique db1 dreamId = Some d').
  { unfold dream_findUnique, db1. cbn [dreams set_dreams].
    apply (find_replace_row_key Dream.id dreamId d' dream _ Hf). exact Hid. }
  exists d', db1. split; [|split; [reflexivity|split; [reflexivity|split]]].
  - unfold dreams_patch. rewrite Hf, Hi.
    cbn [PatchBody.status PatchBody.interpretation PatchBody.notes
         PatchBody.interpreter_id truthy_string truthy_jsstring isUser
         andb].
    rewrite andb_false_r, !orb_false_r.
    fold (truthy_string (Some interp)). rewrite (truthy_string_Some _ Hne).
    assert (E0 : negb
                   (roleIs (profile_findUnique db requester) super_admin
                    || roleIs (profile_findUnique db requester) dreamer
                       && String.eqb (Dream.dreamerId dream) requester)
                 && negb (roleIs (profile_findUnique db requester) admin)
                 = false).
    { destruct (roleIs (profile_findUnique db requester) super_admin);
        [reflexivity|].
      destruct (roleIs (profile_findUnique db requester) admin);
        [apply andb_false_r|discriminate]. }
    rewrite E0.
    assert (E4 : negb (roleIs (profile_findUnique db requester) admin)
                 && negb (roleIs (profile_findUnique db requester) super_admin)
                 = false).
    { destruct (roleIs (profile_findUnique db requester) admin);
        [reflexivity|].
      destruct (roleIs (profile_findUnique db requester) super_admin);
        [reflexivity|discriminate]. }
    cbn [andb]. rewrite E4.
    cbn [noUpdates UpdateData.status UpdateData.interpretation
         UpdateData.notes UpdateData.interpreterId].
    unfold await, transaction, dream_update. rewrite Hf.
    cbn [UpdateData.status UpdateData.interpreterId].
    change (parseDreamStatus "pending_interpretation")
      with (Some pending_interpretation).
    cbv iota. rewrite Hip. cbn [negb]. reflexivity.
  - unfold messages_post, body.
    cbn [MessageBody.dream_id MessageBody.content MessageBody.audio].
    rewrite (truthy_string_Some _ Hd).
    destruct content as [|c content]; [contradiction|].
    cbn [truthy_jsstring negb andb]. rewrite Hf, Hi. reflexivity.
  - split.
    + apply (messages_post_text_201 now newId (Dream.dreamerId dream) dreamId
               interp content d' db1 Hd Hc Hf1 eq_refl Hne);
        [left; reflexivity|exact Hfresh|exact Hdp].
    + apply (messages_post_text_201 now newId interp dreamId interp content
               d' db1 Hd Hc Hf1 eq_refl Hne);
        [right; reflexivity|exact Hfresh|exact Hip].
Qed.

Lemma assignment_opens_messaging_witness :
  exists d' db1,
    dreams_patch "a1" "d2" (PatchBody.mk None None None (Some "i1"))
      dbConversation = (Ok 200 d', db1)
    /\ status (fst (messages_post 4000 "m3" "u1"
                      (MessageBody.mk (Some "d2") (Some fiveLetters) None)
                      db1)) = 201.
Proof.
  destruct (assignment_opens_messaging 4000 "m3" "a1" "d2" "i1" fiveLetters
              (Dream.mk "d2" "u1" None "Another" fiveLetters fiveLetters
                 None None status_new 1100)
              dbConversation ltac:(discriminate) ltac:(discriminate)
              ltac:(discriminate) eq_refl eq_refl eq_refl eq_refl eq_refl
              eq_refl) as (d' & db1 & Hp & _ & _ & _ & Hs & _).
  exists d', db1. split; [exact Hp|exact Hs].
Defined.

(** X21. Only its dreamer can delete a dream -- an admin or super_admin
    who does not own it is refused like anyone else.  A successful delete
    removes that dream together with its messages and comments and
    nothing more: other dreams, other threads, subscriptions (with their
    usage counters), payments, plans and accounts stay as they were, and
    every refusal leaves the database untouched. *)
Theorem dreams_delete_owner_only (userId id : string) (db db' : DB)
  (a : Answer unit) :
  dreams_delete userId id db = (a, db') ->
  (statusOf a <> 200 /\ db' = db)
  \/ (a = Ok 200 tt
      /\ (exists d, dream_findUnique db id = Some d
                    /\ Dream.dreamerId d = userId)
      /\ dream_findUnique db' id = None
      /\ (forall d, In d (dreams db') <->
                    In d (dreams db) /\ Dream.id d <> id)
      /\ (forall m, In m (messages db') <->
                    In m (messages db) /\ Message.dreamId m <> id)
      /\ (forall c, In c (comments db') <->
                    In c (comments db) /\ Comment.dreamId c <> id)
      /\ userPlans db' = userPlans db
      /\ payments db' = payments db
      /\ plans db' = plans db
      /\ profiles db' = profiles db
      /\ users db' = users db).
Proof.
  assert (Hfilter : forall (A : Type) (key : A -> string) (l : list A) x,
             In x (filter (fun y => negb (String.eqb (key y) id)) l)
             <-> In x l /\ key x <> id).
  { intros A key l x. rewrite filter_In, negb_true_iff.
    split; intros [Hin Hx]; (split; [exact Hin|]).
    - intros E. rewrite E, String.eqb_refl in Hx. discriminate.
    - apply String.eqb_neq. exact Hx. }
  unfold dreams_delete.
  destruct (dream_findUnique db id) as [dream|] eqn:Ed.
  2:{ intros H; injection H as <- <-. left.
      split; [discriminate|reflexivity]. }
  destruct (String.eqb (Dream.dreamerId dream) userId) eqn:Eo; cbn [negb].
  2:{ intros H; injection H as <- <-. left.
      split; [discriminate|reflexivity]. }
  unfold await, transaction, dream_delete. rewrite Ed.
  intros H; injection H as <- <-. right.
  apply String.eqb_eq in Eo.
  split; [reflexivity|]. split; [eauto|].
  split.
  { unfold dream_findUnique. cbn [dreams].
    destruct (find _ (filter _ (dreams db))) as [x|] eqn:E; [|reflexivity].
    apply find_some in E. destruct E as [Hin Hx].
    apply filter_In in Hin. destruct Hin as [_ Hn].
    rewrite Hx in Hn. discriminate. }
  cbn [dreams messages comments userPlans payments plans profiles users].
  split; [apply Hfilter|]. split; [apply Hfilter|]. split; [apply Hfilter|].
  repeat split.
Qed.

Lemma dreams_delete_owner_only_witness :
  statusOf (fst (dreams_delete "u1" "d1" dbConversation)) = 200
  /\ messages (snd (dreams_delete "u1" "d1" dbConversation)) = []
  /\ statusOf (fst (dreams_delete "root" "d1" dbConversation)) = 403.
Proof.
  destruct (dreams_delete_owner_only "u1" "d1" dbConversation _ _
              (surjective_pairing _)) as [[Hne _]|(Ha & _)].
  - exfalso. apply Hne. reflexivity.
  - split; [rewrite Ha; reflexivity|]. split; reflexivity.
Defined.

Section DreamLifecycle.

Variable StringToNumber : string -> JSNum.
Variable newDate : JsVal -> option Z.

(** A dream is stored under an id no dream had before. *)
Lemma dreams_post_fresh (now : Z) (newId userId : string)
  (body : DreamBody.t) (db db1 : DB) (r : Response) :
  dreams_post StringToNumber newDate now newId userId body db = (r, db1) ->
  status r = 201 ->
  existsb_id Dream.id newId (dreams db) = false.
Proof.
  unfold dreams_post.
  destruct (negb (truthy_string (DreamBody.title body))
            || negb (truthy_jsstring (DreamBody.description body))).
  { intros H; injection H as <- <-. discriminate. }
  destruct (profile_findUnique db userId) as [profile|].
  2:{ intros H; injection H as <- <-. discriminate. }
  destruct (isAdminRole (Profile.role profile)); simpl negb; cbv iota.
  - unfold transaction. rewrite createDreamTx_None.
    intros H; injection H as <- <-. discriminate.
  - destruct (planChecks db now userId _ _) as [denied|s] eqn:Ep.
    + intros H; injection H as <- <-.
      apply planChecks_inl in Ep. destruct Ep as [-> | ->]; discriminate.
    + unfold transaction, createDreamTx, bind, dream_create.
      destruct (existsb_id Dream.id newId (dreams db)); [|reflexivity].
      intros H; injection H as <- <-. discriminate.
Qed.

End DreamLifecycle.

Section DreamRefund.

Variable StringToNumber : string -> JSNum.
Variable newDate : JsVal -> option Z.

(** X22. Deleting a dream gives nothing back: the dreamer can delete the
    dream just submitted, the table of dreams is then what it was before
    the submission, but [lettersUsed] of the charged subscription keeps
    the letters of the deleted description. *)
Theorem deleting_a_dream_refunds_nothing (now : Z) (newId userId : string)
  (body : DreamBody.t) (db db1 : DB) (r : Response) (sid : string) :
  NoDup (map UserPlan.id (userPlans db)) ->
  dreams_post StringToNumber newDate now newId userId body db = (r, db1) ->
  status r = 201 ->
  effectiveId db now userId = Some sid ->
  exists db2,
    dreams_delete userId newId db1 = (Ok 200 tt, db2)
    /\ dreams db2 = dreams db
    /\ lettersUsedOf db2 sid
       = lettersUsedOf db sid
         + countContentLetters (DreamBody.description body).
Proof.
  intros Hnd Hpost H201 Heff.
  pose proof (dreams_post_fresh _ _ _ _ _ _ _ _ _ Hpost H201) as Hfresh.
  destruct (dreams_post_charged StringToNumber newDate _ _ _ _ _ _ _ _ Hnd
              Hpost H201 Heff) as (Hused & _).
  apply dreams_post_inv in Hpost.
  destruct Hpost as [[Hne _]|H]; [contradiction|].
  destruct H as (profile & s & plan & s0 & s' & H). cbv zeta in H.
  destruct H as (_ & _ & _ & _ & _ & _ & _ & ->).
  set (dream := dreamOf newDate now newId userId body) in *.
  assert (Hf : dream_findUnique
                 (set_userPlans (set_dreams db (dreams db ++ [dream]))
                    (replace_row UserPlan.id (UserPlan.id s) s'
                       (userPlans db))) newId = Some dream).
  { unfold dream_findUnique. cbn [dreams set_userPlans set_dreams].
    apply find_app_new; [exact Hfresh|reflexivity]. }
  eexists. split; [|split].
  - unfold dreams_delete. rewrite Hf.
    change (Dream.dreamerId dream) with userId.
    rewrite String.eqb_refl. cbn [negb].
    unfold await, transaction, dream_delete. rewrite Hf. reflexivity.
  - cbn [dreams set_userPlans set_dreams].
    apply filter_app_fresh; [exact Hfresh|reflexivity].
  - rewrite <- Hused. reflexivity.
Qed.

End DreamRefund.

Lemma deleting_a_dream_refunds_nothing_witness :
  exists db2,
    dreams_delete "u1" "d1"
      (snd (dreams_post StringToNumber_digits newDate_timeValue 2000 "d1"
              "u1" (dreamBody sevenLetters JUndefined) dbSubscribed))
    = (Ok 200 tt, db2)
    /\ dreams db2 = []
    /\ lettersUsedOf db2 "s1" = 7.
Proof.
  assert (Hnd : NoDup (map UserPlan.id (userPlans dbSubscribed))).
  { repeat constructor. simpl. tauto. }
  destruct (deleting_a_dream_refunds_nothing StringToNumber_digits
              newDate_timeValue 2000 "d1" "u1"
              (dreamBody sevenLetters JUndefined) dbSubscribed _ _ "s1" Hnd
              (surjective_pairing _) eq_refl eq_refl)
    as (db2 & Hdel & Hd & Hl).
  exists db2. split; [exact Hdel|]. split; [exact Hd|exact Hl].
Defined.

(** *** Roles across sequences of calls *)

Lemma rolesFrom_refl (db : DB) : rolesFrom db db.
Proof. intros p Hp. right. right. exists p. auto. Qed.

Lemma rolesFrom_same (db db' : DB) :
  profiles db' = profiles db -> rolesFrom db db'.
Proof. intros E p Hp. rewrite E in Hp. right. right. exists p. auto. Qed.

Lemma rolesFrom_trans (db1 db2 db3 : DB) :
  rolesFrom db1 db2 -> rolesFrom db2 db3 -> rolesFrom db1 db3.
Proof.
  intros H12 H23 p3 Hp3.
  destruct (H23 p3 Hp3) as [E|[E|(p2 & Hp2 & E)]]; [auto|auto|].
  rewrite <- E.
  destruct (H12 p2 Hp2) as [E2|[E2|(p1 & Hp1 & E1)]]; [auto|auto|].
  right. right. exists p1. auto.
Qed.

Lemma TxRoles_ret {A : Type} (a : A) : TxRoles (ret a).
Proof.
  intros db x db' H. injection H as _ <-. apply rolesFrom_refl.
Qed.

Lemma TxRoles_throw {A : Type} : TxRoles (@throw A).
Proof. intros db x db' H. discriminate. Qed.

Lemma TxRoles_deref {A : Type} (o : option A) : TxRoles (deref o).
Proof. destruct o; [apply TxRoles_ret|apply TxRoles_throw]. Qed.

Lemma TxRoles_bind {A B : Type} (m : Tx A) (k : A -> Tx B) :
  TxRoles m -> (forall a, TxRoles (k a)) -> TxRoles (bind m k).
Proof.
  intros Hm Hk db b db' H. unfold bind in H.
  destruct (m db) as [[a db1]|] eqn:E; [|discriminate].
  apply (rolesFrom_trans _ db1); [apply (Hm _ _ _ E)|apply (Hk _ _ _ _ H)].
Qed.

Lemma transaction_roles {A : Type} (m : Tx A) (db db' : DB) (o : option A) :
  TxRoles m -> transaction m db = (o, db') -> rolesFrom db db'.
Proof.
  intros Hm. unfold transaction.
  destruct (m db) as [[a db1]|] eqn:E; intros H; injection H as _ <-.
  - apply (Hm _ _ _ E).
  - apply rolesFrom_refl.
Qed.

(** Writes that leave the table of profiles alone. *)
Ltac keeps_profiles :=
  intros db a db';
  repeat lazymatch goal with
  | |- (if ?c then _ else _) = _ -> _ => destruct c; [discriminate|]
  | |- match ?c with Some _ => _ | None => _ end = _ -> _ =>
      destruct c; [|discriminate]
  end;
  let H := fresh in
  intros H; injection H as _ <-; apply rolesFrom_same; reflexivity.

Lemma TxRoles_payment_create (p : Payment.t) : TxRoles (payment_create p).
Proof. unfold payment_create. keeps_profiles. Qed.

Lemma TxRoles_userPlan_create (s : UserPlan.t) : TxRoles (userPlan_create s).
Proof. unfold userPlan_create. keeps_profiles. Qed.

Lemma TxRoles_userPlan_update (id : string)
  (data : UserPlan.t -> option UserPlan.t) :
  TxRoles (userPlan_update id data).
Proof. unfold userPlan_update. keeps_profiles. Qed.

Lemma TxRoles_userPlan_upsert (userId planId : string) (create : UserPlan.t)
  (update : UserPlan.t -> UserPlan.t) :
  TxRoles (userPlan_upsert userId planId create update).
Proof.
  intros db a db'. unfold userPlan_upsert.
  destruct (userPlan_findUnique_userId_planId db userId planId).
  - intros H; injection H as _ <-. apply rolesFrom_same. reflexivity.
  - apply TxRoles_userPlan_create.
Qed.

Lemma TxRoles_message_create (m : Message.t) : TxRoles (message_create m).
Proof. unfold message_create. keeps_profiles. Qed.

Lemma TxRoles_comment_create (c : Comment.t) : TxRoles (comment_create c).
Proof. unfold comment_create. keeps_profiles. Qed.

Lemma TxRoles_user_create (u : User.t) : TxRoles (user_create u).
Proof. unfold user_create. keeps_profiles. Qed.

Lemma TxRoles_dream_update (id : string) (data : UpdateData.t) :
  TxRoles (dream_update id data).
Proof. unfold dream_update. keeps_profiles. Qed.

Lemma TxRoles_dream_delete (id : string) : TxRoles (dream_delete id).
Proof. unfold dream_delete. keeps_profiles. Qed.

Lemma TxRoles_dream_create (id dreamerId title : string)
  (content description : JsString) (dreamDate : option (option Z))
  (mood : option string) (createdAt : Z) :
  TxRoles (dream_create id dreamerId title content description dreamDate mood
             createdAt).
Proof.
  intros db a db'. unfold dream_create.
  destruct (existsb_id Dream.id id (dreams db)); [discriminate|].
  destruct (negb (existsb_id Profile.id dreamerId (profiles db)));
    [discriminate|].
  destruct dreamDate as [[t|]|]; try discriminate;
    intros H; injection H as _ <-; apply rolesFrom_same; reflexivity.
Qed.

Lemma In_replace_row {A : Type} (key : A -> string) (id : string)
  (row x : A) (l : list A) :
  In x (replace_row key id row l) -> x = row \/ In x l.
Proof.
  unfold replace_row. rewrite in_map_iff. intros (y & Hy & Hin).
  destruct (String.eqb (key y) id); [left; auto|right; subst; exact Hin].
Qed.

Lemma TxRoles_profile_update_currentPlanId (id planId : string) :
  TxRoles (profile_update_currentPlanId id planId).
Proof.
  intros db a db'. unfold profile_update_currentPlanId.
  destruct (profile_findUnique db id) as [p|] eqn:Ef; [|discriminate].
  destruct (negb (existsb_id Plan.id planId (plans db))); [discriminate|].
  intros H; injection H as _ <-. intros x Hx. cbn [profiles set_profiles] in Hx.
  right. right. apply In_replace_row in Hx. destruct Hx as [-> | Hx].
  - exists p. split; [apply (find_some _ _ Ef)|reflexivity].
  - exists x. auto.
Qed.

Lemma TxRoles_profile_create (p : Profile.t) :
  Profile.role p = dreamer \/ Profile.role p = interpreter ->
  TxRoles (profile_create p).
Proof.
  intros Hr db a db'. unfold profile_create.
  repeat lazymatch goal with
  | |- (if ?c then _ else _) = _ -> _ => destruct c; [discriminate|]
  end.
  intros H; injection H as _ <-. intros x Hx. cbn [profiles set_profiles] in Hx.
  apply in_app_or in Hx. destruct Hx as [Hx|[<-|[]]].
  - right. right. exists x. auto.
  - destruct Hr; auto.
Qed.

(** Promotion copies a role the requester already holds. *)
Lemma admin_make_super_admin_roles (requesterId : string)
  (userId : option string) (db : DB) :
  rolesFrom db (snd (admin_make_super_admin requesterId userId db)).
Proof.
  unfold admin_make_super_admin.
  destruct (negb (truthy_string userId)); [apply rolesFrom_refl|].
  destruct (ensureRole db requesterId [super_admin]) eqn:Eq; cbn [negb];
    [|apply rolesFrom_refl].
  unfold await, transaction, profile_update_role.
  destruct (profile_findUnique db _) as [p|]; [|apply rolesFrom_refl].
  cbn [snd]. intros x Hx. cbn [profiles set_profiles] in Hx.
  right. right. apply In_replace_row in Hx. destruct Hx as [-> | Hx].
  - unfold ensureRole in Eq.
    destruct (profile_findUnique db requesterId) as [q|] eqn:Ef;
      [|discriminate].
    exists q. split; [apply (find_some _ _ Ef)|].
    cbn [Profile.role]. cbn [existsb] in Eq.
    destruct (Profile.role q); try discriminate. reflexivity.
  - exists x. auto.
Qed.

Ltac tx_roles :=
  repeat first
    [ apply TxRoles_ret | apply TxRoles_throw | apply TxRoles_deref
    | apply TxRoles_payment_create | apply TxRoles_userPlan_create
    | apply TxRoles_userPlan_update | apply TxRoles_userPlan_upsert
    | apply TxRoles_message_create | apply TxRoles_comment_create
    | apply TxRoles_user_create | apply TxRoles_dream_update
    | apply TxRoles_dream_delete | apply TxRoles_dream_create
    | apply TxRoles_profile_update_currentPlanId
    | apply TxRoles_bind; [|intros ?] ].

Lemma TxRoles_createDreamTx (newDate : JsVal -> option Z) (now : Z)
  (newId userId : string) (body : DreamBody.t)
  (subscription : option UserPlan.t) (letterCount : Z)
  (audioMinutesRequested : IntNum) :
  TxRoles (createDreamTx newDate now newId userId body subscription
             letterCount audioMinutesRequested).
Proof. unfold createDreamTx. tx_roles. Qed.

Lemma TxRoles_subscribeTx (now : Z)
  (newPaymentId newUserPlanId userId planId : string) (plan : Plan.t)
  (expiresAt : option Z) :
  TxRoles (subscribeTx now newPaymentId newUserPlanId userId planId plan
             expiresAt).
Proof. unfold subscribeTx. tx_roles. Qed.

Lemma TxRoles_checkoutCompletedTx (LocalTZA : TimeZone) (now : Z)
  (newPaymentId newUserPlanId : string) (session : Session.t) :
  TxRoles (checkoutCompletedTx LocalTZA now newPaymentId newUserPlanId
             session).
Proof. unfold checkoutCompletedTx. tx_roles. Qed.

Lemma TxRoles_registerTx (LocalTZA : TimeZone) (now : Z)
  (newUserId newUserPlanId email hashedPassword fullName : string)
  (role : Role) :
  role = dreamer \/ role = interpreter ->
  TxRoles (registerTx LocalTZA now newUserId newUserPlanId email
             hashedPassword fullName role).
Proof.
  intros Hr. unfold registerTx.
  apply TxRoles_bind; [apply TxRoles_user_create|intros createdUser].
  apply TxRoles_bind; [apply TxRoles_profile_create; exact Hr|].
  intros createdProfile.
  apply TxRoles_bind; [|intros ?; apply TxRoles_ret].
  destruct role; try apply TxRoles_ret.
  intros db a db'.
  destruct (plan_findFirst_trial db) as [plan|]; [|apply TxRoles_ret].
  destruct (trialDays (Some plan)) as [days|]; [|apply TxRoles_ret].
  revert db a db'. fold (TxRoles (A:=unit)). tx_roles.
Qed.

Ltac handler_roles :=
  repeat lazymatch goal with
  | |- rolesFrom ?db ?db => apply rolesFrom_refl
  | |- rolesFrom _ (snd (_, _)) => cbn [snd]
  | |- rolesFrom _ (snd (if ?c then _ else _)) => destruct c
  | |- rolesFrom _ (snd (match ?c with Some _ => _ | None => _ end)) =>
      destruct c
  | |- rolesFrom _ (snd (match ?c with inl _ => _ | inr _ => _ end)) =>
      destruct c
  | |- rolesFrom _ (snd ?t) =>
      lazymatch t with
      | context [transaction ?m ?d] =>
          let E := fresh "E" in
          destruct (transaction m d) as [[?|] ?] eqn:E; cbn [snd];
          refine (transaction_roles _ _ _ _ _ E);
          solve [ apply TxRoles_createDreamTx | apply TxRoles_subscribeTx
                | apply TxRoles_checkoutCompletedTx | tx_roles ]
      end
  end.

Section ApiRoles.

Variable StringToNumber : string -> JSNum.
Variable newDate : JsVal -> option Z.
Variable constructEvent : Payload -> string -> StripeEvent.t + string.
Variable LocalTZA : TimeZone.

Lemma run_roles (c : ApiCall) (db : DB) :
  rolesFrom db (run StringToNumber newDate constructEvent LocalTZA c db).
Proof.
  destruct c; cbn [run].
  - unfold dreams_post. cbv zeta. handler_roles.
  - unfold dreams_patch, await. cbv zeta. handler_roles.
  - unfold dreams_delete, await. handler_roles.
  - unfold messages_post, await. cbv zeta. handler_roles.
  - unfold messages_delete. handler_roles.
    apply rolesFrom_same. reflexivity.
  - unfold comments_post, await. handler_roles.
  - unfold auth_register. cbv zeta.
    lazymatch goal with
    | |- rolesFrom _ (snd (if ?c then _ else _)) =>
        destruct c; [apply rolesFrom_refl|]
    end.
    destruct (selfServiceRole _) as [role|] eqn:Er; [|apply rolesFrom_refl].
    destruct (user_findUnique_email db _); [apply rolesFrom_refl|].
    destruct (transaction _ db) as [[[u p]|] db'] eqn:E; cbn [snd];
      refine (transaction_roles _ _ _ _ _ E); apply TxRoles_registerTx;
      unfold selfServiceRole in Er;
      repeat lazymatch type of Er with
      | (if ?c then _ else _) = _ => destruct c
      end; try discriminate; injection Er as <-; auto.
  - unfold plans_subscribe. cbv zeta. handler_roles.
  - unfold payments_webhook, handleEvent. handler_roles.
  - apply admin_make_super_admin_roles.
Qed.

End ApiRoles.

Lemma find_replace_row_key_other {A : Type} (key : A -> string)
  (id other : string) (row : A) (l : list A) :
  key row = id -> other <> id ->
  find (fun x => String.eqb (key x) other) (replace_row key id row l)
  = find (fun x => String.eqb (key x) other) l.
Proof.
  intros Hk Hne. unfold replace_row.
  induction l as [|b l IH]; simpl; [reflexivity|].
  destruct (String.eqb (key b) id) eqn:E.
  - apply String.eqb_eq in E.
    assert (E1 : String.eqb (key row) other = false).
    { apply String.eqb_neq. congruence. }
    assert (E2 : String.eqb (key b) other = false).
    { apply String.eqb_neq. congruence. }
    rewrite E1, E2. exact IH.
  - destruct (String.eqb (key b) other); [reflexivity|exact IH].
Qed.

(** X23. [POST /admin/make-super-admin] acts on the requester's role as
    stored in the database: it changes something only when that role is
    super_admin, and then the target passes the same check from now on
    (so the promoted user can promote others) while every other profile
    is found unchanged. *)
Theorem make_super_admin_promotes (requesterId userId : string)
  (db db' : DB) (a : Answer Profile.t) :
  admin_make_super_admin requesterId (Some userId) db = (a, db') ->
  (statusOf a <> 200 /\ db' = db)
  \/ (ensureRole db requesterId [super_admin] = true
      /\ (exists p, a = Ok 200 p /\ Profile.id p = userId
                    /\ Profile.role p = super_admin)
      /\ ensureRole db' userId [super_admin] = true
      /\ forall other, other <> userId ->
           profile_findUnique db' other = profile_findUnique db other).
Proof.
  unfold admin_make_super_admin.
  destruct (negb (truthy_string (Some userId))).
  { intros H; injection H as <- <-. left.
    split; [discriminate|reflexivity]. }
  destruct (ensureRole db requesterId [super_admin]) eqn:Eq; cbn [negb].
  2:{ intros H; injection H as <- <-. left.
      split; [discriminate|reflexivity]. }
  unfold await, transaction, profile_update_role.
  destruct (profile_findUnique db userId) as [p|] eqn:Ef.
  2:{ intros H; injection H as <- <-. left.
      split; [discriminate|reflexivity]. }
  intros H; injection H as <- <-. right.
  pose proof (find_some _ _ Ef) as [_ Hid]. apply String.eqb_eq in Hid.
  split; [reflexivity|]. split; [eexists; split; [reflexivity|auto]|].
  split.
  - unfold ensureRole, profile_findUnique. cbn [profiles set_profiles].
    rewrite (find_replace_row_key Profile.id userId
               (Profile.mk (Profile.id p) (Profile.email p)
                  (Profile.fullName p) super_admin (Profile.currentPlanId p))
               p _ Ef Hid).
    reflexivity.
  - intros other Hne. unfold profile_findUnique.
    cbn [profiles set_profiles].
    apply find_replace_row_key_other; [exact Hid|exact Hne].
Qed.

Lemma make_super_admin_promotes_witness :
  ensureRole (snd (admin_make_super_admin "root" (Some "u1") dbNoSubscription))
    "u1" [super_admin] = true
  /\ statusOf (fst (admin_make_super_admin "a1" (Some "a1") dbNoSubscription))
     = 403.
Proof.
  split; [|reflexivity].
  destruct (make_super_admin_promotes "root" "u1" dbNoSubscription _ _
              (surjective_pairing _)) as [[Hne _]|(_ & _ & H & _)].
  - exfalso. apply Hne. reflexivity.
  - exact H.
Defined.

Section ApiInvariant.

Variable StringToNumber : string -> JSNum.
Variable newDate : JsVal -> option Z.
Variable constructEvent : Payload -> string -> StripeEvent.t + string.
Variable LocalTZA : TimeZone.

Lemma runAll_roles (calls : list ApiCall) (db : DB) :
  rolesFrom db
    (runAll StringToNumber newDate constructEvent LocalTZA calls db).
Proof.
  revert db. induction calls as [|c calls IH]; intros db.
  - apply rolesFrom_refl.
  - cbn [runAll fold_left].
    apply (rolesFrom_trans _
             (run StringToNumber newDate constructEvent LocalTZA c db)).
    + apply run_roles.
    + apply IH.
Qed.

(** X24. Elevated roles cannot be bootstrapped through the API.  After
    any sequence of dream, message and comment writes, registrations,
    subscriptions, webhook deliveries and make-super-admin requests,
    every profile holds the role dreamer or interpreter or a role some
    profile held before the sequence.  In particular a database without
    super_admin never gets one, and a database without admin and
    super_admin stays without both. *)
Theorem elevated_roles_cannot_be_bootstrapped (calls : list ApiCall)
  (db : DB) :
  let db' :=
    runAll StringToNumber newDate constructEvent LocalTZA calls db in
  rolesFrom db db'
  /\ (Forall (fun p => Profile.role p <> super_admin) (profiles db) ->
      Forall (fun p => Profile.role p <> super_admin) (profiles db'))
  /\ (Forall (fun p => isAdminRole (Profile.role p) = false) (profiles db) ->
      Forall (fun p => isAdminRole (Profile.role p) = false) (profiles db')).
Proof.
  cbv zeta. pose proof (runAll_roles calls db) as H.
  split; [exact H|]. split.
  - intros Hinv. apply Forall_forall. intros p' Hp'.
    destruct (H p' Hp') as [E|[E|(p & Hp & E)]];
      [rewrite E; discriminate|rewrite E; discriminate|].
    rewrite <- E. rewrite Forall_forall in Hinv. apply Hinv. exact Hp.
  - intros Hinv. apply Forall_forall. intros p' Hp'.
    destruct (H p' Hp') as [E|[E|(p & Hp & E)]];
      [rewrite E; reflexivity|rewrite E; reflexivity|].
    rewrite <- E. rewrite Forall_forall in Hinv. apply Hinv. exact Hp.
Qed.

End ApiInvariant.

Lemma elevated_roles_cannot_be_bootstrapped_witness :
  Forall (fun p => Profile.role p <> super_admin)
    (profiles
       (runAll StringToNumber_digits newDate_timeValue constructEvent_sample
          utcZone
          [Register 1000 "u9" "s9" "hash:secret" registerDreamer;
           MakeSuperAdmin "u9" (Some "u9")]
          dbOneTrial))
  /\ List.length
       (profiles
          (runAll StringToNumber_digits newDate_timeValue
             constructEvent_sample utcZone
             [Register 1000 "u9" "s9" "hash:secret" registerDreamer;
              MakeSuperAdmin "u9" (Some "u9")]
             dbOneTrial)) = 1%nat.
Proof.
  split; [|reflexivity].
  apply (proj1 (proj2 (elevated_roles_cannot_be_bootstrapped
                         StringToNumber_digits newDate_timeValue
                         constructEvent_sample utcZone
                         [Register 1000 "u9" "s9" "hash:secret"
                            registerDreamer;
                          MakeSuperAdmin "u9" (Some "u9")]
                         dbOneTrial))).
  constructor.
Defined.

(** *** Listing plans *)

Section OrderByQ.

Context {A : Type} (key : A -> Q).

Lemma insertAscQ_Permutation (a : A) (l : list A) :
  Permutation (insertAscQ key a l) (a :: l).
Proof.
  induction l as [|y l IH]; simpl; [reflexivity|].
  destruct (Qle_bool (key a) (key y)); [reflexivity|].
  rewrite IH. apply perm_swap.
Qed.

Lemma orderByAscQ_Permutation (l : list A) :
  Permutation (orderByAscQ key l) l.
Proof.
  induction l as [|a l IH]; simpl; [reflexivity|].
  rewrite insertAscQ_Permutation. constructor. exact IH.
Qed.

Lemma insertAscQ_ascending (a : A) (l : list A) :
  ascendingQ key l -> ascendingQ key (insertAscQ key a l).
Proof.
  unfold ascendingQ. induction l as [|y l IH]; intros Hs; simpl.
  - repeat constructor.
  - destruct (Qle_bool (key a) (key y)) eqn:E.
    + apply Qle_bool_iff in E. constructor; [exact Hs|].
      constructor; [exact E|].
      inversion Hs as [|? ? _ Hall]; subst.
      eapply Forall_impl; [|exact Hall]. simpl. intros x Hx.
      apply (Qle_trans _ (key y)); assumption.
    + assert (Hya : (key y <= key a)%Q).
      { destruct (Qlt_le_dec (key y) (key a)) as [Hlt|Hle].
        - apply Qlt_le_weak. exact Hlt.
        - apply Qle_bool_iff in Hle. congruence. }
      inversion Hs as [|? ? Hs' Hall]; subst.
      constructor; [apply IH; exact Hs'|].
      apply Forall_forall. intros x Hx.
      apply (Permutation_in _ (insertAscQ_Permutation a l)) in Hx.
      destruct Hx as [<-|Hx]; [exact Hya|].
      rewrite Forall_forall in Hall. apply Hall; exact Hx.
Qed.

Lemma orderByAscQ_ascending (l : list A) :
  ascendingQ key (orderByAscQ key l).
Proof.
  induction l as [|a l IH]; simpl.
  - constructor.
  - apply insertAscQ_ascending. exact IH.
Qed.

End OrderByQ.

Section PlansGetExtra.

Variable verifyToken : string -> option JWTPayload.t.

(** X25. [GET /plans] never asks for a login and always answers 200 with
    plans in ascending order of price.  Inactive plans are listed only
    when the query says [includeInactive=true] and the request carries a
    verified token whose role is admin or super_admin; in every other
    case the list is exactly the active plans. *)
Theorem plans_get_hides_inactive (req : Request.t)
  (includeInactive : option string) (db : DB) :
  exists l,
    plans_get verifyToken req includeInactive db = Ok 200 l
    /\ ascendingQ Plan.price l
    /\ (forall p, In p l -> In p (plans db))
    /\ ((includeInactive = Some "true"
         /\ exists user,
              optionalAuth verifyToken req = Some user
              /\ (JWTPayload.role user = "admin"
                  \/ JWTPayload.role user = "super_admin")) ->
        Permutation l (plans db))
    /\ (~ (includeInactive = Some "true"
           /\ exists user,
                optionalAuth verifyToken req = Some user
                /\ (JWTPayload.role user = "admin"
                    \/ JWTPayload.role user = "super_admin")) ->
        Permutation l (filter Plan.isActive (plans db))
        /\ forall p, In p l -> Plan.isActive p = true).
Proof.
  unfold plans_get. eexists. split; [reflexivity|].
  split; [apply orderByAscQ_ascending|].
  set (inc := match includeInactive with
              | Some s => String.eqb s "true"
              | None => false
              end).
  set (elev := match optionalAuth verifyToken req with
               | Some user =>
                   String.eqb (JWTPayload.role user) "admin"
                   || String.eqb (JWTPayload.role user) "super_admin"
               | None => false
               end).
  assert (Hinc : inc = true <-> includeInactive = Some "true").
  { unfold inc. destruct includeInactive as [s|].
    - rewrite String.eqb_eq. split; [intros ->; reflexivity|congruence].
    - split; discriminate. }
  assert (Helev : elev = true <->
                  exists user,
                    optionalAuth verifyToken req = Some user
                    /\ (JWTPayload.role user = "admin"
                        \/ JWTPayload.role user = "super_admin")).
  { unfold elev. destruct (optionalAuth verifyToken req) as [u|].
    - rewrite orb_true_iff, !String.eqb_eq. split.
      + intros H. exists u. auto.
      + intros (u' & E & H). injection E as <-. exact H.
    - split; [discriminate|intros (u' & E & _); discriminate]. }
  split; [|split].
  - intros p Hp.
    apply (Permutation_in _ (orderByAscQ_Permutation _ _)) in Hp.
    destruct (inc && elev); [exact Hp|].
    apply filter_In in Hp. tauto.
  - intros [Hi He]. apply Hinc in Hi. apply Helev in He.
    rewrite Hi, He. apply orderByAscQ_Permutation.
  - intros Hno.
    assert (E : inc && elev = false).
    { destruct inc eqn:Ei; [|reflexivity].
      destruct elev eqn:Ee; [|reflexivity].
      exfalso. apply Hno. split; [apply Hinc; reflexivity|].
      apply Helev. reflexivity. }
    rewrite E. split; [apply orderByAscQ_Permutation|].
    intros p Hp.
    apply (Permutation_in _ (orderByAscQ_Permutation _ _)) in Hp.
    apply filter_In in Hp. tauto.
Qed.

End PlansGetExtra.

Lemma plans_get_hides_inactive_witness :
  exists l,
    plans_get rejectAll anonymousRequest (Some "true") dbRetiredPlan
    = Ok 200 l
    /\ List.length l = 1%nat.
Proof.
  destruct (plans_get_hides_inactive rejectAll anonymousRequest (Some "true")
              dbRetiredPlan) as (l & Hl & _ & _ & _ & Hactive).
  exists l. split; [exact Hl|].
  destruct Hactive as [Hperm _].
  - intros (_ & u & Hu & _). discriminate.
  - exact (Permutation_length Hperm).
Defined.

(** *** Requests and their chat *)

(** X26. The chat of a request without interpreter is closed on both
    paths to everyone but a super_admin: reading and writing are answered
    403 and nothing is stored.  A super_admin reads the thread, oldest
    message first, and can write to it. *)
Theorem chat_gate_without_interpreter (now : Z)
  (newId userId requestId : string) (content : JsString)
  (request : RequestRow.t) (st : Store) :
  requestId <> "" -> content <> [] ->
  request_findUnique st requestId = Some request ->
  RequestRow.interpreterId request = None ->
  let body := ChatBody.mk (Some requestId) (Some content) None in
  if roleIs (profile_findUnique (base st) userId) super_admin
  then
    (exists l,
        chat_get userId (Some requestId) st = Ok 200 l
        /\ ascending ChatMessage.createdAt l
        /\ Permutation l
             (filter (fun m => String.eqb (ChatMessage.requestId m) requestId)
                     (chatMessages st)))
    /\ (existsb_id ChatMessage.id newId (chatMessages st) = false ->
        chat_post now newId userId body st
        = (Ok 200
              (ChatMessage.mk newId requestId userId content chat_text now),
           mkStore (base st) (requests st)
             (chatMessages st
              ++ [ChatMessage.mk newId requestId userId content chat_text
                    now])))
  else
    statusOf (chat_get userId (Some requestId) st) = 403
    /\ statusOf (fst (chat_post now newId userId body st)) = 403
    /\ snd (chat_post now newId userId body st) = st.
Proof.
  intros Hr Hc Hf Hi body.
  destruct (roleIs (profile_findUnique (base st) userId) super_admin) eqn:Es.
  - split.
    + unfold chat_get. rewrite (truthy_string_Some _ Hr). cbn [negb].
      rewrite Hf, Hi, Es. cbn [negb andb truthy_string].
      rewrite andb_false_r.
      eexists. split; [reflexivity|].
      split; [apply orderByAsc_ascending|apply orderByAsc_Permutation].
    + intros Hfresh. unfold chat_post, body.
      cbn [ChatBody.request_id ChatBody.content ChatBody.message_type].
      rewrite (truthy_string_Some _ Hr).
      destruct content as [|c content]; [contradiction|].
      cbn [truthy_jsstring negb orb]. rewrite Hf, Hi, Es.
      cbn [negb andb truthy_string]. rewrite andb_false_r.
      unfold chatMessage_create. rewrite Hfresh.
      rewrite (find_existsb_id _ _ _ _ Hf).
      assert (Hp : existsb_id Profile.id userId (profiles (base st)) = true).
      { unfold roleIs in Es.
        destruct (profile_findUnique (base st) userId) as [p|] eqn:Ep;
          [|discriminate].
        apply (find_existsb_id _ _ _ _ Ep). }
      rewrite Hp. reflexivity.
  - unfold chat_get, chat_post, body.
    cbn [ChatBody.request_id ChatBody.content ChatBody.message_type].
    rewrite (truthy_string_Some _ Hr).
    destruct content as [|c content]; [contradiction|].
    cbn [truthy_jsstring negb orb]. rewrite Hf, Hi, Es.
    cbn [negb andb truthy_string isUser]. rewrite orb_false_r.
    destruct (String.eqb (RequestRow.dreamerId request) userId);
      cbn [negb andb]; repeat split.
Qed.

Lemma chat_gate_without_interpreter_witness :
  statusOf (chat_get "u1" (Some "r1") storeOpenRequest) = 403
  /\ statusOf (fst (chat_post 1600 "c1" "root"
                      (ChatBody.mk (Some "r1") (Some fiveLetters) None)
                      storeOpenRequest)) = 200.
Proof.
  split.
  - exact (proj1 (chat_gate_without_interpreter 1600 "c1" "u1" "r1"
                    fiveLetters
                    (RequestRow.mk "r1" "d1" "u1" None "Please interpret"
                       request_open 1500)
                    storeOpenRequest ltac:(discriminate) ltac:(discriminate)
                    eq_refl eq_refl)).
  - rewrite (proj2 (chat_gate_without_interpreter 1600 "c1" "root" "r1"
                      fiveLetters
                      (RequestRow.mk "r1" "d1" "u1" None "Please interpret"
                         request_open 1500)
                      storeOpenRequest ltac:(discriminate) ltac:(discriminate)
                      eq_refl eq_refl) eq_refl).
    reflexivity.
Defined.

(** X27. [PATCH /requests/:id] succeeds only within the requester's
    standing: a status change needs a super_admin, the request's dreamer
    or its interpreter; an assignment needs an admin or super_admin.  An
    assignment without status moves the request to [in_progress]; dream,
    dreamer, title and creation instant never change, the chat is not
    touched, and any answer other than 200 leaves the store as it was. *)
Theorem requests_patch_permissions (requesterId id : string)
  (body : RequestPatchBody.t) (st st' : Store) (a : Answer RequestRow.t) :
  requests_patch requesterId id body st = (a, st') ->
  (statusOf a <> 200 /\ st' = st)
  \/ (exists r r',
        let profile := profile_findUnique (base st) requesterId in
        request_findUnique st id = Some r
        /\ a = Ok 200 r'
        /\ st' = mkStore (base st)
                   (replace_row RequestRow.id id r' (requests st))
                   (chatMessages st)
        /\ (truthy_string (RequestPatchBody.status body) = true ->
            roleIs profile super_admin
            || String.eqb (RequestRow.dreamerId r) requesterId
            || isUser (RequestRow.interpreterId r) requesterId = true)
        /\ (truthy_string (RequestPatchBody.interpreterId body) = true ->
            roleIs profile admin || roleIs profile super_admin = true)
        /\ RequestRow.interpreterId r'
           = (if truthy_string (RequestPatchBody.interpreterId body)
              then RequestPatchBody.interpreterId body
              else RequestRow.interpreterId r)
        /\ (if truthy_string (RequestPatchBody.status body)
            then exists s, RequestPatchBody.status body = Some s
                           /\ parseRequestStatus s
                              = Some (RequestRow.status r')
            else RequestRow.status r'
                 = (if truthy_string (RequestPatchBody.interpreterId body)
                    then request_in_progress
                    else RequestRow.status r))
        /\ RequestRow.mk (RequestRow.id r') (RequestRow.dreamId r')
             (RequestRow.dreamerId r') (RequestRow.interpreterId r)
             (RequestRow.title r') (RequestRow.status r)
             (RequestRow.createdAt r')
           = r).
Proof.
  unfold requests_patch.
  match goal with |- _ -> ?G => set (Post := G) end.
  assert (Hleft : forall status error code,
             status <> 200 ->
             (Fail status error code : Answer RequestRow.t, st) = (a, st') ->
             Post).
  { intros s e c Hs H. injection H as <- <-. left.
    split; [exact Hs|reflexivity]. }
  destruct (request_findUnique st id) as [r|] eqn:Ef;
    [|apply Hleft; discriminate].
  cbv zeta.
  set (profile := profile_findUnique (base st) requesterId).
  set (isDreamer := String.eqb (RequestRow.dreamerId r) requesterId).
  set (isInterpreter := isUser (RequestRow.interpreterId r) requesterId).
  destruct (negb (roleIs profile super_admin) && negb (roleIs profile admin)
            && negb isDreamer && negb isInterpreter) eqn:E0;
    [apply Hleft; discriminate|].
  destruct (truthy_string (RequestPatchBody.interpreterId body)
            && (negb (roleIs profile admin)
                && negb (roleIs profile super_admin))) eqn:E1;
    [apply Hleft; discriminate|].
  destruct (truthy_string (RequestPatchBody.status body)
            && negb (roleIs profile super_admin) && negb isDreamer
            && negb isInterpreter) eqn:E2;
    [apply Hleft; discriminate|].
  assert (P1 : truthy_string (RequestPatchBody.status body) = true ->
               roleIs profile super_admin || isDreamer || isInterpreter
               = true).
  { intros T. rewrite T in E2.
    destruct (roleIs profile super_admin), isDreamer, isInterpreter;
      try reflexivity; discriminate. }
  assert (P2 : truthy_string (RequestPatchBody.interpreterId body) = true ->
               roleIs profile admin || roleIs profile super_admin = true).
  { intros T. rewrite T in E1.
    destruct (roleIs profile admin), (roleIs profile super_admin);
      try reflexivity; discriminate. }
  clear E0 E1 E2.
  assert (Hright : forall r',
             RequestRow.interpreterId r'
             = (if truthy_string (RequestPatchBody.interpreterId body)
                then RequestPatchBody.interpreterId body
                else RequestRow.interpreterId r) ->
             (if truthy_string (RequestPatchBody.status body)
              then exists s, RequestPatchBody.status body = Some s
                             /\ parseRequestStatus s
                                = Some (RequestRow.status r')
              else RequestRow.status r'
                   = (if truthy_string (RequestPatchBody.interpreterId body)
                      then request_in_progress
                      else RequestRow.status r)) ->
             RequestRow.mk (RequestRow.id r') (RequestRow.dreamId r')
               (RequestRow.dreamerId r') (RequestRow.interpreterId r)
               (RequestRow.title r') (RequestRow.status r)
               (RequestRow.createdAt r')
             = r ->
             (Ok 200 r',
              mkStore (base st)
                (replace_row RequestRow.id id r' (requests st))
                (chatMessages st))
             = (a, st') -> Post).
  { intros r' Hi Hs Hrest H. injection H as <- <-. right.
    exists r, r'. cbv zeta. fold profile. fold isDreamer. fold isInterpreter.
    repeat (split; [first [reflexivity | assumption]|]). assumption. }
  clearbody Post.
  unfold request_update. rewrite Ef.
  destruct (truthy_string (RequestPatchBody.status body)) eqn:Ts.
  - destruct (RequestPatchBody.status body) as [s|] eqn:Es; [|discriminate].
    destruct (parseRequestStatus s) as [status'|] eqn:Ep.
    2:{ destruct (truthy_string (RequestPatchBody.interpreterId body));
          apply Hleft; discriminate. }
    destruct (truthy_string (RequestPatchBody.interpreterId body)) eqn:Ti.
    + destruct (RequestPatchBody.interpreterId body) as [i|] eqn:Ei;
        [|discriminate].
      destruct (negb (existsb_id Profile.id i (profiles (base st))));
        [apply Hleft; discriminate|].
      apply Hright; [reflexivity| |destruct r; reflexivity].
      exists s. split; [reflexivity|exact Ep].
    + apply Hright; [reflexivity| |destruct r; reflexivity].
      exists s. split; [reflexivity|exact Ep].
  - destruct (truthy_string (RequestPatchBody.interpreterId body)) eqn:Ti.
    + destruct (RequestPatchBody.interpreterId body) as [i|] eqn:Ei;
        [|discriminate].
      cbn [parseRequestStatus String.eqb Ascii.eqb Bool.eqb].
      destruct (negb (existsb_id Profile.id i (profiles (base st))));
        [apply Hleft; discriminate|].
      apply Hright; [reflexivity|reflexivity|destruct r; reflexivity].
    + apply Hleft; discriminate.
Qed.

Lemma requests_patch_permissions_witness :
  statusOf (fst (requests_patch "a1" "r1"
                   (RequestPatchBody.mk None (Some "i1")) storeOpenRequest))
  = 200
  /\ statusOf (fst (requests_patch "a1" "r1"
                      (RequestPatchBody.mk (Some "completed") None)
                      storeOpenRequest)) = 403.
Proof.
  split.
  - destruct (requests_patch_permissions "a1" "r1"
                (RequestPatchBody.mk None (Some "i1")) storeOpenRequest _ _
                (surjective_pairing _)) as [[Hne _]|(r & r' & H)].
    + exfalso. apply Hne. reflexivity.
    + cbv zeta in H. destruct H as (_ & Ha & _). rewrite Ha. reflexivity.
  - reflexivity.
Defined.

(** X28. Assigning an interpreter opens the chat of a request.  While the
    request has no interpreter its dreamer (not a super_admin) is refused;
    once an admin or super_admin has patched it with the id of an
    existing profile, the request is [in_progress] and the dreamer and
    the assigned profile can both write to its chat. *)
Theorem request_assignment_opens_chat (now : Z)
  (newId requester requestId interp : string) (content : JsString)
  (request : RequestRow.t) (st : Store) :
  requestId <> "" -> interp <> "" -> content <> [] ->
  request_findUnique st requestId = Some request ->
  RequestRow.interpreterId request = None ->
  roleIs (profile_findUnique (base st) requester) admin
  || roleIs (profile_findUnique (base st) requester) super_admin = true ->
  roleIs (profile_findUnique (base st) (RequestRow.dreamerId request))
    super_admin = false ->
  existsb_id Profile.id interp (profiles (base st)) = true ->
  existsb_id Profile.id (RequestRow.dreamerId request) (profiles (base st))
  = true ->
  existsb_id ChatMessage.id newId (chatMessages st) = false ->
  let body := ChatBody.mk (Some requestId) (Some content) None in
  exists r' st1,
    requests_patch requester requestId (RequestPatchBody.mk None (Some interp))
      st = (Ok 200 r', st1)
    /\ RequestRow.interpreterId r' = Some interp
    /\ RequestRow.status r' = request_in_progress
    /\ chat_post now newId (RequestRow.dreamerId request) body st
       = (Fail 403 chatUnavailable None, st)
    /\ statusOf (fst (chat_post now newId (RequestRow.dreamerId request) body
                        st1)) = 200
    /\ statusOf (fst (chat_post now newId interp body st1)) = 200.
Proof.
  intros Hr Hne Hc Hf Hi Hrole Hds Hip Hdp Hfresh body.
  pose proof (find_some _ _ Hf) as [_ Hid]. apply String.eqb_eq in Hid.
  set (r' := RequestRow.mk (RequestRow.id request) (RequestRow.dreamId request)
               (RequestRow.dreamerId request) (Some interp)
               (RequestRow.title request) request_in_progress
               (RequestRow.createdAt request)).
  set (st1 := mkStore (base st)
                (replace_row RequestRow.id requestId r' (requests st))
                (chatMessages st)).
  assert (Hf1 : request_findUnique st1 requestId = Some r').
  { unfold request_findUnique, st1. cbn [requests].
    apply (find_replace_row_key RequestRow.id requestId r' request _ Hf).
    exact Hid. }
  assert (Hpost : forall userId,
             RequestRow.dreamerId request = userId \/ interp = userId ->
             existsb_id Profile.id userId (profiles (base st)) = true ->
             statusOf (fst (chat_post now newId userId body st1)) = 200).
  { intros userId Hpart Hprof. unfold chat_post, body.
    cbn [ChatBody.request_id ChatBody.content ChatBody.message_type].
    rewrite (truthy_string_Some _ Hr).
    destruct content as [|c content]; [contradiction|].
    cbn [truthy_jsstring negb orb]. rewrite Hf1.
    cbn [RequestRow.dreamerId RequestRow.interpreterId r' isUser].
    rewrite (truthy_string_Some _ Hne). cbn [negb andb].
    assert (Hp : negb (String.eqb (RequestRow.dreamerId request) userId
                       || String.eqb interp userId) = false).
    { destruct Hpart as [<- | <-]; rewrite String.eqb_refl;
        [reflexivity|rewrite orb_true_r; reflexivity]. }
    rewrite Hp. cbn [andb]. unfold chatMessage_create.
    cbn [chatMessages requests base st1 truthy_string].
    rewrite Hfresh.
    assert (Hex : existsb_id RequestRow.id requestId
                    (replace_row RequestRow.id requestId r' (requests st))
                  = true).
    { apply (find_existsb_id RequestRow.id requestId _ r').
      exact Hf1. }
    rewrite Hex, Hprof. reflexivity. }
  exists r', st1.
  split; [|split; [reflexivity|split; [reflexivity|split; [|split]]]].
  - unfold requests_patch. rewrite Hf, Hi.
    cbn [RequestPatchBody.status RequestPatchBody.interpreterId
         truthy_string isUser andb].
    fold (truthy_string (Some interp)). rewrite (truthy_string_Some _ Hne).
    rewrite !andb_true_r.
    assert (E0 : negb (roleIs (profile_findUnique (base st) requester)
                         super_admin)
                 && negb (roleIs (profile_findUnique (base st) requester)
                            admin)
                 && negb (String.eqb (RequestRow.dreamerId request) requester)
                 = false).
    { destruct (roleIs (profile_findUnique (base st) requester) super_admin);
        [reflexivity|].
      destruct (roleIs (profile_findUnique (base st) requester) admin);
        [reflexivity|discriminate]. }
    rewrite E0.
    assert (E1 : negb (roleIs (profile_findUnique (base st) requester) admin)
                 && negb (roleIs (profile_findUnique (base st) requester)
                            super_admin) = false).
    { destruct (roleIs (profile_findUnique (base st) requester) admin);
        [reflexivity|].
      destruct (roleIs (profile_findUnique (base st) requester) super_admin);
        [reflexivity|discriminate]. }
    cbn [andb]. rewrite E1.
    unfold request_update. rewrite Hf.
    change (parseRequestStatus "in_progress") with (Some request_in_progress).
    cbv iota. rewrite Hip. cbn [negb]. reflexivity.
  - unfold chat_post, body.
    cbn [ChatBody.request_id ChatBody.content ChatBody.message_type].
    rewrite (truthy_string_Some _ Hr).
    destruct content as [|c content]; [contradiction|].
    cbn [truthy_jsstring negb orb]. rewrite Hf, Hi, Hds.
    rewrite String.eqb_refl. reflexivity.
  - apply Hpost; [left; reflexivity|exact Hdp].
  - apply Hpost; [right; reflexivity|exact Hip].
Qed.

Lemma request_assignment_opens_chat_witness :
  exists r' st1,
    requests_patch "a1" "r1" (RequestPatchBody.mk None (Some "i1"))
      storeOpenRequest = (Ok 200 r', st1)
    /\ statusOf (fst (chat_post 1600 "c1" "u1"
                        (ChatBody.mk (Some "r1") (Some fiveLetters) None)
                        st1)) = 200.
Proof.
  destruct (request_assignment_opens_chat 1600 "c1" "a1" "r1" "i1"
              fiveLetters
              (RequestRow.mk "r1" "d1" "u1" None "Please interpret"
                 request_open 1500)
              storeOpenRequest ltac:(discriminate) ltac:(discriminate)
              ltac:(discriminate) eq_refl eq_refl eq_refl eq_refl eq_refl
              eq_refl eq_refl) as (r' & st1 & Hp & _ & _ & _ & Hs & _).
  exists r', st1. split; [exact Hp|exact Hs].
Defined.

(** *** Deleting an account *)

Lemma filter_not_key {A : Type} (key : A -> string) (id : string)
  (q : A -> bool) (l : list A) (x : A) :
  In x (filter (fun y => negb (String.eqb (key y) id) && q y) l) ->
  key x <> id.
Proof.
  intros H. apply filter_In in H. destruct H as [_ H].
  apply andb_true_iff in H. destruct H as [H _].
  apply negb_true_iff in H. apply String.eqb_neq. exact H.
Qed.

Lemma filter_not_key1 {A : Type} (key : A -> string) (id : string)
  (l : list A) (x : A) :
  In x (filter (fun y => negb (String.eqb (key y) id)) l) -> key x <> id.
Proof.
  intros H. apply filter_In in H. destruct H as [_ H].
  apply negb_true_iff in H. apply String.eqb_neq. exact H.
Qed.

Lemma isUser_false (x : option string) (userId : string) :
  isUser x userId = false -> x <> Some userId.
Proof.
  intros H E. subst x. cbn in H. rewrite String.eqb_refl in H. discriminate.
Qed.

(** X29. Deleting an account leaves no row that refers to the deleted
    user: the user and the profile are gone, no dream, request, message,
    comment, chat message, subscription or payment names the user as
    owner, sender or interpreter.  Dreams of other dreamers all survive
    with their content (those the user was interpreting become
    unassigned), and plans are untouched.  The answer is 200 exactly when
    a user of that id existed; without one the answer is 500 and nothing
    changes. *)
Theorem account_deletion_cascades (userId : string) (st st' : Store)
  (a : Answer unit) :
  profile_delete_account userId st = (a, st') ->
  (statusOf a = 500 /\ st' = st
   /\ existsb_id User.id userId (users (base st)) = false)
  \/ (a = Ok 200 tt
      /\ existsb_id User.id userId (users (base st)) = true
      /\ (forall u, In u (users (base st')) -> User.id u <> userId)
      /\ (forall p, In p (profiles (base st')) -> Profile.id p <> userId)
      /\ (forall d, In d (dreams (base st')) ->
            Dream.dreamerId d <> userId
            /\ Dream.interpreterId d <> Some userId)
      /\ (forall m, In m (messages (base st')) ->
            Message.senderId m <> userId)
      /\ (forall c, In c (comments (base st')) -> Comment.userId c <> userId)
      /\ (forall s, In s (userPlans (base st')) ->
            UserPlan.userId s <> userId)
      /\ (forall p, In p (payments (base st')) -> Payment.userId p <> userId)
      /\ (forall r, In r (requests st') ->
            RequestRow.dreamerId r <> userId
            /\ RequestRow.interpreterId r <> Some userId)
      /\ (forall m, In m (chatMessages st') ->
            ChatMessage.senderId m <> userId)
      /\ (forall d, In d (dreams (base st)) ->
            Dream.dreamerId d <> userId ->
            In (unassignDream userId d) (dreams (base st')))
      /\ plans (base st') = plans (base st)).
Proof.
  unfold profile_delete_account, user_delete. cbv zeta.
  destruct (existsb_id User.id userId (users (base st))) eqn:Eu; cbn [negb].
  2:{ intros H; injection H as <- <-. left. repeat split. }
  intros H; injection H as <- <-. right.
  cbn [base users profiles dreams messages comments userPlans payments plans
       requests chatMessages].
  split; [reflexivity|].
  split; [reflexivity|].
  split; [intros u; apply filter_not_key1|].
  split; [intros p; apply filter_not_key1|].
  split.
  { intros d Hd. apply in_map_iff in Hd. destruct Hd as (d0 & <- & Hd0).
    apply filter_not_key1 in Hd0. unfold unassignDream.
    destruct (isUser (Dream.interpreterId d0) userId) eqn:Ei;
      cbn [Dream.dreamerId Dream.interpreterId].
    - split; [exact Hd0|discriminate].
    - split; [exact Hd0|apply isUser_false; exact Ei]. }
  split; [intros m; apply filter_not_key|].
  split; [intros c; apply filter_not_key|].
  split; [intros s; apply filter_not_key1|].
  split; [intros p; apply filter_not_key1|].
  split.
  { intros r Hr. apply in_map_iff in Hr. destruct Hr as (r0 & <- & Hr0).
    apply filter_In in Hr0. destruct Hr0 as [_ Hr0].
    apply negb_true_iff, orb_false_iff in Hr0. destruct Hr0 as [Hr0 _].
    apply String.eqb_neq in Hr0. unfold unassignRequest.
    destruct (isUser (RequestRow.interpreterId r0) userId) eqn:Ei;
      cbn [RequestRow.dreamerId RequestRow.interpreterId].
    - split; [exact Hr0|discriminate].
    - split; [exact Hr0|apply isUser_false; exact Ei]. }
  split; [intros m; apply filter_not_key|].
  split; [|reflexivity].
  intros d Hd Hne. apply in_map. apply filter_In. split; [exact Hd|].
  apply negb_true_iff, String.eqb_neq. exact Hne.
Qed.

Lemma account_deletion_cascades_witness :
  (forall m,
      In m (messages
              (base (snd (profile_delete_account "i1" storeOpenRequest)))) ->
      Message.senderId m <> "i1")
  /\ In (Dream.mk "d1" "u1" None "A dream" sevenLetters sevenLetters None
          None pending_interpretation 1000)
        (dreams (base (snd (profile_delete_account "i1" storeOpenRequest)))).
Proof.
  destruct (account_deletion_cascades "i1" storeOpenRequest _ _
              (surjective_pairing _))
    as [(H500 & _)
       |(_ & _ & _ & _ & _ & Hm & _ & _ & _ & _ & _ & Hkeep & _)].
  - discriminate H500.
  - split; [exact Hm|].
    apply (Hkeep (Dream.mk "d1" "u1" (Some "i1") "A dream" sevenLetters
                    sevenLetters None None pending_interpretation 1000)).
    + left. reflexivity.
    + discriminate.
Defined.

(** X30. When the interpreter of a dream deletes their account the
    conversation closes: the dream stays with its dreamer but has no
    interpreter any more, so the dreamer, who could write before, is now
    refused with NO_INTERPRETER_ASSIGNED, and the interpreter's own
    messages are gone from the thread. *)
Theorem interpreter_leaving_closes_thread (now : Z)
  (newId dreamId interp : string) (content : JsString) (dream : Dream.t)
  (st : Store) :
  dreamId <> "" -> interp <> "" -> content <> [] ->
  dream_findUnique (base st) dreamId = Some dream ->
  Dream.interpreterId dream = Some interp ->
  Dream.dreamerId dream <> interp ->
  existsb_id User.id interp (users (base st)) = true ->
  existsb_id Profile.id (Dream.dreamerId dream) (profiles (base st)) = true ->
  existsb_id Message.id newId (messages (base st)) = false ->
  let body := MessageBody.mk (Some dreamId) (Some content) None in
  let st' := snd (profile_delete_account interp st) in
  status (fst (messages_post now newId (Dream.dreamerId dream) body (base st)))
  = 201
  /\ statusOf (fst (profile_delete_account interp st)) = 200
  /\ (exists dream',
        dream_findUnique (base st') dreamId = Some dream'
        /\ Dream.dreamerId dream' = Dream.dreamerId dream
        /\ Dream.interpreterId dream' = None)
  /\ messages_post now newId (Dream.dreamerId dream) body (base st')
     = (mkResponse 403
          (Error "Cannot send messages until an interpreter is assigned"
             (Some "NO_INTERPRETER_ASSIGNED")), base st')
  /\ (forall m, In m (messages (base st')) -> Message.senderId m <> interp).
Proof.
  intros Hd Hne Hc Hf Hi Hown Hu Hdp Hfresh body st'.
  split.
  { apply (messages_post_text_201 now newId (Dream.dreamerId dream) dreamId
             interp content dream (base st) Hd Hc Hf Hi Hne);
      [left; reflexivity|exact Hfresh|exact Hdp]. }
  unfold st', profile_delete_account, user_delete. cbv zeta.
  rewrite Hu. cbn [negb fst snd base statusOf].
  split; [reflexivity|].
  assert (Hfind : forall l,
             find (fun d => String.eqb (Dream.id d) dreamId) l = Some dream ->
             find (fun d => String.eqb (Dream.id d) dreamId)
               (map (unassignDream interp)
                  (filter (fun d => negb (String.eqb (Dream.dreamerId d)
                                            interp)) l))
             = Some (unassignDream interp dream)).
  { induction l as [|b l IH]; [discriminate|]. cbn [find filter].
    destruct (String.eqb (Dream.id b) dreamId) eqn:Eb.
    - intros E. injection E as ->.
      assert (En : String.eqb (Dream.dreamerId dream) interp = false)
        by (apply String.eqb_neq; exact Hown).
      rewrite En. cbn [negb map find].
      assert (Ei : Dream.id (unassignDream interp dream) = Dream.id dream).
      { unfold unassignDream. destruct (isUser _ _); reflexivity. }
      rewrite Ei, Eb. reflexivity.
    - intros E. destruct (negb (String.eqb (Dream.dreamerId b) interp)).
      + cbn [map find].
        assert (Ei : Dream.id (unassignDream interp b) = Dream.id b).
        { unfold unassignDream. destruct (isUser _ _); reflexivity. }
        rewrite Ei, Eb. apply IH. exact E.
      + apply IH. exact E. }
  assert (Hun : unassignDream interp dream
                = Dream.mk (Dream.id dream) (Dream.dreamerId dream) None
                    (Dream.title dream) (Dream.content dream)
                    (Dream.description dream) (Dream.dreamDate dream)
                    (Dream.mood dream) (Dream.status dream)
                    (Dream.createdAt dream)).
  { unfold unassignDream. rewrite Hi. cbn [isUser].
    rewrite String.eqb_refl. reflexivity. }
  split; [|split].
  - eexists. split; [|split].
    + unfold dream_findUnique. cbn [dreams]. apply Hfind. exact Hf.
    + rewrite Hun. reflexivity.
    + rewrite Hun. reflexivity.
  - unfold messages_post, body.
    cbn [MessageBody.dream_id MessageBody.content MessageBody.audio].
    rewrite (truthy_string_Some _ Hd).
    destruct content as [|c content]; [contradiction|].
    cbn [truthy_jsstring negb andb].
    unfold dream_findUnique at 1. cbn [dreams].
    rewrite (Hfind _ Hf), Hun. reflexivity.
  - intros m. cbn [messages]. apply filter_not_key.
Qed.

Lemma interpreter_leaving_closes_thread_witness :
  code_of
    (fst (messages_post 4000 "m3" "u1"
            (MessageBody.mk (Some "d1") (Some fiveLetters) None)
            (base (snd (profile_delete_account "i1" storeOpenRequest)))))
  = Some "NO_INTERPRETER_ASSIGNED".
Proof.
  destruct (interpreter_leaving_closes_thread 4000 "m3" "d1" "i1" fiveLetters
              (Dream.mk "d1" "u1" (Some "i1") "A dream" sevenLetters
                 sevenLetters None None pending_interpretation 1000)
              storeOpenRequest ltac:(discriminate) ltac:(discriminate)
              ltac:(discriminate) eq_refl eq_refl ltac:(discriminate)
              eq_refl eq_refl eq_refl) as (_ & _ & _ & H & _).
  cbv zeta in H. cbn [Dream.dreamerId] in H. rewrite H. reflexivity.
Defined.
